(** * res_json: JSON path functions and applications of the dialplan

    A shallow embedding of [res_json.c] and the properties of its
    natural-language specification.

    - [Libc] holds the C library routines the source calls on strings
      ([strsep], [strcasecmp], [sscanf] with the format [%3d], [atoi],
      the [(int)] cast, [printf] with [%d]) and Asterisk's string helpers
      ([ast_strlen_zero], [ast_copy_string]).
    - [AstJson] holds the JSON value model behind [struct ast_json] and the
      container operations of [asterisk/json.h] the source uses.
    - The entry points [jsonelement_exec], [jsonvariables_exec],
      [jsonadd_exec], [jsonset_exec] and [jsondelete_exec] follow, over a
      channel whose variables are a finite map from names to text, and
      then the two formatting functions [jsonpretty_exec] and
      [jsoncompress_exec].

    What the source takes from outside and never defines is a parameter of
    the development: the JSON grammar and the serialiser, [atof] and the
    [%f] conversion of [printf]. What the JSON library checks is modelled:
    [json_loads] accepts a text only with an array or an object at the
    root, and text that becomes a JSON string or the key of a member must
    be valid UTF-8. *)

From Stdlib Require Import ZArith String Ascii List Lia DecimalString DecimalPos DecimalZ SpecFloat.
From stdpp Require Import gmap strings.

Open Scope string_scope.
Open Scope Z_scope.

(** ** The C library on strings *)

Module Libc.

(** A C string is a [string]; a [char *] that may be [NULL] is an
    [option string]. *)

Definition ast_strlen_zero (s : option string) : bool :=
  match s with
  | None => true
  | Some EmptyString => true
  | Some (String _ _) => false
  end.

Definition strlen (s : string) : nat := String.length s.

Definition isspace (c : ascii) : bool :=
  let n := nat_of_ascii c in
  Nat.eqb n 32 || (Nat.leb 9 n && Nat.leb n 13).

Definition isdigit (c : ascii) : bool :=
  let n := nat_of_ascii c in
  Nat.leb 48 n && Nat.leb n 57.

Definition digit_value (c : ascii) : Z := Z.of_nat (nat_of_ascii c) - 48.

Definition tolower (c : ascii) : ascii :=
  let n := nat_of_ascii c in
  if Nat.leb 65 n && Nat.leb n 90 then ascii_of_nat (n + 32) else c.

(** [strcasecmp a b]: the difference of the first two bytes that differ
    once lowered, 0 when there is none. *)
Fixpoint strcasecmp (a b : string) : Z :=
  match a, b with
  | EmptyString, EmptyString => 0
  | EmptyString, String d _ => - Z.of_nat (nat_of_ascii (tolower d))
  | String c _, EmptyString => Z.of_nat (nat_of_ascii (tolower c))
  | String c a', String d b' =>
      if Ascii.eqb (tolower c) (tolower d) then strcasecmp a' b'
      else Z.of_nat (nat_of_ascii (tolower c)) - Z.of_nat (nat_of_ascii (tolower d))
  end.

(** [strsep(&stringp, delim)] with a one-byte delimiter set: the token up
    to the first delimiter, and what [stringp] points to afterwards
    ([NULL] once the last token is taken). *)
Fixpoint strsep_token (s : string) (delim : ascii) : string * option string :=
  match s with
  | EmptyString => (EmptyString, None)
  | String c s' =>
      if Ascii.eqb c delim then (EmptyString, Some s')
      else let (token, rest) := strsep_token s' delim in (String c token, rest)
  end.

Definition strsep (stringp : option string) (delim : ascii)
  : option string * option string :=
  match stringp with
  | None => (None, None)
  | Some s => let (token, rest) := strsep_token s delim in (Some token, rest)
  end.

(** All the tokens successive calls of [strsep] return before it returns
    [NULL]. *)
Fixpoint strsep_all (s : string) (delim : ascii) : list string :=
  match s with
  | EmptyString => [EmptyString]
  | String c s' =>
      if Ascii.eqb c delim then EmptyString :: strsep_all s' delim
      else match strsep_all s' delim with
           | token :: tokens => String c token :: tokens
           | [] => [String c EmptyString]
           end
  end.

(** The integer conversion of [scanf] with a field width: white space is
    skipped, a sign counts in the width, then digits as far as the width
    goes. The conversion succeeds when at least one digit was read. *)
Fixpoint skip_space (s : string) : string :=
  match s with
  | EmptyString => EmptyString
  | String c s' => if isspace c then skip_space s' else s
  end.

Fixpoint scan_digits (width : nat) (s : string) (acc : option Z) : option Z :=
  match width, s with
  | S width', String c s' =>
      if isdigit c
      then scan_digits width' s' (Some (10 * default 0 acc + digit_value c))
      else acc
  | _, _ => acc
  end.

Definition scan_int (width : nat) (s : string) : option Z :=
  match skip_space s with
  | String c s' =>
      if Ascii.eqb c "-" then Z.opp <$> scan_digits (width - 1) s' None
      else if Ascii.eqb c "+" then scan_digits (width - 1) s' None
      else scan_digits width (String c s') None
  | EmptyString => None
  end.

(** [sscanf(s, "%3d", &i) == 1] holds exactly when [sscanf_3d s] is
    [Some i]; otherwise [i] is not assigned. *)
Definition sscanf_3d (s : string) : option Z := scan_int 3 s.

(** The conversion of a 64-bit integer to [int]. *)
Definition cast_int (n : Z) : Z := (n + 2 ^ 31) mod 2 ^ 32 - 2 ^ 31.

(** [atoi]: [strtol] in base 10, which saturates at the bounds of [long],
    then the conversion to [int]; 0 when there is no digit. *)
Definition strtol_clamp (n : Z) : Z := Z.max (- 2 ^ 63) (Z.min n (2 ^ 63 - 1)).

Definition atoi (s : string) : Z :=
  cast_int (strtol_clamp (default 0 (scan_int (S (strlen s)) s))).

(** [printf] with [%d]. *)
Definition printf_d (n : Z) : string := NilZero.string_of_int (Z.to_int n).

(** [ast_copy_string(dst, src, size)]: at most [size - 1] bytes of [src]. *)
Fixpoint string_take (n : nat) (s : string) : string :=
  match n, s with
  | S n', String c s' => String c (string_take n' s')
  | _, _ => EmptyString
  end.

Definition ast_copy_string (src : string) (size : nat) : string :=
  string_take (size - 1) src.

End Libc.

(** ** The JSON values of [asterisk/json.h] *)

Module AstJson.

(** A [struct ast_json *] that is not [NULL] points to one of these. The
    members of an object are kept in insertion order; a real number is an
    IEEE 754 binary64 value. *)
#[warnings="-register-all"] Inductive json : Type :=
| JObject (members : list (string * json))
| JArray (elements : list json)
| JString (s : string)
| JInteger (n : Z)
| JReal (d : spec_float)
| JTrue
| JFalse
| JNull.

Inductive ast_json_type : Type :=
| AST_JSON_OBJECT
| AST_JSON_ARRAY
| AST_JSON_STRING
| AST_JSON_INTEGER
| AST_JSON_REAL
| AST_JSON_TRUE
| AST_JSON_FALSE
| AST_JSON_NULL.

Definition ast_json_typeof (value : json) : ast_json_type :=
  match value with
  | JObject _ => AST_JSON_OBJECT
  | JArray _ => AST_JSON_ARRAY
  | JString _ => AST_JSON_STRING
  | JInteger _ => AST_JSON_INTEGER
  | JReal _ => AST_JSON_REAL
  | JTrue => AST_JSON_TRUE
  | JFalse => AST_JSON_FALSE
  | JNull => AST_JSON_NULL
  end.

(** *** UTF-8, as the library checks it. Text that becomes a JSON string
    or the key of a member goes through [utf8_check_string]: a byte that
    begins no sequence, a sequence cut short, a byte that does not continue
    one, an overlong encoding, a surrogate half and a code point above
    U+10FFFF are refused. *)

Definition byte (c : ascii) : Z := Z.of_nat (nat_of_ascii c).

(** The length of the sequence a byte begins, 0 when it begins none. *)
Definition utf8_check_first (c : ascii) : nat :=
  let u := byte c in
  if u <? 128 then 1%nat
  else if u <=? 191 then 0%nat
  else if u <=? 193 then 0%nat
  else if u <=? 223 then 2%nat
  else if u <=? 239 then 3%nat
  else if u <=? 244 then 4%nat
  else 0%nat.

(** A sequence of two to four bytes: its first byte and the bytes that
    continue it. *)
Definition utf8_check_full (first : ascii) (continuation : list ascii) : bool :=
  let size := S (length continuation) in
  let u := byte first in
  let start :=
    match size with
    | 2%nat => Some (Z.land u 31)
    | 3%nat => Some (Z.land u 15)
    | 4%nat => Some (Z.land u 7)
    | _ => None
    end in
  let continue (value : option Z) (c : ascii) : option Z :=
    match value with
    | Some v =>
        let u := byte c in
        if (u <? 128) || (191 <? u) then None
        else Some (Z.shiftl v 6 + Z.land u 63)
    | None => None
    end in
  match fold_left continue continuation start with
  | Some value =>
      if 1114111 <? value then false
      else if (55296 <=? value) && (value <=? 57343) then false
      else if (Nat.eqb size 2 && (value <? 128))
              || (Nat.eqb size 3 && (value <? 2048))
              || (Nat.eqb size 4 && (value <? 65536)) then false
      else true
  | None => false
  end.

Fixpoint utf8_check_string (s : string) : bool :=
  match s with
  | EmptyString => true
  | String b0 s1 =>
      match utf8_check_first b0 with
      | 1%nat => utf8_check_string s1
      | 2%nat =>
          match s1 with
          | String b1 s2 => utf8_check_full b0 [b1] && utf8_check_string s2
          | _ => false
          end
      | 3%nat =>
          match s1 with
          | String b1 (String b2 s3) => utf8_check_full b0 [b1; b2] && utf8_check_string s3
          | _ => false
          end
      | 4%nat =>
          match s1 with
          | String b1 (String b2 (String b3 s4)) =>
              utf8_check_full b0 [b1; b2; b3] && utf8_check_string s4
          | _ => false
          end
      | _ => false
      end
  end.

(** *** Constructors. A result of [None] is the [NULL] the C function
    returns. *)

Definition ast_json_true : option json := Some JTrue.
Definition ast_json_false : option json := Some JFalse.
Definition ast_json_null : option json := Some JNull.
Definition ast_json_array_create : json := JArray [].
Definition ast_json_object_create : json := JObject [].
Definition ast_json_integer_create (value : Z) : option json := Some (JInteger value).

(** No JSON string is made from a [NULL] pointer, nor from text that is
    not valid UTF-8. *)
Definition ast_json_string_create (value : option string) : option json :=
  match value with
  | Some text => if utf8_check_string text then Some (JString text) else None
  | None => None
  end.

(** No JSON real is made from an infinity or a NaN. *)
Definition is_finite (d : spec_float) : bool :=
  match d with
  | S754_zero _ | S754_finite _ _ _ => true
  | S754_infinity _ | S754_nan => false
  end.

Definition ast_json_real_create (value : spec_float) : option json :=
  if is_finite value then Some (JReal value) else None.

(** *** Members of an object, by key *)

Fixpoint members_get (key : string) (members : list (string * json)) : option json :=
  match members with
  | [] => None
  | (k, v) :: members' => if String.eqb k key then Some v else members_get key members'
  end.

(** Insert or replace: a key already present keeps its place. *)
Fixpoint members_set (key : string) (value : json) (members : list (string * json))
  : list (string * json) :=
  match members with
  | [] => [(key, value)]
  | (k, v) :: members' =>
      if String.eqb k key then (k, value) :: members'
      else (k, v) :: members_set key value members'
  end.

Fixpoint members_del (key : string) (members : list (string * json))
  : option (list (string * json)) :=
  match members with
  | [] => None
  | (k, v) :: members' =>
      if String.eqb k key then Some members'
      else cons (k, v) <$> members_del key members'
  end.

(** *** Container operations. The index of an array is a [size_t]: an
    [int] below zero passed for it is out of range. The functions that
    return an [int] status return [Some] of the changed container for 0 and
    [None] for -1, in which case the container is as it was. *)

Definition ast_json_array_get (array : json) (index : Z) : option json :=
  match array with
  | JArray elements => if index <? 0 then None else elements !! Z.to_nat index
  | _ => None
  end.

Definition ast_json_object_get (object : json) (key : string) : option json :=
  match object with
  | JObject members => members_get key members
  | _ => None
  end.

Definition ast_json_array_append (array : json) (value : option json) : option json :=
  match array, value with
  | JArray elements, Some v => Some (JArray (elements ++ [v]))
  | _, _ => None
  end.

Definition ast_json_array_set (array : json) (index : Z) (value : option json)
  : option json :=
  match array, value with
  | JArray elements, Some v =>
      if (0 <=? index) && (index <? Z.of_nat (length elements))
      then Some (JArray (<[Z.to_nat index := v]> elements))
      else None
  | _, _ => None
  end.

Definition ast_json_array_remove (array : json) (index : Z) : option json :=
  match array with
  | JArray elements =>
      if (0 <=? index) && (index <? Z.of_nat (length elements))
      then Some (JArray (delete (Z.to_nat index) elements))
      else None
  | _ => None
  end.

(** The key is checked first: a [NULL] key and a key that is not valid
    UTF-8 are refused, whatever the object and the value. *)
Definition ast_json_object_set (object : json) (key : option string) (value : option json)
  : option json :=
  match key with
  | Some k =>
      if utf8_check_string k then
        match object, value with
        | JObject members, Some v => Some (JObject (members_set k v members))
        | _, _ => None
        end
      else None
  | None => None
  end.

Definition ast_json_object_del (object : json) (key : string) : option json :=
  match object with
  | JObject members => JObject <$> members_del key members
  | _ => None
  end.

(** Every text of a value, the strings and the keys of the members, is
    valid UTF-8. The library makes no other value: its constructors and
    [ast_json_object_set] check the text they are given, and so does the
    parser. *)
Fixpoint json_utf8 (value : json) : bool :=
  match value with
  | JObject members =>
      forallb (fun kv => utf8_check_string (fst kv) && json_utf8 (snd kv)) members
  | JArray elements => forallb json_utf8 elements
  | JString s => utf8_check_string s
  | _ => true
  end.

(** The number of nodes of a value. *)
Fixpoint json_size (value : json) : nat :=
  match value with
  | JObject members => S (list_sum (map (fun kv => json_size (snd kv)) members))
  | JArray elements => S (list_sum (map json_size elements))
  | _ => 1
  end.

End AstJson.

(** ** res_json.c *)

Import Libc AstJson.

Definition ASTJSON_OK : Z := 0.
Definition ASTJSON_UNDECIDED : Z := 1.
Definition ASTJSON_ARG_NEEDED : Z := 2.
Definition ASTJSON_PARSE_ERROR : Z := 3.
Definition ASTJSON_NOTFOUND : Z := 4.
Definition ASTJSON_INVALID_TYPE : Z := 5.
Definition ASTJSON_ADD_FAILED : Z := 6.
Definition ASTJSON_SET_FAILED : Z := 7.
Definition ASTJSON_DELETE_FAILED : Z := 8.

(** The variables of a channel. [pbx_builtin_getvar_helper] returns [NULL]
    for a variable that is not set. *)
Abbreviation channel := (gmap string string).

Definition pbx_builtin_getvar_helper (chan : channel) (name : string) : option string :=
  chan !! name.

Definition pbx_builtin_setvar_helper (chan : channel) (name value : string) : channel :=
  <[name := value]> chan.

Definition json_set_operation_result (chan : channel) (result : Z) : channel :=
  pbx_builtin_setvar_helper chan "JSONRESULT" (printf_d result).

(** The arguments of an application, already separated: [app_arg args i] is
    the i-th field declared with [AST_APP_ARG], [NULL] when the call gave
    fewer arguments. An empty argument string is the empty list. *)
Definition app_arg (args : list string) (i : nat) : option string := args !! i.

(** *** Paths *)

(** [if (thispath[strlen(thispath) - 1] == '/') thispath[strlen(thispath) - 1] = 0;]
    On the empty string the byte tested lies before the string, and the
    string stays empty. *)
Fixpoint chop_trailing_slash (s : string) : string :=
  match s with
  | EmptyString => EmptyString
  | String c EmptyString => if Ascii.eqb c "/" then EmptyString else s
  | String c s' => String c (chop_trailing_slash s')
  end.

(** [ast_strdupa(path + ((path[0] == '/') ? 1 : 0))], then the trailing
    slash is cut. *)
Definition strip_path (path : string) : string :=
  chop_trailing_slash
    match path with
    | String c path' => if Ascii.eqb c "/" then path' else path
    | EmptyString => path
    end.

(** The step all four walks share:
[[
    if (sscanf(pathpiece, "%3d", &ixarray) == 1)
        nextobject = ast_json_array_get(thisobject, ixarray);
    else
        nextobject = ast_json_object_get(thisobject, pathpiece);
]] *)
Definition next_object (thisobject : json) (pathpiece : string) : option json :=
  match sscanf_3d pathpiece with
  | Some ixarray => ast_json_array_get thisobject ixarray
  | None => ast_json_object_get thisobject pathpiece
  end.

(** [ixarray] after that step: [sscanf] assigns it only when it converts. *)
Definition next_ixarray (ixarray : Z) (pathpiece : string) : Z :=
  default ixarray (sscanf_3d pathpiece).

(** [nextobject] points into [thisobject]: what a walk changes below
    [nextobject] is a change of the slot of [thisobject] it was fetched
    from. [write_back] gives [thisobject] after such a change. *)
Definition write_back (thisobject : json) (pathpiece : string) (nextobject : json) : json :=
  match sscanf_3d pathpiece, thisobject with
  | Some ixarray, JArray elements => JArray (<[Z.to_nat ixarray := nextobject]> elements)
  | None, JObject members => JObject (members_set pathpiece nextobject members)
  | _, _ => thisobject
  end.

(** The rule for booleans of [jsonadd] and [jsonset]. *)
Definition value_is_false (value : option string) : bool :=
  match value with
  | None => true
  | Some v =>
      Nat.eqb (strlen v) 0
      || (strcasecmp v "0" =? 0)
      || (strcasecmp v "no" =? 0) || (strcasecmp v "n" =? 0)
      || (strcasecmp v "false" =? 0) || (strcasecmp v "f" =? 0)
  end.

Definition json_boolean (value : option string) : option json :=
  if value_is_false value then ast_json_false else ast_json_true.

(** The type name [jsonelement_exec] reports in [JSONTYPE], by the switch
    on [jtype]. *)
Definition element_type (thisobject : json) : string :=
  match thisobject with
  | JFalse => "bool"
  | JTrue => "bool"
  | JNull => "null"
  | JReal _ => "number"
  | JInteger _ => "number"
  | JString _ => "string"
  | JArray _ => "array"
  | JObject _ => "node"
  end.

Section ResJson.

(** From the C library and from Asterisk's JSON layer: [atof], the [%f]
    conversion, the JSON grammar, and [ast_json_dump_string_format] with
    the compact format 0. [decode_json] gives the value a text denotes when
    the text is JSON, whatever the value is. *)
Variable atof : string -> spec_float.
Variable printf_f : spec_float -> string.
Variable decode_json : string -> option json.
Variable ast_json_dump_string_format : json -> string.

(** [json_loads] with the flags 0, behind [ast_json_load_string]. Without
    [JSON_DECODE_ANY] the parser accepts a text only when its root is an
    array or an object, and it accepts no text that is not valid UTF-8:
    what it returns has a container at the root and holds valid UTF-8 text
    only. *)
Definition json_loads (input : string) : option json :=
  match decode_json input with
  | Some doc =>
      match ast_json_typeof doc with
      | AST_JSON_ARRAY | AST_JSON_OBJECT => if json_utf8 doc then Some doc else None
      | _ => None
      end
  | None => None
  end.

(** [ast_json_load_string] returns [NULL] on [NULL] and on text that does
    not parse. *)
Definition ast_json_load_string (input : option string) : option json :=
  input ≫= json_loads.

(** *** JSONELEMENT *)

Fixpoint element_walk (pieces : list string) (thisobject : json) : option json :=
  match pieces with
  | [] => Some thisobject
  | pathpiece :: thispath =>
      match next_object thisobject pathpiece with
      | None => None
      | Some nextobject => element_walk thispath nextobject
      end
  end.

(** The switch on [jtype]: the text copied to the buffer (the type name
    is [element_type]). *)
Definition element_value (thisobject : json) : string :=
  match thisobject with
  | JFalse => "0"
  | JTrue => "1"
  | JNull => ""
  | JReal d => printf_f d
  | JInteger n => printf_d (cast_int n)
  | JString s => s
  | JArray _ => ast_json_dump_string_format thisobject
  | JObject _ => ast_json_dump_string_format thisobject
  end.

Definition jsonelement_exec (chan : channel) (parse : list string) (buflen : nat)
  : channel * string :=
  let chan := json_set_operation_result chan ASTJSON_UNDECIDED in
  let buffer := EmptyString in
  match parse with
  | [] => (json_set_operation_result chan ASTJSON_ARG_NEEDED, buffer)
  | _ =>
  match app_arg parse 0, app_arg parse 1 with
  | Some (String _ _ as args_json), args_path =>
      match args_path with
      | Some (String _ _ as path) =>
          match ast_json_load_string (pbx_builtin_getvar_helper chan args_json) with
          | None => (json_set_operation_result chan ASTJSON_PARSE_ERROR, buffer)
          | Some doc =>
              match element_walk (strsep_all (strip_path path) "/") doc with
              | None => (json_set_operation_result chan ASTJSON_NOTFOUND, buffer)
              | Some thisobject =>
                  let type := element_type thisobject in
                  let buffer := ast_copy_string (element_value thisobject) buflen in
                  let chan := pbx_builtin_setvar_helper chan "JSONTYPE" type in
                  (json_set_operation_result chan ASTJSON_OK, buffer)
              end
          end
      | _ =>
          (* path is empty, returning full json *)
          let buffer := ast_copy_string args_json buflen in
          (json_set_operation_result chan ASTJSON_OK, buffer)
      end
  | _, _ => (json_set_operation_result chan ASTJSON_ARG_NEEDED, buffer)
  end
  end.

(** *** jsonvariables *)

(** The value [jsonvariables_exec] gives the variable named by a key. *)
Definition variable_value (nvp : json) : string :=
  match nvp with
  | JFalse => "0"
  | JTrue => "1"
  | JNull => ""
  | JReal d => printf_f d
  | JInteger n => printf_d (cast_int n)
  | JString s => s
  | JArray _ => "!array!"
  | JObject _ => ast_json_dump_string_format nvp
  end.

(** The loop over the iterator of the object; [ast_json_object_iter] is
    [NULL] for what is not an object and for an object without members. *)
Definition set_variables (chan : channel) (doc : json) : channel :=
  match doc with
  | JObject members =>
      fold_left
        (fun chan nvp => pbx_builtin_setvar_helper chan (fst nvp) (variable_value (snd nvp)))
        members chan
  | _ => chan
  end.

Definition jsonvariables_exec (chan : channel) (data : list string) : channel :=
  let chan := json_set_operation_result chan ASTJSON_UNDECIDED in
  match data with
  | [] => json_set_operation_result chan ASTJSON_ARG_NEEDED
  | _ =>
  match app_arg data 0 with
  | Some (String _ _ as args_json) =>
      match ast_json_load_string (pbx_builtin_getvar_helper chan args_json) with
      | None => json_set_operation_result chan ASTJSON_PARSE_ERROR
      | Some doc => json_set_operation_result (set_variables chan doc) ASTJSON_OK
      end
  | _ => json_set_operation_result chan ASTJSON_ARG_NEEDED
  end
  end.

(** *** jsonadd *)

(** What [jsonadd_exec] makes of the type and the value it is given: the
    pointer [newobject], which is [NULL] when the constructor fails; or no
    object, for a type it does not know; or a call of [atof] on [NULL]. *)
Inductive element_request : Type :=
| Element (newobject : option json)
| Invalid_element_type
| Null_dereference.

Definition add_newobject (args_type : string) (args_value : option string)
  : element_request :=
  if strcasecmp args_type "bool" =? 0 then Element (json_boolean args_value)
  else if strcasecmp args_type "null" =? 0 then Element ast_json_null
  else if strcasecmp args_type "number" =? 0 then
    match args_value with
    | Some value => Element (ast_json_real_create (atof value))
    | None => Null_dereference
    end
  else if strcasecmp args_type "string" =? 0 then
    Element (ast_json_string_create args_value)
  else if strcasecmp args_type "array" =? 0 then Element (Some ast_json_array_create)
  else if strcasecmp args_type "node" =? 0 then Element (Some ast_json_object_create)
  else Invalid_element_type.

(** The switch on the type of the element the new one is added to; it
    occurs twice, for the root and at the end of the path. *)
Definition add_element (target : json) (args_name : option string)
    (newobject : option json) : Z * json :=
  match ast_json_typeof target with
  | AST_JSON_ARRAY =>
      match ast_json_array_append target newobject with
      | Some target' => (ASTJSON_OK, target')
      | None => (ASTJSON_ADD_FAILED, target)
      end
  | AST_JSON_OBJECT =>
      match ast_json_object_set target args_name newobject with
      | Some target' => (ASTJSON_OK, target')
      | None => (ASTJSON_ADD_FAILED, target)
      end
  | _ => (ASTJSON_ADD_FAILED, target)
  end.

(** The loop over the path: [ret] and [thisobject] as the loop leaves
    them. *)
Fixpoint add_walk (args_name : option string) (newobject : option json)
    (pieces : list string) (thisobject : json) : Z * json :=
  match pieces with
  | [] => (ASTJSON_NOTFOUND, thisobject)
  | pathpiece :: thispath =>
      match next_object thisobject pathpiece with
      | None => (ASTJSON_NOTFOUND, thisobject)
      | Some nextobject =>
          let (ret, nextobject') :=
            match thispath with
            | [] => add_element nextobject args_name newobject
            | _ :: _ => add_walk args_name newobject thispath nextobject
            end in
          (ret, write_back thisobject pathpiece nextobject')
      end
  end.

(** From [// go over the path] to the end of [jsonadd_exec]. *)
Definition jsonadd_path (chan : channel) (args_json : string) (args_name : option string)
    (newobject : option json) (doc : json) (thispath : string) : channel :=
  let (ret, doc) :=
    if Nat.eqb (strlen thispath) 0 then add_element doc args_name newobject
    else add_walk args_name newobject (strsep_all thispath "/") doc in
  let jsonresult := ast_json_dump_string_format doc in
  let chan :=
    if ret =? ASTJSON_OK then pbx_builtin_setvar_helper chan args_json jsonresult
    else chan in
  json_set_operation_result chan ret.

(** From [// parse document] on. [None] is the dereference of a [NULL]
    path. *)
Definition jsonadd_document (chan : channel) (args_json : string)
    (args_path args_name : option string) (newobject : option json) : option channel :=
  let jsondoc := pbx_builtin_getvar_helper chan args_json in
  if ast_strlen_zero jsondoc then
    let doc :=
      if ast_strlen_zero args_name then ast_json_array_create else ast_json_object_create in
    Some (jsonadd_path chan args_json args_name newobject doc EmptyString)
  else
    match ast_json_load_string jsondoc with
    | None => Some (json_set_operation_result chan ASTJSON_PARSE_ERROR)
    | Some doc =>
        match args_path with
        | Some path =>
            Some (jsonadd_path chan args_json args_name newobject doc (strip_path path))
        | None => None
        end
    end.

Definition jsonadd_exec (chan : channel) (data : list string) : option channel :=
  let chan := json_set_operation_result chan ASTJSON_UNDECIDED in
  match data with
  | [] => Some (json_set_operation_result chan ASTJSON_ARG_NEEDED)
  | _ =>
  match app_arg data 0 with
  | Some (String _ _ as args_json) =>
      match app_arg data 2 with
      | Some (String _ _ as args_type) =>
          match add_newobject args_type (app_arg data 4) with
          | Element newobject =>
              jsonadd_document chan args_json (app_arg data 1) (app_arg data 3) newobject
          | Invalid_element_type => Some (json_set_operation_result chan ASTJSON_ARG_NEEDED)
          | Null_dereference => None
          end
      | _ => Some (json_set_operation_result chan ASTJSON_ARG_NEEDED)
      end
  | _ => Some (json_set_operation_result chan ASTJSON_ARG_NEEDED)
  end
  end.

(** *** jsonset *)

(** The switch on the type of the element to change: the pointer
    [newobject], or [None] for [atof] or [atoi] called on [NULL]. The case
    of an integer has no [break]: the integer it makes is replaced by the
    string of the next case. *)
Definition set_newobject (nextobject : json) (args_value : option string)
  : option (option json) :=
  match ast_json_typeof nextobject with
  | AST_JSON_FALSE | AST_JSON_TRUE => Some (json_boolean args_value)
  | AST_JSON_NULL => Some None
  | AST_JSON_REAL =>
      value ← args_value; Some (ast_json_real_create (atof value))
  | AST_JSON_INTEGER =>
      value ← args_value;
      let newobject := ast_json_integer_create (atoi value) in
      let newobject := ast_json_string_create args_value in
      Some newobject
  | AST_JSON_STRING => Some (ast_json_string_create args_value)
  | AST_JSON_ARRAY => Some None
  | AST_JSON_OBJECT => Some (ast_json_load_string args_value)
  end.

(** [// replace in the parent object with what we've just created here] *)
Definition set_in_parent (thisobject : json) (ixarray : Z) (key : string)
    (newobject : option json) : Z * json :=
  match newobject with
  | Some _ =>
      match ast_json_typeof thisobject with
      | AST_JSON_ARRAY =>
          match ast_json_array_set thisobject ixarray newobject with
          | Some thisobject' => (ASTJSON_OK, thisobject')
          | None => (ASTJSON_SET_FAILED, thisobject)
          end
      | AST_JSON_OBJECT =>
          match ast_json_object_set thisobject (Some key) newobject with
          | Some thisobject' => (ASTJSON_OK, thisobject')
          | None => (ASTJSON_SET_FAILED, thisobject)
          end
      | _ => (ASTJSON_SET_FAILED, thisobject)
      end
  | None => (ASTJSON_INVALID_TYPE, thisobject)
  end.

(** The loop over the path. [ixarray] is a local variable without an
    initial value, kept from one turn to the next. *)
Fixpoint set_walk (args_value : option string) (pieces : list string)
    (thisobject : json) (ixarray : Z) : option (Z * json) :=
  match pieces with
  | [] => Some (ASTJSON_NOTFOUND, thisobject)
  | pathpiece :: thispath =>
      let ixarray := next_ixarray ixarray pathpiece in
      match next_object thisobject pathpiece with
      | None => Some (ASTJSON_NOTFOUND, thisobject)
      | Some nextobject =>
          let key := pathpiece in
          match thispath with
          | [] =>
              newobject ← set_newobject nextobject args_value;
              Some (set_in_parent thisobject ixarray key newobject)
          | _ :: _ =>
              '(ret, nextobject') ← set_walk args_value thispath nextobject ixarray;
              Some (ret, write_back thisobject pathpiece nextobject')
          end
      end
  end.

Definition jsonset_exec (ixarray : Z) (chan : channel) (data : list string)
  : option channel :=
  let chan := json_set_operation_result chan ASTJSON_UNDECIDED in
  match data with
  | [] => Some (json_set_operation_result chan ASTJSON_ARG_NEEDED)
  | _ =>
  match app_arg data 0 with
  | Some (String _ _ as args_json) =>
      source ← pbx_builtin_getvar_helper chan args_json;
      if Nat.eqb (strlen source) 0
      then Some (json_set_operation_result chan ASTJSON_INVALID_TYPE)
      else
        match ast_json_load_string (Some source) with
        | None => Some (json_set_operation_result chan ASTJSON_PARSE_ERROR)
        | Some doc =>
            args_path ← app_arg data 1;
            let thispath := strip_path args_path in
            if Nat.eqb (strlen thispath) 0
            then Some (json_set_operation_result chan ASTJSON_NOTFOUND)
            else
              '(ret, doc) ← set_walk (app_arg data 2) (strsep_all thispath "/") doc ixarray;
              let jsonresult := ast_json_dump_string_format doc in
              let chan :=
                if ret =? ASTJSON_OK
                then pbx_builtin_setvar_helper chan args_json jsonresult
                else chan in
              Some (json_set_operation_result chan ret)
        end
  | _ => Some (json_set_operation_result chan ASTJSON_ARG_NEEDED)
  end
  end.

(** *** jsondelete *)

(** The switch on the type of [thisobject] at the end of the path. [ret]
    is assigned only when the removal succeeds or the type is neither. *)
Definition delete_from (thisobject : json) (ixarray : Z) (deleteitem : string) (ret : Z)
  : Z * json :=
  match ast_json_typeof thisobject with
  | AST_JSON_ARRAY =>
      match ast_json_array_remove thisobject ixarray with
      | Some thisobject' => (ASTJSON_OK, thisobject')
      | None => (ret, thisobject)
      end
  | AST_JSON_OBJECT =>
      match ast_json_object_del thisobject deleteitem with
      | Some thisobject' => (ASTJSON_OK, thisobject')
      | None => (ret, thisobject)
      end
  | _ => (ASTJSON_DELETE_FAILED, thisobject)
  end.

(** The loop [while (pathpiece)]. Its body declares a second [pathpiece]
    for the token [strsep] returns, so the [pathpiece] of the loop
    condition, of [deleteitem] and of the [sscanf] stays the first token:
    it is the parameter [pathpiece] here, and never changes. [thispath] is
    the list of tokens [strsep] has yet to return; the token taken in the
    body is only compared with [NULL]. The [break] of the switch leaves the
    switch, not the loop, which ends when the lookup fails. Each turn costs
    one unit of [fuel]; [None] is a loop that has turns left when the fuel
    is spent. *)
Fixpoint delete_loop (fuel : nat) (pathpiece : string) (thispath : list string)
    (thisobject : json) (ixarray ret : Z) : option (Z * json) :=
  match fuel with
  | O => None
  | S fuel' =>
      let deleteitem := pathpiece in
      let ixarray := next_ixarray ixarray pathpiece in
      match next_object thisobject pathpiece with
      | None => Some (ret, thisobject)
      | Some nextobject =>
          match thispath with
          | _ :: thispath' =>
              '(ret', nextobject') ←
                delete_loop fuel' pathpiece thispath' nextobject ixarray ret;
              Some (ret', write_back thisobject pathpiece nextobject')
          | [] =>
              let (ret', thisobject') := delete_from thisobject ixarray deleteitem ret in
              delete_loop fuel' pathpiece [] thisobject' ixarray ret'
          end
      end
  end.

(** The loop from the first token on, with fuel for every turn it can
    take (see [delete_loop_fuel]). *)
Definition delete_walk (pieces : list string) (doc : json) (ixarray : Z)
  : option (Z * json) :=
  match pieces with
  | [] => Some (ASTJSON_NOTFOUND, doc)
  | pathpiece :: thispath =>
      delete_loop (json_size doc) pathpiece thispath doc ixarray ASTJSON_NOTFOUND
  end.

Definition jsondelete_exec (ixarray : Z) (chan : channel) (data : list string)
  : option channel :=
  let chan := json_set_operation_result chan ASTJSON_UNDECIDED in
  match data with
  | [] => Some (json_set_operation_result chan ASTJSON_ARG_NEEDED)
  | _ =>
  match app_arg data 0 with
  | Some (String _ _ as args_jsonvarname) =>
      match app_arg data 1 with
      | Some (String _ _ as args_path) =>
          source ← pbx_builtin_getvar_helper chan args_jsonvarname;
          if Nat.eqb (strlen source) 0
          then Some (json_set_operation_result chan ASTJSON_NOTFOUND)
          else
            match ast_json_load_string (Some source) with
            | None => Some (json_set_operation_result chan ASTJSON_PARSE_ERROR)
            | Some doc =>
                '(ret, doc) ← delete_walk (strsep_all (strip_path args_path) "/") doc ixarray;
                let jsonresult := ast_json_dump_string_format doc in
                let chan :=
                  if ret =? ASTJSON_OK
                  then pbx_builtin_setvar_helper chan args_jsonvarname jsonresult
                  else chan in
                Some (json_set_operation_result chan ret)
            end
      | _ =>
          (* path is empty, will not delete the whole doc *)
          Some (json_set_operation_result chan ASTJSON_OK)
      end
  | _ => Some (json_set_operation_result chan ASTJSON_ARG_NEEDED)
  end
  end.

(** *** JSONPRETTY and JSONCOMPRESS *)

(** [ast_json_dump_string_format] with the format [AST_JSON_PRETTY]. *)
Variable ast_json_dump_string_pretty : json -> string.

(** Neither function sets the result code before its first test, and
    neither sets a variable other than the result code: the text goes to
    the buffer. *)
Definition jsonpretty_exec (chan : channel) (parse : list string) (buflen : nat)
  : channel * string :=
  let buffer := EmptyString in
  match parse with
  | [] => (json_set_operation_result chan ASTJSON_ARG_NEEDED, buffer)
  | _ =>
  match app_arg parse 0 with
  | Some (String _ _ as args_json) =>
      match ast_json_load_string (pbx_builtin_getvar_helper chan args_json) with
      | None => (json_set_operation_result chan ASTJSON_PARSE_ERROR, buffer)
      | Some doc =>
          let pretty := ast_json_dump_string_pretty doc in
          let buffer := ast_copy_string pretty buflen in
          (json_set_operation_result chan ASTJSON_OK, buffer)
      end
  | _ => (json_set_operation_result chan ASTJSON_ARG_NEEDED, buffer)
  end
  end.

Definition jsoncompress_exec (chan : channel) (parse : list string) (buflen : nat)
  : channel * string :=
  let buffer := EmptyString in
  match parse with
  | [] => (json_set_operation_result chan ASTJSON_ARG_NEEDED, buffer)
  | _ =>
  match app_arg parse 0 with
  | Some (String _ _ as args_json) =>
      match ast_json_load_string (pbx_builtin_getvar_helper chan args_json) with
      | None => (json_set_operation_result chan ASTJSON_PARSE_ERROR, buffer)
      | Some doc =>
          let unpretty := ast_json_dump_string_format doc in
          let buffer := ast_copy_string unpretty buflen in
          (json_set_operation_result chan ASTJSON_OK, buffer)
      end
  | _ => (json_set_operation_result chan ASTJSON_ARG_NEEDED, buffer)
  end
  end.

(** ** The notions of the specification *)

(** The node a path addresses: the root for a path without segments, and
    otherwise the element the walk of [jsonelement_exec] ends on. *)
Definition resolve (doc : json) (path : string) : option json :=
  let thispath := strip_path path in
  if Nat.eqb (strlen thispath) 0 then Some doc
  else element_walk (strsep_all thispath "/") doc.

(** [doc] once the element at the end of the path is replaced by
    [element]: every step of the walk is written back into its parent. *)
Fixpoint write_path (pieces : list string) (doc element : json) : json :=
  match pieces with
  | [] => element
  | pathpiece :: thispath =>
      match next_object doc pathpiece with
      | Some nextobject => write_back doc pathpiece (write_path thispath nextobject element)
      | None => doc
      end
  end.

(** A path segment as the specification sees it, and the lookup it asks
    for. [classify] is the test of the source, [sscanf] with [%3d]. *)
Inductive segment : Type :=
| Index (position : Z)
| Name (key : string).

Definition classify (pathpiece : string) : segment :=
  match sscanf_3d pathpiece with
  | Some position => Index position
  | None => Name pathpiece
  end.





(** The channel variable [name] holds a text that parses to [doc]. *)
Definition holds_document (chan : channel) (name : string) (doc : json) : Prop :=
  name ≠ "" ∧ name ≠ "JSONRESULT" ∧
  ∃ source, chan !! name = Some source ∧ source ≠ "" ∧ json_loads source = Some doc.

(** The result code an operation left on the channel. *)
Definition result_code (chan : channel) : option string := chan !! "JSONRESULT".

Definition reports (chan : channel) (result : Z) : Prop :=
  result_code chan = Some (printf_d result).

(** Between [chan] and [chan'] no variable changed but the result code. *)
Definition left_untouched (chan chan' : channel) : Prop :=
  ∀ variable, variable ≠ "JSONRESULT" → chan' !! variable = chan !! variable.

(** Between [chan] and [chan'] the variable [name] was set to [text], and
    no other variable changed but the result code. *)
Definition stores (chan chan' : channel) (name text : string) : Prop :=
  ∀ variable, variable ≠ "JSONRESULT" →
    chan' !! variable = <[name := text]> chan !! variable.

(** The document variable holds what the serialiser gave for a document. *)
Definition document_written (chan' : channel) (name : string) : Prop :=
  ∃ doc, chan' !! name = Some (ast_json_dump_string_format doc).

(** How a run of [jsonadd], [jsonset] or [jsondelete] can leave the
    channel: with a result code other than Ok and nothing else set, or with
    Ok and the variable named by the first argument set to the text of a
    document. *)
Inductive outcome (chan : channel) (data : list string) : channel → Prop :=
| Refused (ret : Z) :
    ret ≠ ASTJSON_OK →
    outcome chan data
      (json_set_operation_result (json_set_operation_result chan ASTJSON_UNDECIDED) ret)
| Written (name : string) (doc : json) :
    data !! 0%nat = Some name →
    outcome chan data
      (json_set_operation_result
         (pbx_builtin_setvar_helper (json_set_operation_result chan ASTJSON_UNDECIDED)
            name (ast_json_dump_string_format doc))
         ASTJSON_OK).

(** [doc] once the node the path addresses is replaced by [element]. *)
Definition write_at (doc : json) (path : string) (element : json) : json :=
  let thispath := strip_path path in
  if Nat.eqb (strlen thispath) 0 then element
  else write_path (strsep_all thispath "/") doc element.

(** A type tag that is none of the names of a JSON type, in any case of
    letters. *)
Definition unknown_type (tag : string) : Prop :=
  Forall (λ known, strcasecmp tag known ≠ 0)
    ["bool"; "null"; "number"; "string"; "array"; "node"; "object"].

(** The text has the beginning of a number for [strtod]: after white space
    and a sign, a digit, a point and a digit, or the letters of an infinity
    or a NaN. Without one, no conversion is performed. *)
Definition has_prefix_nocase (prefix s : string) : bool :=
  strcasecmp (string_take (strlen prefix) s) prefix =? 0.

Definition strtod_subject (s : string) : bool :=
  let unsigned :=
    match skip_space s with
    | String c s' => if Ascii.eqb c "-" || Ascii.eqb c "+" then s' else String c s'
    | EmptyString => EmptyString
    end in
  match unsigned with
  | String c s' =>
      isdigit c
      || (Ascii.eqb c "." && match s' with String d _ => isdigit d | EmptyString => false end)
      || has_prefix_nocase "inf" unsigned
      || has_prefix_nocase "nan" unsigned
  | EmptyString => false
  end.

Definition positive_zero : spec_float := S754_zero false.

(** The 32-bit [int] values. *)
Definition int_range (n : Z) : Prop := - 2 ^ 31 <= n < 2 ^ 31.

(** The table of coercions of the specification for a boolean, a string
    or a real: the value [jsonset] is to put in the place of [node], if
    any. A JSON string holds valid UTF-8 text and a JSON real a finite
    number: there is none to put for other text and other numbers. *)
Definition coerce (node : json) (value : string) : option json :=
  match node with
  | JTrue | JFalse => Some (if value_is_false (Some value) then JFalse else JTrue)
  | JString _ => if utf8_check_string value then Some (JString value) else None
  | JReal _ => if is_finite (atof value) then Some (JReal (atof value)) else None
  | _ => None
  end.

(** The members of an object but those of one key, in their order. *)
Definition members_without (key : string) (members : list (string * json))
  : list (string * json) :=
  filter (λ kv, kv.1 ≠ key) members.

(** The channel variable [name], which is not the result code, holds the
    text [source], and the text parses to [doc]. *)
Definition holds_text (chan : channel) (name source : string) (doc : json) : Prop :=
  name ≠ "" ∧ name ≠ "JSONRESULT" ∧ chan !! name = Some source
  ∧ json_loads source = Some doc.

(** The channel variable [name], which is not the result code, is not
    set, or holds a text that does not parse. *)
Definition holds_no_document (chan : channel) (name : string) : Prop :=
  name ≠ "" ∧ name ≠ "JSONRESULT" ∧ chan !! name ≫= json_loads = None.

(** A path with a slash before it, after it, or both. *)
Definition with_slashes (path : string) : list string :=
  [path; String "/" path; String.append path "/";
   String "/" (String.append path "/")].

(** A path that neither begins nor ends with a slash, and is not empty. *)
Definition bare_path (path : string) : Prop :=
  match path with
  | String c _ => c ≠ "/"%char
  | EmptyString => False
  end
  ∧ chop_trailing_slash path = path.

(** The segments of a path: none for the root. *)
Definition segments (path : string) : list string :=
  if Nat.eqb (strlen (strip_path path)) 0 then []
  else strsep_all (strip_path path) "/".

(** ** Sample documents, to run the operations on *)

(** The grammar on the sample texts only, and a compact serialiser for
    documents of integers and of strings of plain characters. The double
    quote is spelled by its code. *)
Definition dquote : string := String "034"%char EmptyString.

Definition text_a1 : string :=
  String.append "{" (String.append dquote (String.append "a"
    (String.append dquote ":1}"))).

Definition text_a_abc : string :=
  String.append "{" (String.append dquote (String.append "a"
    (String.append dquote (String.append ":" (String.append dquote
      (String.append "abc" (String.append dquote "}"))))))).

Definition sample_loads (source : string) : option json :=
  if String.eqb source "[1,2,3]" then Some (JArray [JInteger 1; JInteger 2; JInteger 3])
  else if String.eqb source "[1]" then Some (JArray [JInteger 1])
  else if String.eqb source "[]" then Some (JArray [])
  else if String.eqb source "[[1],null]" then Some (JArray [JArray [JInteger 1]; JNull])
  else if String.eqb source "[4294967297]" then Some (JArray [JInteger 4294967297])
  else if String.eqb source text_a1 then Some (JObject [("a", JInteger 1)])
  else None.

Fixpoint sample_dump (value : json) : string :=
  let quoted s := String.append dquote (String.append s dquote) in
  match value with
  | JObject members =>
      String.append "{" (String.append
        (String.concat ","
           (map (fun kv => String.append (quoted (fst kv))
                             (String.append ":" (sample_dump (snd kv)))) members)) "}")
  | JArray elements =>
      String.append "[" (String.append (String.concat "," (map sample_dump elements)) "]")
  | JString s => quoted s
  | JInteger n => printf_d n
  | JReal _ => "0.0"
  | JTrue => "true"
  | JFalse => "false"
  | JNull => "null"
  end.

(** The text of the object with the member [a], a string, and the
    grammar on the texts of such objects. *)
Definition text_a_string (value : string) : string :=
  String.append "{" (String.append dquote (String.append "a"
    (String.append dquote (String.append ":" (String.append dquote
      (String.append value (String.append dquote "}"))))))).

Definition text_a_b_strings (a b : string) : string :=
  String.append "{" (String.append dquote (String.append "a"
    (String.append dquote (String.append ":" (String.append dquote
      (String.append a (String.append dquote (String.append ","
        (String.append dquote (String.append "b"
          (String.append dquote (String.append ":" (String.append dquote
            (String.append b (String.append dquote "}"))))))))))))))).

Definition text_a_object : string :=
  String.append "{" (String.append dquote (String.append "a"
    (String.append dquote ":{}}"))).

Definition sample_loads_strings (source : string) : option json :=
  if String.eqb source (text_a_string "abc") then Some (JObject [("a", JString "abc")])
  else if String.eqb source (text_a_string "xyz") then Some (JObject [("a", JString "xyz")])
  else if String.eqb source (text_a_b_strings "abc" "hi")
  then Some (JObject [("a", JString "abc"); ("b", JString "hi")])
  else if String.eqb source text_a_object then Some (JObject [("a", JObject [])])
  else if String.eqb source "{}" then Some (JObject [])
  else if String.eqb source "[]" then Some (JArray [])
  else None.

(** The [%f] conversion of zero, the only real of the sample documents. *)
Definition sample_printf_f (d : spec_float) : string := "0.000000".

(** [atof] on the texts of decimal integers, zero on any other text. *)
Definition sample_atof (s : string) : spec_float :=
  match scan_int (S (strlen s)) s with
  | Some n => binary_normalize 53 1024 n 0 false
  | None => positive_zero
  end.

(** The text of the one byte FF, which begins no UTF-8 sequence. *)
Definition text_ff : string := String "255"%char EmptyString.

(** [atof] that reads an infinity in the text [inf], as [strtod] does. *)
Definition sample_atof_inf (s : string) : spec_float :=
  if String.eqb s "inf" then S754_infinity false else sample_atof s.

(** The grammar on one more text: [5] is JSON text, a number on its own. *)
Definition sample_decode_any (source : string) : option json :=
  if String.eqb source "5" then Some (JInteger 5) else sample_loads source.

(** ** Facts about the C library model *)

(** The check of UTF-8 on plain text and on the sequences it refuses: a
    byte that begins none, a sequence cut short, overlong encodings, a
    surrogate half, a code point above U+10FFFF. *)
Lemma utf8_check_string_ascii (s : string) :
  forallb (fun c => byte c <? 128) (list_ascii_of_string s) = true →
  utf8_check_string s = true.
Proof.
  induction s as [|c s IH]; [done|]. simpl.
  intros [Hc Hs]%andb_prop. unfold utf8_check_first. rewrite Hc. by apply IH.
Qed.

Lemma utf8_check_string_samples :
  utf8_check_string "abc" = true
  ∧ utf8_check_string (String "195" (String "169" "")) = true
  ∧ utf8_check_string (String "226" (String "130" (String "172" ""))) = true
  ∧ utf8_check_string (String "240" (String "157" (String "132" (String "158" "")))) = true
  ∧ utf8_check_string text_ff = false
  ∧ utf8_check_string (String "128" "") = false
  ∧ utf8_check_string (String "195" "") = false
  ∧ utf8_check_string (String "192" (String "128" "")) = false
  ∧ utf8_check_string (String "224" (String "128" (String "128" ""))) = false
  ∧ utf8_check_string (String "237" (String "160" (String "128" ""))) = false
  ∧ utf8_check_string (String "244" (String "144" (String "128" (String "128" "")))) = false.
Proof. repeat split; reflexivity. Qed.

Lemma strsep_all_strsep (s : string) (delim : ascii) :
  strsep_all s delim =
  let (token, rest) := strsep_token s delim in
  token :: match rest with Some r => strsep_all r delim | None => [] end.
Proof.
  induction s as [|c s IH]; simpl; [reflexivity|].
  destruct (Ascii.eqb c delim); [reflexivity|].
  rewrite IH. destruct (strsep_token s delim) as [token rest]. reflexivity.
Qed.

Lemma strsep_all_nonempty (s : string) (delim : ascii) : strsep_all s delim ≠ [].
Proof.
  rewrite strsep_all_strsep. destruct (strsep_token s delim). discriminate.
Qed.

Lemma cast_int_range (n : Z) : int_range (cast_int n).
Proof.
  unfold int_range, cast_int.
  pose proof (Z.mod_pos_bound (n + 2 ^ 31) (2 ^ 32) ltac:(lia)). lia.
Qed.

Lemma cast_int_exact (n : Z) : int_range n → cast_int n = n.
Proof.
  unfold int_range, cast_int. intros H.
  rewrite Z.mod_small by lia. lia.
Qed.

Lemma cast_int_modulo (n : Z) : cast_int n mod 2 ^ 32 = n mod 2 ^ 32.
Proof.
  unfold cast_int. rewrite Zminus_mod_idemp_l. f_equal. lia.
Qed.

Lemma printf_d_reads_back (n : Z) :
  Z.of_int <$> NilZero.int_of_string (printf_d n) = Some n.
Proof.
  unfold printf_d. rewrite NilZero.isi.
  - simpl. f_equal. apply DecimalZ.of_to.
  - destruct n as [|p|p]; simpl; try discriminate.
    intros [= H]. exact (DecimalPos.Unsigned.to_uint_nonnil p H).
  - destruct n as [|p|p]; simpl; try discriminate.
    intros [= H]. exact (DecimalPos.Unsigned.to_uint_nonnil p H).
Qed.

Lemma printf_d_inj (n m : Z) : printf_d n = printf_d m → n = m.
Proof.
  intros H. pose proof (printf_d_reads_back n) as Hn.
  rewrite H, printf_d_reads_back in Hn. congruence.
Qed.

Lemma isdigit_bounds (c : ascii) :
  isdigit c = true → (48 <= nat_of_ascii c <= 57)%nat.
Proof.
  unfold isdigit. intros H. apply andb_prop in H as [H1 H2].
  apply Nat.leb_le in H1, H2. lia.
Qed.





(** ** Facts about the containers *)

Lemma members_get_set (key : string) (value : json) (members : list (string * json)) :
  members_get key (members_set key value members) = Some value.
Proof.
  induction members as [|[k v] members IH]; simpl.
  - rewrite String.eqb_refl. reflexivity.
  - destruct (String.eqb k key) eqn:E; simpl; rewrite E; auto.
Qed.

Lemma members_set_same (key : string) (value : json) (members : list (string * json)) :
  members_get key members = Some value → members_set key value members = members.
Proof.
  induction members as [|[k v] members IH]; simpl; [discriminate|].
  destruct (String.eqb k key); [congruence|].
  intros H. rewrite IH; auto.
Qed.

Lemma array_get_Some (thisobject nextobject : json) (index : Z) :
  ast_json_array_get thisobject index = Some nextobject →
  ∃ elements, thisobject = JArray elements ∧ 0 <= index
              ∧ elements !! Z.to_nat index = Some nextobject.
Proof.
  destruct thisobject; simpl; try discriminate.
  destruct (Z.ltb_spec index 0); [discriminate|]. eauto.
Qed.

Lemma object_get_Some (thisobject nextobject : json) (key : string) :
  ast_json_object_get thisobject key = Some nextobject →
  ∃ members, thisobject = JObject members ∧ members_get key members = Some nextobject.
Proof. destruct thisobject; simpl; try discriminate. eauto. Qed.

(** ** Valid UTF-8 throughout a document *)

Lemma members_get_utf8 (key : string) (value : json) (members : list (string * json)) :
  json_utf8 (JObject members) = true → members_get key members = Some value →
  utf8_check_string key = true ∧ json_utf8 value = true.
Proof.
  induction members as [|[k v] members IH]; [done|].
  cbn [json_utf8 forallb fst snd members_get].
  intros [[Hk Hv]%andb_prop Hrest]%andb_prop.
  destruct (String.eqb_spec k key) as [->|Hne].
  - by intros [= <-].
  - by apply IH.
Qed.

Lemma elements_lookup_utf8 (elements : list json) (i : nat) (value : json) :
  json_utf8 (JArray elements) = true → elements !! i = Some value →
  json_utf8 value = true.
Proof.
  revert i. induction elements as [|x elements IH]; intros i; [done|].
  cbn [json_utf8 forallb]. intros [Hx Hrest]%andb_prop.
  destruct i as [|i]; simpl; [by intros [= <-]|]. by apply IH.
Qed.

Lemma next_object_utf8 (thisobject nextobject : json) (pathpiece : string) :
  json_utf8 thisobject = true → next_object thisobject pathpiece = Some nextobject →
  json_utf8 nextobject = true.
Proof.
  intros Hutf8. unfold next_object. destruct (sscanf_3d pathpiece) as [index|].
  - intros (elements & -> & Hpos & Hget)%array_get_Some.
    by eapply elements_lookup_utf8.
  - intros (members & -> & Hget)%object_get_Some.
    by eapply members_get_utf8.
Qed.

Lemma element_walk_utf8 (pieces : list string) (doc node : json) :
  json_utf8 doc = true → element_walk pieces doc = Some node → json_utf8 node = true.
Proof.
  revert doc. induction pieces as [|pathpiece thispath IH]; intros doc Hutf8; simpl.
  - by intros [= <-].
  - destruct (next_object doc pathpiece) as [nextobject|] eqn:E; [|done].
    apply IH. by eapply next_object_utf8.
Qed.

(** What [json_loads] returns has an array or an object at the root and
    holds valid UTF-8 text only. *)
Lemma json_loads_Some (source : string) (doc : json) :
  json_loads source = Some doc ↔
  decode_json source = Some doc
  ∧ (ast_json_typeof doc = AST_JSON_ARRAY ∨ ast_json_typeof doc = AST_JSON_OBJECT)
  ∧ json_utf8 doc = true.
Proof.
  unfold json_loads. destruct (decode_json source) as [d|]; [|by split; [|intros [? _]]].
  split.
  - destruct d; simpl; try done; destruct (forallb _ _) eqn:E; try done;
      intros [= <-]; simpl; rewrite E; auto.
  - intros ([= ->] & Hroot & Hutf8). rewrite Hutf8.
    by destruct doc, Hroot.
Qed.

Lemma json_loads_utf8 (source : string) (doc : json) :
  json_loads source = Some doc → json_utf8 doc = true.
Proof. by intros (_ & _ & H)%json_loads_Some. Qed.

(** What was fetched from a slot is found there again once written back. *)
Lemma next_object_write_back (thisobject nextobject element : json) (pathpiece : string) :
  next_object thisobject pathpiece = Some nextobject →
  next_object (write_back thisobject pathpiece element) pathpiece = Some element.
Proof.
  unfold next_object, write_back. destruct (sscanf_3d pathpiece) as [index|].
  - intros (elements & -> & Hpos & Hget)%array_get_Some. simpl.
    destruct (Z.ltb_spec index 0); [lia|].
    apply list_lookup_insert_eq. eapply lookup_lt_Some, Hget.
  - intros (members & -> & Hget)%object_get_Some. simpl. apply members_get_set.
Qed.

Lemma write_back_same (thisobject nextobject : json) (pathpiece : string) :
  next_object thisobject pathpiece = Some nextobject →
  write_back thisobject pathpiece nextobject = thisobject.
Proof.
  unfold next_object, write_back. destruct (sscanf_3d pathpiece) as [index|].
  - intros (elements & -> & Hpos & Hget)%array_get_Some.
    f_equal. apply list_insert_id, Hget.
  - intros (members & -> & Hget)%object_get_Some.
    f_equal. apply members_set_same, Hget.
Qed.

Lemma element_walk_write_path (pieces : list string) (doc node element : json) :
  element_walk pieces doc = Some node →
  element_walk pieces (write_path pieces doc element) = Some element.
Proof.
  revert doc. induction pieces as [|pathpiece thispath IH]; intros doc; simpl.
  - reflexivity.
  - destruct (next_object doc pathpiece) as [nextobject|] eqn:E; [|discriminate].
    intros H. erewrite next_object_write_back by exact E. eauto.
Qed.

(** ** The walks of jsonadd and jsonset against the resolution of the path *)

(** The element found at the end of the path lies in a slot of its
    parent, and the replacement is written there: the two failures
    [ASTJSON_SET_FAILED] stands for do not occur. *)
Lemma set_in_parent_found (thisobject nextobject element : json)
    (pathpiece : string) (ixarray : Z) :
  json_utf8 thisobject = true →
  next_object thisobject pathpiece = Some nextobject →
  set_in_parent thisobject (next_ixarray ixarray pathpiece) pathpiece (Some element)
  = (ASTJSON_OK, write_back thisobject pathpiece element).
Proof.
  intros Hutf8. unfold next_object, next_ixarray, write_back, set_in_parent.
  destruct (sscanf_3d pathpiece) as [index|]; simpl.
  - intros (elements & -> & Hpos & Hget)%array_get_Some. simpl.
    apply lookup_lt_Some in Hget.
    destruct (Z.leb_spec 0 index); [|lia].
    destruct (Z.ltb_spec index (Z.of_nat (length elements))); [|lia].
    reflexivity.
  - intros (members & -> & Hget)%object_get_Some.
    destruct (members_get_utf8 _ _ _ Hutf8 Hget) as [Hkey _].
    cbn [ast_json_typeof ast_json_object_set]. by rewrite Hkey.
Qed.

Lemma set_walk_found (args_value : option string) (pieces : list string)
    (doc node : json) (ixarray : Z) :
  json_utf8 doc = true →
  pieces ≠ [] → element_walk pieces doc = Some node →
  set_walk args_value pieces doc ixarray =
  newobject ← set_newobject node args_value;
  Some match newobject with
       | Some element => (ASTJSON_OK, write_path pieces doc element)
       | None => (ASTJSON_INVALID_TYPE, doc)
       end.
Proof.
  revert doc ixarray.
  induction pieces as [|pathpiece thispath IH]; intros doc ixarray Hutf8 Hne; [done|].
  simpl. destruct (next_object doc pathpiece) as [nextobject|] eqn:E; [|discriminate].
  destruct thispath as [|pathpiece' thispath].
  - simpl. intros [= ->].
    destruct (set_newobject node args_value) as [[element|]|]; simpl; [|done..].
    exact (f_equal Some (set_in_parent_found _ _ element _ ixarray Hutf8 E)).
  - intros H.
    rewrite (IH nextobject _ (next_object_utf8 _ _ _ Hutf8 E) ltac:(done) H).
    destruct (set_newobject node args_value) as [[element|]|]; simpl; [done| |done].
    by erewrite write_back_same.
Qed.

Lemma set_walk_notfound (args_value : option string) (pieces : list string)
    (doc : json) (ixarray : Z) :
  element_walk pieces doc = None →
  set_walk args_value pieces doc ixarray = Some (ASTJSON_NOTFOUND, doc).
Proof.
  revert doc ixarray.
  induction pieces as [|pathpiece thispath IH]; intros doc ixarray; [discriminate|].
  simpl. destruct (next_object doc pathpiece) as [nextobject|] eqn:E; [|done].
  destruct thispath as [|pathpiece' thispath]; [discriminate|].
  intros H. rewrite (IH nextobject _ H). simpl. by erewrite write_back_same.
Qed.

Lemma add_walk_found (args_name : option string) (newobject : option json)
    (pieces : list string) (doc target : json) :
  pieces ≠ [] → element_walk pieces doc = Some target →
  add_walk args_name newobject pieces doc =
  let (ret, target') := add_element target args_name newobject in
  (ret, write_path pieces doc target').
Proof.
  revert doc. induction pieces as [|pathpiece thispath IH]; intros doc Hne; [done|].
  simpl. destruct (next_object doc pathpiece) as [nextobject|] eqn:E; [|discriminate].
  destruct thispath as [|pathpiece' thispath].
  - simpl. intros [= ->]. by destruct (add_element target args_name newobject).
  - intros H. rewrite (IH nextobject ltac:(done) H).
    by destruct (add_element target args_name newobject).
Qed.

Lemma add_walk_notfound (args_name : option string) (newobject : option json)
    (pieces : list string) (doc : json) :
  element_walk pieces doc = None →
  add_walk args_name newobject pieces doc = (ASTJSON_NOTFOUND, doc).
Proof.
  revert doc. induction pieces as [|pathpiece thispath IH]; intros doc; [discriminate|].
  simpl. destruct (next_object doc pathpiece) as [nextobject|] eqn:E; [|done].
  destruct thispath as [|pathpiece' thispath]; [discriminate|].
  intros H. rewrite (IH nextobject H). by erewrite write_back_same.
Qed.

(** ** The loop of jsondelete ends *)

Lemma json_size_pos (value : json) : (0 < json_size value)%nat.
Proof. destruct value; simpl; lia. Qed.

Lemma list_sum_lookup {A} (f : A → nat) (l : list A) (i : nat) (x : A) :
  l !! i = Some x → (f x + list_sum (map f (delete i l)) = list_sum (map f l))%nat.
Proof.
  revert i. induction l as [|y l IH]; intros [|i]; simpl; try discriminate.
  - by intros [= ->].
  - intros H%IH. lia.
Qed.

Lemma members_del_size (key : string) (members members' : list (string * json)) :
  members_del key members = Some members' →
  (list_sum (map (λ kv, json_size kv.2) members')
   < list_sum (map (λ kv, json_size kv.2) members))%nat.
Proof.
  revert members'. induction members as [|[k v] members IH]; intros members'; simpl.
  - discriminate.
  - destruct (String.eqb k key).
    + intros [= <-]. pose proof (json_size_pos v). lia.
    + destruct (members_del key members) as [m|]; [|discriminate].
      intros [= <-]. simpl. specialize (IH m eq_refl). lia.
Qed.

Lemma members_get_size (key : string) (members : list (string * json)) (value : json) :
  members_get key members = Some value →
  (json_size value <= list_sum (map (λ kv, json_size kv.2) members))%nat.
Proof.
  induction members as [|[k v] members IH]; simpl; [discriminate|].
  destruct (String.eqb k key).
  - intros [= ->]. lia.
  - intros H%IH. lia.
Qed.

Lemma members_get_del (key : string) (members : list (string * json)) (value : json) :
  members_get key members = Some value → is_Some (members_del key members).
Proof.
  induction members as [|[k v] members IH]; simpl; [discriminate|].
  destruct (String.eqb k key); [eauto|].
  intros [m ->]%IH. simpl. eauto.
Qed.

Lemma next_object_size (thisobject nextobject : json) (pathpiece : string) :
  next_object thisobject pathpiece = Some nextobject →
  (json_size nextobject < json_size thisobject)%nat.
Proof.
  unfold next_object. destruct (sscanf_3d pathpiece) as [index|].
  - intros (elements & -> & Hpos & Hget)%array_get_Some. simpl.
    pose proof (list_sum_lookup json_size _ _ _ Hget). lia.
  - intros (members & -> & Hget)%object_get_Some. simpl.
    pose proof (members_get_size _ _ _ Hget). lia.
Qed.

(** At the end of the path the element found is removed, and the
    container shrinks. *)
Lemma delete_from_found (thisobject nextobject : json) (pathpiece : string)
    (ixarray ret : Z) :
  next_object thisobject pathpiece = Some nextobject →
  ∃ thisobject',
    delete_from thisobject (next_ixarray ixarray pathpiece) pathpiece ret
    = (ASTJSON_OK, thisobject')
    ∧ (json_size thisobject' < json_size thisobject)%nat.
Proof.
  unfold next_object, next_ixarray, delete_from.
  destruct (sscanf_3d pathpiece) as [index|]; simpl.
  - intros (elements & -> & Hpos & Hget)%array_get_Some. simpl.
    pose proof (lookup_lt_Some _ _ _ Hget).
    destruct (Z.leb_spec 0 index); [|lia].
    destruct (Z.ltb_spec index (Z.of_nat (length elements))); [|lia].
    simpl. eexists. split; [reflexivity|]. simpl.
    pose proof (list_sum_lookup json_size _ _ _ Hget).
    pose proof (json_size_pos nextobject). lia.
  - intros (members & -> & Hget)%object_get_Some. simpl.
    destruct (members_get_del _ _ _ Hget) as [members' Hdel]. rewrite Hdel. simpl.
    eexists. split; [reflexivity|]. simpl.
    pose proof (members_del_size _ _ _ Hdel). lia.
Qed.

Lemma delete_loop_fuel (fuel : nat) (pathpiece : string) (thispath : list string)
    (thisobject : json) (ixarray ret : Z) :
  (json_size thisobject <= fuel)%nat →
  is_Some (delete_loop fuel pathpiece thispath thisobject ixarray ret).
Proof.
  revert thispath thisobject ixarray ret.
  induction fuel as [|fuel IH]; intros thispath thisobject ixarray ret Hsize.
  - pose proof (json_size_pos thisobject). lia.
  - simpl. destruct (next_object thisobject pathpiece) as [nextobject|] eqn:E; [|eauto].
    destruct thispath as [|token thispath].
    + destruct (delete_from_found _ _ _ ixarray ret E) as (thisobject' & -> & Hlt).
      apply IH. lia.
    + pose proof (next_object_size _ _ _ E).
      destruct (IH thispath nextobject (next_ixarray ixarray pathpiece) ret ltac:(lia))
        as [[ret' nextobject'] ->].
      simpl. eauto.
Qed.

Lemma delete_walk_total (pieces : list string) (doc : json) (ixarray : Z) :
  is_Some (delete_walk pieces doc ixarray).
Proof.
  destruct pieces as [|pathpiece thispath]; simpl; [eauto|].
  by apply delete_loop_fuel.
Qed.

(** ** The channel *)

Lemma reports_result (chan : channel) (result : Z) :
  reports (json_set_operation_result chan result) result.
Proof. apply lookup_insert_eq. Qed.

Lemma reports_inj (chan : channel) (result result' : Z) :
  reports chan result → reports chan result' → result = result'.
Proof.
  unfold reports. intros -> [= H]. by apply printf_d_inj.
Qed.

Lemma left_untouched_result (chan : channel) (result result' : Z) :
  left_untouched chan
    (json_set_operation_result (json_set_operation_result chan result) result').
Proof.
  intros variable Hne. unfold json_set_operation_result, pbx_builtin_setvar_helper.
  by rewrite !lookup_insert_ne.
Qed.

Lemma stores_result (chan : channel) (name text : string) (result result' : Z) :
  stores chan
    (json_set_operation_result
       (pbx_builtin_setvar_helper (json_set_operation_result chan result) name text)
       result')
    name text.
Proof.
  intros variable Hne. unfold json_set_operation_result, pbx_builtin_setvar_helper.
  rewrite lookup_insert_ne by done.
  destruct (decide (name = variable)) as [->|Hname].
  - by rewrite !lookup_insert_eq.
  - by rewrite !(lookup_insert_ne _ name), lookup_insert_ne.
Qed.

Lemma stores_lookup (chan chan' : channel) (name text : string) :
  stores chan chan' name text → name ≠ "JSONRESULT" → chan' !! name = Some text.
Proof. intros H Hne. rewrite (H name Hne). apply lookup_insert_eq. Qed.

Lemma getvar_after_result (chan : channel) (result : Z) (name : string) :
  pbx_builtin_getvar_helper (json_set_operation_result chan result) name
  = if decide (name = "JSONRESULT") then Some (printf_d result) else chan !! name.
Proof.
  unfold pbx_builtin_getvar_helper, json_set_operation_result, pbx_builtin_setvar_helper.
  destruct (decide (name = "JSONRESULT")) as [->|Hne].
  - apply lookup_insert_eq.
  - by rewrite lookup_insert_ne.
Qed.

(** What an operation reads from a channel that holds a document, after
    it has set the result code a first time. *)
Lemma holds_document_getvar (chan : channel) (name : string) (doc : json) (result : Z) :
  holds_document chan name doc →
  ∃ c name' d source',
    name = String c name'
    ∧ pbx_builtin_getvar_helper (json_set_operation_result chan result) name
      = Some (String d source')
    ∧ json_loads (String d source') = Some doc.
Proof.
  intros (Hname & Hresult & source & Hget & Hsource & Hload).
  destruct name as [|c name']; [done|]. destruct source as [|d source']; [done|].
  exists c, name', d, source'. split; [done|]. split; [|done].
  unfold pbx_builtin_getvar_helper, json_set_operation_result, pbx_builtin_setvar_helper.
  by rewrite lookup_insert_ne.
Qed.

Lemma holds_document_utf8 (chan : channel) (name : string) (doc : json) :
  holds_document chan name doc → json_utf8 doc = true.
Proof. intros (_ & _ & source & _ & _ & Hload). by eapply json_loads_utf8. Qed.

(** ** The operations on a channel that holds a document *)

Lemma jsonset_exec_loaded (ixarray : Z) (chan : channel) (name path : string)
    (rest : list string) (doc : json) :
  holds_document chan name doc →
  jsonset_exec ixarray chan (name :: path :: rest) =
  let chan1 := json_set_operation_result chan ASTJSON_UNDECIDED in
  if Nat.eqb (strlen (strip_path path)) 0
  then Some (json_set_operation_result chan1 ASTJSON_NOTFOUND)
  else
    '(ret, doc') ← set_walk (rest !! 0%nat) (strsep_all (strip_path path) "/") doc ixarray;
    Some (json_set_operation_result
            (if ret =? ASTJSON_OK
             then pbx_builtin_setvar_helper chan1 name (ast_json_dump_string_format doc')
             else chan1) ret).
Proof.
  intros H.
  destruct (holds_document_getvar _ _ _ ASTJSON_UNDECIDED H)
    as (c & name' & d & source' & -> & Hget & Hload).
  unfold jsonset_exec, app_arg. simpl lookup. cbv beta iota.
  rewrite Hget. simpl. rewrite Hload. reflexivity.
Qed.

Lemma jsondelete_exec_loaded (ixarray : Z) (chan : channel) (name : string)
    (c : ascii) (path : string) (rest : list string) (doc : json) :
  holds_document chan name doc →
  jsondelete_exec ixarray chan (name :: String c path :: rest) =
  let chan1 := json_set_operation_result chan ASTJSON_UNDECIDED in
  '(ret, doc') ← delete_walk (strsep_all (strip_path (String c path)) "/") doc ixarray;
  Some (json_set_operation_result
          (if ret =? ASTJSON_OK
           then pbx_builtin_setvar_helper chan1 name (ast_json_dump_string_format doc')
           else chan1) ret).
Proof.
  intros H.
  destruct (holds_document_getvar _ _ _ ASTJSON_UNDECIDED H)
    as (c' & name' & d & source' & -> & Hget & Hload).
  unfold jsondelete_exec, app_arg. simpl lookup. cbv beta iota.
  rewrite Hget. simpl. rewrite Hload. reflexivity.
Qed.

Lemma jsonadd_document_loaded (chan : channel) (name path : string)
    (args_name : option string) (newobject : option json) (doc : json) :
  holds_document chan name doc →
  jsonadd_document (json_set_operation_result chan ASTJSON_UNDECIDED) name
    (Some path) args_name newobject
  = Some (jsonadd_path (json_set_operation_result chan ASTJSON_UNDECIDED) name
            args_name newobject doc (strip_path path)).
Proof.
  intros H.
  destruct (holds_document_getvar _ _ _ ASTJSON_UNDECIDED H)
    as (c' & name' & d & source' & -> & Hget & Hload).
  unfold jsonadd_document. rewrite Hget. simpl. rewrite Hload. reflexivity.
Qed.

Lemma jsonelement_exec_loaded (chan : channel) (name : string) (c : ascii)
    (path : string) (rest : list string) (buflen : nat) (doc : json) :
  holds_document chan name doc →
  jsonelement_exec chan (name :: String c path :: rest) buflen =
  let chan1 := json_set_operation_result chan ASTJSON_UNDECIDED in
  match element_walk (strsep_all (strip_path (String c path)) "/") doc with
  | None => (json_set_operation_result chan1 ASTJSON_NOTFOUND, EmptyString)
  | Some thisobject =>
      (json_set_operation_result
         (pbx_builtin_setvar_helper chan1 "JSONTYPE" (element_type thisobject))
         ASTJSON_OK,
       ast_copy_string (element_value thisobject) buflen)
  end.
Proof.
  intros H.
  destruct (holds_document_getvar _ _ _ ASTJSON_UNDECIDED H)
    as (c' & name' & d & source' & -> & Hget & Hload).
  unfold jsonelement_exec, app_arg. simpl lookup. cbv beta iota.
  rewrite Hget. simpl. rewrite Hload. reflexivity.
Qed.

Lemma jsonvariables_exec_loaded (chan : channel) (name : string) (rest : list string)
    (doc : json) :
  holds_document chan name doc →
  jsonvariables_exec chan (name :: rest) =
  json_set_operation_result
    (set_variables (json_set_operation_result chan ASTJSON_UNDECIDED) doc) ASTJSON_OK.
Proof.
  intros H.
  destruct (holds_document_getvar _ _ _ ASTJSON_UNDECIDED H)
    as (c' & name' & d & source' & -> & Hget & Hload).
  unfold jsonvariables_exec, app_arg. simpl lookup. cbv beta iota.
  rewrite Hget. simpl. rewrite Hload. reflexivity.
Qed.

Lemma strlen_zero (s : string) : Nat.eqb (strlen s) 0 = false ↔ s ≠ "".
Proof. destruct s; simpl; split; intros; done. Qed.

(** ** jsonset *)

(** C1. The code does not keep the type of a number stored as an integer:
    [jsonset] on a path that addresses an integer hands the text of the
    value to the constructor of a string. When the text is valid UTF-8 the
    run reports Ok and leaves a string there, the text of the value: the
    type [jsonelement] reports at the path is "number" before and "string"
    after. When it is not, no string is made: the run reports InvalidType
    and changes no variable but the result code. *)
Theorem jsonset_integer_becomes_string (ixarray : Z) (chan : channel)
    (name path value : string) (doc : json) (n : Z) :
  holds_document chan name doc →
  strip_path path ≠ "" →
  resolve doc path = Some (JInteger n) →
  ∃ chan',
    jsonset_exec ixarray chan [name; path; value] = Some chan'
    ∧ if utf8_check_string value
      then reports chan' ASTJSON_OK
           ∧ stores chan chan' name
               (ast_json_dump_string_format (write_at doc path (JString value)))
           ∧ resolve (write_at doc path (JString value)) path = Some (JString value)
           ∧ element_type (JInteger n) = "number"
           ∧ element_type (JString value) = "string"
      else reports chan' ASTJSON_INVALID_TYPE ∧ left_untouched chan chan'.
Proof.
  intros Hdoc Hpath%strlen_zero Hnode.
  unfold resolve, write_at in *. rewrite Hpath in *.
  rewrite (jsonset_exec_loaded _ _ _ _ _ _ Hdoc). cbv zeta. rewrite Hpath.
  rewrite (set_walk_found _ _ _ _ _ (holds_document_utf8 _ _ _ Hdoc)
             (strsep_all_nonempty _ _) Hnode).
  simpl lookup. cbn [set_newobject ast_json_typeof mbind option_bind
                     ast_json_string_create ast_json_integer_create].
  destruct (utf8_check_string value); simpl.
  - eexists. split; [reflexivity|].
    split; [apply reports_result|]. split; [apply stores_result|].
    split; [|done]. by eapply element_walk_write_path.
  - eexists. split; [reflexivity|].
    split; [apply reports_result|apply left_untouched_result].
Qed.

(** C5, amended. [jsonset] on a path with at least one segment that
    addresses a null or an array reports InvalidType; on a path without
    segments, which addresses the root, it reports NotFound. In both cases
    it does not report Ok and changes no variable but the result code. *)
Theorem jsonset_null_or_array_invalid_type (ixarray : Z) (chan : channel)
    (name path : string) (rest : list string) (doc node : json) :
  holds_document chan name doc →
  resolve doc path = Some node →
  ast_json_typeof node = AST_JSON_NULL ∨ ast_json_typeof node = AST_JSON_ARRAY →
  ∃ chan',
    jsonset_exec ixarray chan (name :: path :: rest) = Some chan'
    ∧ reports chan'
        (if Nat.eqb (strlen (strip_path path)) 0
         then ASTJSON_NOTFOUND else ASTJSON_INVALID_TYPE)
    ∧ ¬ reports chan' ASTJSON_OK
    ∧ left_untouched chan chan'.
Proof.
  intros Hdoc Hnode Htype.
  rewrite (jsonset_exec_loaded _ _ _ _ _ _ Hdoc). cbv zeta.
  unfold resolve in Hnode.
  destruct (Nat.eqb (strlen (strip_path path)) 0) eqn:Hpath.
  - eexists. split; [reflexivity|]. split; [apply reports_result|].
    split; [|apply left_untouched_result].
    intros H. by pose proof (reports_inj _ _ _ H (reports_result _ _)).
  - rewrite (set_walk_found _ _ _ _ _ (holds_document_utf8 _ _ _ Hdoc)
               (strsep_all_nonempty _ _) Hnode).
    assert (set_newobject node (rest !! 0%nat) = Some None) as ->.
    { unfold set_newobject. by destruct Htype as [-> | ->]. }
    simpl. eexists. split; [reflexivity|]. split; [apply reports_result|].
    split; [|apply left_untouched_result].
    intros H. by pose proof (reports_inj _ _ _ H (reports_result _ _)).
Qed.

(** ** JSONELEMENT and jsonvariables *)

Lemma string_take_all (n : nat) (s : string) :
  (strlen s <= n)%nat → string_take n s = s.
Proof.
  revert n. induction s as [|c s IH]; intros [|n]; simpl; intros H; try done; [lia|].
  rewrite IH; [done|lia].
Qed.

Lemma ast_copy_string_fits (src : string) (size : nat) :
  (strlen src < size)%nat → ast_copy_string src size = src.
Proof. intros H. apply string_take_all. lia. Qed.

(** C2. The code does not return the document on an empty path: what it
    copies to the buffer is its first argument, the name of the variable,
    cut to the size of the buffer. It reports Ok and changes no variable
    but the result code. *)
Theorem jsonelement_empty_path_returns_name (chan : channel) (name : string)
    (rest : list string) (buflen : nat) :
  name ≠ "" → ast_strlen_zero (rest !! 0%nat) = true →
  ∃ chan',
    jsonelement_exec chan (name :: rest) buflen = (chan', ast_copy_string name buflen)
    ∧ reports chan' ASTJSON_OK
    ∧ left_untouched chan chan'.
Proof.
  intros Hname Hpath. destruct name as [|c name]; [done|].
  unfold jsonelement_exec, app_arg. simpl lookup. cbv beta iota zeta.
  destruct (rest !! 0%nat) as [[|d path]|]; try discriminate;
    (eexists; split; [reflexivity|];
     split; [apply reports_result|apply left_untouched_result]).
Qed.

(** C7, amended. On a text that is JSON and valid UTF-8 and whose root
    is not an object, [jsonvariables] sets no variable but the result code.
    When the root is an array it reports Ok, not ParseError. When the root
    is a number, a string, a boolean or null, [json_loads] does not accept
    the text, and it reports ParseError. *)
Theorem jsonvariables_not_object (chan : channel) (name source : string)
    (rest : list string) (doc : json) :
  name ≠ "" → name ≠ "JSONRESULT" →
  chan !! name = Some source →
  decode_json source = Some doc → json_utf8 doc = true →
  ast_json_typeof doc ≠ AST_JSON_OBJECT →
  match ast_json_typeof doc with
  | AST_JSON_ARRAY =>
      reports (jsonvariables_exec chan (name :: rest)) ASTJSON_OK
      ∧ ¬ reports (jsonvariables_exec chan (name :: rest)) ASTJSON_PARSE_ERROR
  | _ => reports (jsonvariables_exec chan (name :: rest)) ASTJSON_PARSE_ERROR
  end
  ∧ left_untouched chan (jsonvariables_exec chan (name :: rest)).
Proof.
  intros Hname Hresult Hget Hdecode Hutf8 Htype.
  destruct name as [|c name]; [done|].
  unfold jsonvariables_exec, app_arg. simpl lookup. cbv beta iota zeta.
  rewrite getvar_after_result, decide_False by done. rewrite Hget.
  unfold ast_json_load_string. simpl mbind. unfold json_loads. rewrite Hdecode.
  destruct doc; try done; cbn [ast_json_typeof];
    try (split; [apply reports_result|apply left_untouched_result]).
  rewrite Hutf8. cbn [set_variables].
  split; [|apply left_untouched_result].
  split; [apply reports_result|].
  intros H. by pose proof (reports_inj _ _ _ H (reports_result _ _)).
Qed.

Lemma set_variables_other (chan : channel) (members : list (string * json))
    (key : string) :
  key ∉ members.*1 →
  set_variables chan (JObject members) !! key = chan !! key.
Proof.
  simpl. revert chan. induction members as [|[k v] members IH]; intros chan; simpl.
  - done.
  - intros [Hk Hin]%not_elem_of_cons. rewrite (IH _ Hin).
    unfold pbx_builtin_setvar_helper. simpl. by rewrite lookup_insert_ne.
Qed.

(** Every key of an object names a variable, set to the value of its
    member. *)
Lemma set_variables_member (chan : channel) (members : list (string * json))
    (key : string) (value : json) :
  NoDup members.*1 → (key, value) ∈ members →
  set_variables chan (JObject members) !! key = Some (variable_value value).
Proof.
  revert chan. induction members as [|[k v] members IH]; intros chan.
  - by intros _ ?%elem_of_nil.
  - rewrite fmap_cons. intros [Hk Hnodup]%NoDup_cons [Heq|Hin]%elem_of_cons.
    + injection Heq as -> ->.
      change (set_variables chan (JObject ((k, v) :: members)))
        with (set_variables (pbx_builtin_setvar_helper chan k (variable_value v))
                (JObject members)).
      rewrite (set_variables_other _ _ _ Hk). apply lookup_insert_eq.
    + apply (IH (pbx_builtin_setvar_helper chan k (variable_value v)) Hnodup Hin).
Qed.

(** C10. The text of a number stored as an integer is the [%d] conversion
    of the value cast to [int]: [jsonelement] copies it to its buffer, whole
    when the buffer has room for it, and [jsonvariables] sets the variable
    of the key to it. The cast keeps a value of 32 bits and reduces any
    other modulo 2^32 into that range; the text reads back as the number
    cast. *)
Theorem integer_rendering :
  (∀ (chan : channel) (name path : string) (rest : list string) (buflen : nat)
     (doc : json) (n : Z),
     holds_document chan name doc → path ≠ "" →
     element_walk (strsep_all (strip_path path) "/") doc = Some (JInteger n) →
     ∃ chan',
       jsonelement_exec chan (name :: path :: rest) buflen
       = (chan', ast_copy_string (printf_d (cast_int n)) buflen)
       ∧ reports chan' ASTJSON_OK
       ∧ chan' !! "JSONTYPE" = Some "number"
       ∧ ((strlen (printf_d (cast_int n)) < buflen)%nat →
          ast_copy_string (printf_d (cast_int n)) buflen = printf_d (cast_int n)))
  ∧ (∀ (chan : channel) (name key : string) (rest : list string)
       (members : list (string * json)) (n : Z),
       holds_document chan name (JObject members) →
       NoDup members.*1 → (key, JInteger n) ∈ members → key ≠ "JSONRESULT" →
       jsonvariables_exec chan (name :: rest) !! key = Some (printf_d (cast_int n)))
  ∧ (∀ n : Z,
       int_range (cast_int n)
       ∧ cast_int n mod 2 ^ 32 = n mod 2 ^ 32
       ∧ (int_range n → cast_int n = n)
       ∧ Z.of_int <$> NilZero.int_of_string (printf_d (cast_int n)) = Some (cast_int n)).
Proof.
  split; [|split].
  - intros chan name path rest buflen doc n Hdoc Hpath Hwalk.
    destruct path as [|c path]; [done|].
    rewrite (jsonelement_exec_loaded _ _ _ _ _ _ _ Hdoc). cbv zeta. rewrite Hwalk.
    eexists. split; [reflexivity|]. split; [apply reports_result|].
    split; [|apply ast_copy_string_fits].
    unfold json_set_operation_result, pbx_builtin_setvar_helper.
    rewrite lookup_insert_ne by done. apply lookup_insert_eq.
  - intros chan name key rest members n Hdoc Hnodup Hin Hkey.
    rewrite (jsonvariables_exec_loaded _ _ _ _ Hdoc).
    unfold json_set_operation_result at 1. unfold pbx_builtin_setvar_helper at 1.
    rewrite lookup_insert_ne by done.
    by rewrite (set_variables_member _ _ _ _ Hnodup Hin).
  - intros n. split; [apply cast_int_range|]. split; [apply cast_int_modulo|].
    split; [apply cast_int_exact|apply printf_d_reads_back].
Qed.

(** ** jsonadd *)

Lemma unknown_type_request (tag : string) (args_value : option string) :
  unknown_type tag → add_newobject tag args_value = Invalid_element_type.
Proof.
  unfold unknown_type. rewrite !Forall_cons.
  intros (Hbool & Hnull & Hnumber & Hstring & Harray & Hnode & _).
  unfold add_newobject.
  by rewrite (proj2 (Z.eqb_neq _ _) Hbool), (proj2 (Z.eqb_neq _ _) Hnull),
    (proj2 (Z.eqb_neq _ _) Hnumber), (proj2 (Z.eqb_neq _ _) Hstring),
    (proj2 (Z.eqb_neq _ _) Harray), (proj2 (Z.eqb_neq _ _) Hnode).
Qed.

(** C8, amended. [jsonadd] with a type tag that is present and is none of
    bool, null, number, string, array, node or object, in any case of
    letters, reports ArgumentNeeded, not InvalidType, and changes no
    variable but the result code. *)
Theorem jsonadd_unknown_type (chan : channel) (data : list string) (tag : string) :
  data !! 2%nat = Some tag → unknown_type tag →
  ∃ chan',
    jsonadd_exec chan data = Some chan'
    ∧ reports chan' ASTJSON_ARG_NEEDED
    ∧ ¬ reports chan' ASTJSON_INVALID_TYPE
    ∧ left_untouched chan chan'.
Proof.
  intros Htag Hunknown.
  assert (∀ chan0 : channel,
    let chan' := json_set_operation_result
                   (json_set_operation_result chan0 ASTJSON_UNDECIDED)
                   ASTJSON_ARG_NEEDED in
    reports chan' ASTJSON_ARG_NEEDED
    ∧ ¬ reports chan' ASTJSON_INVALID_TYPE ∧ left_untouched chan0 chan') as Hend.
  { intros chan0 chan'. split; [apply reports_result|].
    split; [|apply left_untouched_result].
    intros H. by pose proof (reports_inj _ _ _ H (reports_result _ _)). }
  unfold jsonadd_exec, app_arg. rewrite Htag.
  destruct data as [|args_json data]; [done|]. simpl lookup. cbv beta iota zeta.
  destruct args_json as [|c args_json]; [eexists; split; [reflexivity|apply Hend]|].
  destruct tag as [|d tag]; [eexists; split; [reflexivity|apply Hend]|].
  rewrite (unknown_type_request _ _ Hunknown).
  eexists; split; [reflexivity|apply Hend].
Qed.

(** ** What the three applications leave on the channel *)

Lemma finish_outcome (chan : channel) (data : list string) (name : string)
    (ret : Z) (doc : json) :
  data !! 0%nat = Some name →
  outcome chan data
    (json_set_operation_result
       (if ret =? ASTJSON_OK
        then pbx_builtin_setvar_helper (json_set_operation_result chan ASTJSON_UNDECIDED)
               name (ast_json_dump_string_format doc)
        else json_set_operation_result chan ASTJSON_UNDECIDED) ret).
Proof.
  intros Hname. destruct (Z.eqb_spec ret ASTJSON_OK) as [->|Hret].
  - by apply Written.
  - by apply Refused.
Qed.

Lemma jsonadd_exec_outcome (chan chan' : channel) (data : list string) :
  jsonadd_exec chan data = Some chan' → outcome chan data chan'.
Proof.
  unfold jsonadd_exec, app_arg.
  destruct data as [|args_json data]; [intros [= <-]; by apply Refused|].
  simpl lookup. cbv beta iota zeta.
  destruct args_json as [|c args_json]; [intros [= <-]; by apply Refused|].
  destruct (data !! 1%nat) as [[|d args_type]|]; try (intros [= <-]; by apply Refused).
  destruct (add_newobject _ _) as [newobject| |];
    [|intros [= <-]; by apply Refused|discriminate].
  unfold jsonadd_document, jsonadd_path.
  destruct (ast_strlen_zero _).
  - destruct (add_element _ _ _) as [ret doc]. intros [= <-]. by apply finish_outcome.
  - destruct (ast_json_load_string _) as [doc|]; [|intros [= <-]; by apply Refused].
    destruct (data !! 0%nat) as [path|]; [|discriminate].
    destruct (if Nat.eqb _ _ then _ else _) as [ret doc']. intros [= <-].
    by apply finish_outcome.
Qed.

Lemma jsonset_exec_outcome (ixarray : Z) (chan chan' : channel) (data : list string) :
  jsonset_exec ixarray chan data = Some chan' → outcome chan data chan'.
Proof.
  unfold jsonset_exec, app_arg.
  destruct data as [|args_json data]; [intros [= <-]; by apply Refused|].
  simpl lookup. cbv beta iota zeta.
  destruct args_json as [|c args_json]; [intros [= <-]; by apply Refused|].
  destruct (pbx_builtin_getvar_helper _ _) as [source|]; [simpl|discriminate].
  destruct (Nat.eqb _ _); [intros [= <-]; by apply Refused|].
  destruct (json_loads source) as [doc|]; [|intros [= <-]; by apply Refused].
  destruct (data !! 0%nat) as [path|]; [simpl|discriminate].
  destruct (Nat.eqb _ _); [intros [= <-]; by apply Refused|].
  destruct (set_walk _ _ _ _) as [[ret doc']|]; [simpl|discriminate].
  intros [= <-]. by apply finish_outcome.
Qed.

Lemma jsondelete_exec_outcome (ixarray : Z) (chan chan' : channel) (data : list string) :
  jsondelete_exec ixarray chan data = Some chan' →
  outcome chan data chan'
  ∨ (ast_strlen_zero (data !! 1%nat) = true
     ∧ chan' = json_set_operation_result
                 (json_set_operation_result chan ASTJSON_UNDECIDED) ASTJSON_OK).
Proof.
  unfold jsondelete_exec, app_arg.
  destruct data as [|args_json data]; [intros [= <-]; left; by apply Refused|].
  simpl lookup. cbv beta iota zeta.
  destruct args_json as [|c args_json]; [intros [= <-]; left; by apply Refused|].
  destruct (data !! 0%nat) as [[|d path]|]; try (intros [= <-]; by right).
  destruct (pbx_builtin_getvar_helper _ _) as [source|]; [simpl|discriminate].
  destruct (Nat.eqb _ _); [intros [= <-]; left; by apply Refused|].
  destruct (json_loads source) as [doc|]; [|intros [= <-]; left; by apply Refused].
  destruct (delete_walk _ _ _) as [[ret doc']|]; [simpl|discriminate].
  intros [= <-]. left. by apply finish_outcome.
Qed.

(** C3, amended. A run of [jsonadd], [jsonset] or [jsondelete] that does
    not report Ok changes no variable but the result code JSONRESULT: the
    document text is as it was. A run that reports Ok has set the variable
    of the document to the text of a document, but for [jsondelete] with an
    empty path, which reports Ok and sets nothing. *)
Theorem document_written_only_if_ok (ixarray : Z) (chan chan' : channel)
    (data : list string) :
  jsonadd_exec chan data = Some chan'
  ∨ jsonset_exec ixarray chan data = Some chan'
  ∨ jsondelete_exec ixarray chan data = Some chan' →
  (¬ reports chan' ASTJSON_OK → left_untouched chan chan')
  ∧ (reports chan' ASTJSON_OK →
     (∃ name doc, data !! 0%nat = Some name
                  ∧ stores chan chan' name (ast_json_dump_string_format doc))
     ∨ (jsondelete_exec ixarray chan data = Some chan'
        ∧ ast_strlen_zero (data !! 1%nat) = true
        ∧ left_untouched chan chan')).
Proof.
  intros Hrun.
  assert (outcome chan data chan'
          ∨ (jsondelete_exec ixarray chan data = Some chan'
             ∧ ast_strlen_zero (data !! 1%nat) = true
             ∧ chan' = json_set_operation_result
                         (json_set_operation_result chan ASTJSON_UNDECIDED) ASTJSON_OK))
    as [Hout|(Hdelete & Hpath & ->)].
  { destruct Hrun as [H|[H|H]].
    - left. by apply jsonadd_exec_outcome.
    - left. by eapply jsonset_exec_outcome.
    - destruct (jsondelete_exec_outcome _ _ _ _ H) as [?|[? ?]]; [by left|by right]. }
  - destruct Hout as [ret Hret|name doc Hname].
    + split; [intros _; apply left_untouched_result|].
      intros H. by pose proof (reports_inj _ _ _ H (reports_result _ _)).
    + split; [intros H; destruct H; apply reports_result|].
      intros _. left. exists name, doc. split; [done|apply stores_result].
  - split; [intros _; apply left_untouched_result|].
    intros _. right. split; [done|]. split; [done|apply left_untouched_result].
Qed.

(** ** jsondelete *)

Lemma take_delete_same {A} (l : list A) (i : nat) : take i (delete i l) = take i l.
Proof.
  revert i. induction l as [|x l IH]; intros [|i]; simpl; try done.
  by rewrite IH.
Qed.

(** On an array the loop keeps removing at the index of the first token
    until the array is too short: every element from that index on is
    removed. *)
Lemma delete_loop_array_tail (fuel : nat) (pathpiece : string) (index : Z)
    (elements : list json) (ixarray ret : Z) :
  sscanf_3d pathpiece = Some index → 0 <= index →
  (length elements - Z.to_nat index < fuel)%nat →
  delete_loop fuel pathpiece [] (JArray elements) ixarray ret
  = Some (if (Z.to_nat index <? length elements)%nat then ASTJSON_OK else ret,
          JArray (take (Z.to_nat index) elements)).
Proof.
  intros Hscan Hpos. revert elements ixarray ret.
  induction fuel as [|fuel IH]; intros elements ixarray ret Hfuel; [lia|].
  simpl. unfold next_object, next_ixarray, delete_from. rewrite Hscan. simpl.
  destruct (Z.ltb_spec index 0); [lia|].
  destruct (elements !! Z.to_nat index) as [nextobject|] eqn:Hget.
  - pose proof (lookup_lt_Some _ _ _ Hget) as Hlt.
    destruct (Z.leb_spec 0 index); [|lia].
    destruct (Z.ltb_spec index (Z.of_nat (length elements))); [|lia].
    simpl. rewrite IH by (rewrite length_delete by eauto; lia).
    destruct (Nat.ltb_spec (Z.to_nat index) (length elements)); [|lia].
    rewrite take_delete_same.
    by destruct (Z.to_nat index <? length (delete (Z.to_nat index) elements))%nat.
  - apply lookup_ge_None in Hget.
    destruct (Nat.ltb_spec (Z.to_nat index) (length elements)); [lia|].
    by rewrite take_ge.
Qed.

Lemma json_size_array (elements : list json) :
  (length elements < json_size (JArray elements))%nat.
Proof.
  simpl. induction elements as [|x l IH]; simpl; [lia|].
  pose proof (json_size_pos x). lia.
Qed.

Lemma delete_walk_array_tail (pathpiece : string) (index : Z)
    (elements : list json) (ixarray : Z) :
  sscanf_3d pathpiece = Some index → 0 <= index →
  (Z.to_nat index < length elements)%nat →
  delete_walk [pathpiece] (JArray elements) ixarray
  = Some (ASTJSON_OK, JArray (take (Z.to_nat index) elements)).
Proof.
  intros Hscan Hpos Hlt. unfold delete_walk.
  pose proof (json_size_array elements).
  rewrite (delete_loop_array_tail _ _ _ _ _ _ Hscan Hpos) by lia.
  by destruct (Nat.ltb_spec (Z.to_nat index) (length elements)); [|lia].
Qed.

(** Below the first level the loop looks up the first token again, not
    the next one: on [{"a":{"a":5,"b":1}}] the path [/a/b] removes the
    member [a] of the inner object. *)
Lemma delete_walk_uses_first_token (ixarray : Z) :
  delete_walk (strsep_all (strip_path "/a/b") "/")
    (JObject [("a", JObject [("a", JInteger 5); ("b", JInteger 1)])]) ixarray
  = Some (ASTJSON_OK, JObject [("a", JObject [("b", JInteger 1)])]).
Proof. reflexivity. Qed.

(** C4. The code removes more than the slot addressed: on the document
    [[1,2,3]], [jsondelete] with the path [/0] reports Ok and leaves the
    empty array, where one element was to go and two to shift down. *)
Theorem jsondelete_removes_array_tail (ixarray : Z) (chan : channel) (name : string) :
  holds_document chan name (JArray [JInteger 1; JInteger 2; JInteger 3]) →
  ∃ chan',
    jsondelete_exec ixarray chan [name; "/0"] = Some chan'
    ∧ reports chan' ASTJSON_OK
    ∧ stores chan chan' name (ast_json_dump_string_format (JArray [])).
Proof.
  intros Hdoc. rewrite (jsondelete_exec_loaded _ _ _ _ _ _ _ Hdoc). cbv zeta.
  change (strsep_all (strip_path "/0") "/") with ["0"].
  rewrite (delete_walk_array_tail "0" 0) by (reflexivity || lia || (simpl; lia)).
  simpl. eexists. split; [reflexivity|].
  split; [apply reports_result|apply stores_result].
Qed.

(** ** Path segments *)







(** ** Numbers added by jsonadd *)

Lemma strcasecmp_cons_cons (c d : ascii) (a b : string) :
  strcasecmp (String c a) (String d b) =
  if Ascii.eqb (tolower c) (tolower d) then strcasecmp a b
  else Z.of_nat (nat_of_ascii (tolower c)) - Z.of_nat (nat_of_ascii (tolower d)).
Proof. reflexivity. Qed.

Lemma strcasecmp_cons (s : string) (d : ascii) (r : string) :
  strcasecmp s (String d r) = 0 → nat_of_ascii (tolower d) ≠ 0%nat →
  ∃ c s', s = String c s' ∧ tolower c = tolower d ∧ strcasecmp s' r = 0.
Proof.
  destruct s as [|c s'].
  - simpl. lia.
  - rewrite strcasecmp_cons_cons.
    destruct (Ascii.eqb_spec (tolower c) (tolower d)) as [Heq|Hne]; [eauto|].
    intros H _. destruct Hne.
    rewrite <- (ascii_nat_embedding (tolower c)), <- (ascii_nat_embedding (tolower d)).
    f_equal. lia.
Qed.

(** A tag that reads "number" reads neither "bool" nor "null". *)
Lemma number_request (tag value : string) :
  strcasecmp tag "number" = 0 →
  add_newobject tag (Some value) = Element (ast_json_real_create (atof value)).
Proof.
  intros Hnumber. unfold add_newobject. rewrite Hnumber.
  apply strcasecmp_cons in Hnumber as (c1 & s1 & -> & H1 & H); [|by vm_compute].
  apply strcasecmp_cons in H as (c2 & s2 & -> & H2 & H); [|by vm_compute].
  apply strcasecmp_cons in H as (c3 & s3 & -> & H3 & H); [|by vm_compute].
  assert (strcasecmp (String c1 (String c2 (String c3 s3))) "bool" ≠ 0) as Hbool.
  { rewrite strcasecmp_cons_cons, H1. by vm_compute. }
  assert (strcasecmp (String c1 (String c2 (String c3 s3))) "null" ≠ 0) as Hnull.
  { rewrite !strcasecmp_cons_cons, H1, H2, H3. by vm_compute. }
  by rewrite (proj2 (Z.eqb_neq _ _) Hbool), (proj2 (Z.eqb_neq _ _) Hnull).
Qed.

Lemma jsonadd_exec_request (chan : channel) (name path tag : string)
    (rest : list string) :
  name ≠ "" → tag ≠ "" →
  jsonadd_exec chan (name :: path :: tag :: rest) =
  match add_newobject tag (rest !! 1%nat) with
  | Element newobject =>
      jsonadd_document (json_set_operation_result chan ASTJSON_UNDECIDED) name
        (Some path) (rest !! 0%nat) newobject
  | Invalid_element_type =>
      Some (json_set_operation_result
              (json_set_operation_result chan ASTJSON_UNDECIDED) ASTJSON_ARG_NEEDED)
  | Null_dereference => None
  end.
Proof.
  intros Hname Htag. destruct name as [|c name]; [done|].
  destruct tag as [|d tag]; [done|]. reflexivity.
Qed.

Lemma resolve_write_at (doc node element : json) (path : string) :
  resolve doc path = Some node → resolve (write_at doc path element) path = Some element.
Proof.
  unfold resolve, write_at. destruct (Nat.eqb (strlen (strip_path path)) 0); [done|].
  apply element_walk_write_path.
Qed.

(** The run of [jsonadd] on a document that parses, once the element to
    add is made: the result code is NotFound when the path does not
    resolve, and otherwise that of the addition to the element the path
    addresses, which takes its place in the document stored. *)
Lemma jsonadd_path_resolved (chan : channel) (name path : string)
    (args_name : option string) (newobject : option json) (doc : json) :
  jsonadd_path (json_set_operation_result chan ASTJSON_UNDECIDED) name args_name
    newobject doc (strip_path path) =
  match resolve doc path with
  | Some target =>
      let (ret, target') := add_element target args_name newobject in
      json_set_operation_result
        (if ret =? ASTJSON_OK
         then pbx_builtin_setvar_helper
                (json_set_operation_result chan ASTJSON_UNDECIDED) name
                (ast_json_dump_string_format (write_at doc path target'))
         else json_set_operation_result chan ASTJSON_UNDECIDED) ret
  | None =>
      json_set_operation_result
        (json_set_operation_result chan ASTJSON_UNDECIDED) ASTJSON_NOTFOUND
  end.
Proof.
  unfold jsonadd_path, resolve, write_at.
  destruct (Nat.eqb (strlen (strip_path path)) 0).
  - by destruct (add_element doc args_name newobject).
  - destruct (element_walk (strsep_all (strip_path path) "/") doc) as [target|] eqn:E.
    + rewrite (add_walk_found _ _ _ _ _ (strsep_all_nonempty _ _) E).
      by destruct (add_element target args_name newobject).
    + by rewrite (add_walk_notfound _ _ _ _ E).
Qed.

Lemma number_tag_nonempty (tag : string) : strcasecmp tag "number" = 0 → tag ≠ "".
Proof. by intros H ->. Qed.

(** C9, amended. [jsonadd] with a type tag that reads "number" makes the
    real [atof] of the value, when that is a finite number, and the run
    on a path that addresses an array, or an object with a name of valid
    UTF-8, reports Ok and stores the document with the real at the end of
    the array, or under the name in the object. The element is of type
    real, never integer, whatever the text of the value; it is the real
    zero when the text has no number for [atof] to convert. When [atof]
    gives an infinity or a NaN no element is made: the run reports
    AddFailed and changes no variable but the result code. *)
Theorem jsonadd_number_stores_real :
  (∀ s, strtod_subject s = false → atof s = positive_zero) →
  ∀ (chan : channel) (name path tag ename value : string) (doc target : json),
    strcasecmp tag "number" = 0 →
    holds_document chan name doc →
    resolve doc path = Some target →
    ∃ chan',
      jsonadd_exec chan [name; path; tag; ename; value] = Some chan'
      ∧ (is_finite (atof value) = true →
         (∀ elements,
            target = JArray elements →
            reports chan' ASTJSON_OK
            ∧ stores chan chan' name
                (ast_json_dump_string_format
                   (write_at doc path (JArray (elements ++ [JReal (atof value)]))))
            ∧ resolve (write_at doc path (JArray (elements ++ [JReal (atof value)]))) path
              = Some (JArray (elements ++ [JReal (atof value)])))
         ∧ (∀ members,
              target = JObject members → utf8_check_string ename = true →
              reports chan' ASTJSON_OK
              ∧ stores chan chan' name
                  (ast_json_dump_string_format
                     (write_at doc path
                        (JObject (members_set ename (JReal (atof value)) members))))
              ∧ resolve
                  (write_at doc path
                     (JObject (members_set ename (JReal (atof value)) members))) path
                = Some (JObject (members_set ename (JReal (atof value)) members))))
      ∧ (is_finite (atof value) = false →
         reports chan' ASTJSON_ADD_FAILED ∧ left_untouched chan chan')
      ∧ ast_json_typeof (JReal (atof value)) = AST_JSON_REAL
      ∧ element_type (JReal (atof value)) = "number"
      ∧ (strtod_subject value = false →
         atof value = positive_zero ∧ is_finite (atof value) = true).
Proof.
  intros Hatof chan name path tag ename value doc target Hnumber Hdoc Hresolve.
  rewrite (jsonadd_exec_request _ _ _ _ _ (proj1 Hdoc) (number_tag_nonempty _ Hnumber)).
  simpl lookup. rewrite (number_request _ value Hnumber).
  rewrite (jsonadd_document_loaded _ _ _ _ _ _ Hdoc), jsonadd_path_resolved, Hresolve.
  unfold ast_json_real_create.
  eexists. split; [reflexivity|].
  split; [|split; [|split; [done|split; [done|]]]].
  - intros ->. split.
    + intros elements ->. simpl.
      split; [apply reports_result|]. split; [apply stores_result|].
      by eapply resolve_write_at.
    + intros members -> Hename.
      cbn [add_element ast_json_typeof ast_json_object_set]. rewrite Hename. simpl.
      split; [apply reports_result|]. split; [apply stores_result|].
      by eapply resolve_write_at.
  - intros ->.
    assert (add_element target (Some ename) None = (ASTJSON_ADD_FAILED, target)) as ->.
    { unfold add_element. destruct target; simpl; try done.
      by destruct (utf8_check_string ename). }
    simpl. split; [apply reports_result|apply left_untouched_result].
  - intros Hsubject. by rewrite (Hatof _ Hsubject).
Qed.

(** ** More on JSONELEMENT, JSONPRETTY and JSONCOMPRESS *)

Lemma strlen_string_take (n : nat) (s : string) : (strlen (string_take n s) <= n)%nat.
Proof.
  unfold strlen. revert s. induction n as [|n IH]; intros [|c s]; simpl; try lia.
  specialize (IH s). lia.
Qed.

Lemma strlen_ast_copy_string (src : string) (size : nat) :
  (strlen (ast_copy_string src size) <= size - 1)%nat.
Proof. apply strlen_string_take. Qed.

(** The three functions never fill the buffer they are given: with a
    buffer of at least one byte, the text they leave in it is shorter than
    [buflen], so that its end fits. *)
Theorem buffer_within_size (chan : channel) (parse : list string) (buflen : nat) :
  (0 < buflen)%nat →
  (strlen (jsonelement_exec chan parse buflen).2 < buflen)%nat
  ∧ (strlen (jsonpretty_exec chan parse buflen).2 < buflen)%nat
  ∧ (strlen (jsoncompress_exec chan parse buflen).2 < buflen)%nat.
Proof.
  intros Hbuflen.
  assert (∀ src, (strlen (ast_copy_string src buflen) < buflen)%nat) as Hcopy.
  { intros src. pose proof (strlen_ast_copy_string src buflen). lia. }
  unfold jsonelement_exec, jsonpretty_exec, jsoncompress_exec.
  repeat split; repeat case_match; simpl;
    first [apply Hcopy | unfold strlen; simpl; lia].
Qed.

(** [jsonelement] sets no variable but the result code and [JSONTYPE],
    whatever its arguments: it never changes the document. *)
Theorem jsonelement_frame (chan : channel) (parse : list string) (buflen : nat)
    (variable : string) :
  variable ≠ "JSONRESULT" → variable ≠ "JSONTYPE" →
  (jsonelement_exec chan parse buflen).1 !! variable = chan !! variable.
Proof.
  intros Hresult Htype. unfold jsonelement_exec.
  repeat case_match; simpl;
    unfold json_set_operation_result, pbx_builtin_setvar_helper;
    by rewrite !lookup_insert_ne.
Qed.

Lemma holds_text_getvar (chan : channel) (name source : string) (doc : json)
    (result : Z) :
  holds_text chan name source doc →
  ∃ c name',
    name = String c name'
    ∧ pbx_builtin_getvar_helper (json_set_operation_result chan result) name
      = Some source.
Proof.
  intros (Hname & Hresult & Hget & Hload).
  destruct name as [|c name']; [done|]. exists c, name'. split; [done|].
  unfold pbx_builtin_getvar_helper, json_set_operation_result, pbx_builtin_setvar_helper.
  by rewrite lookup_insert_ne.
Qed.

(** On a document that parses, [jsonelement] with a path that is not
    empty reports Ok when the walk of the path ends on an element, with the
    name of its type in [JSONTYPE] and its text in the buffer; when a
    segment is not found it reports NotFound, the buffer is empty and
    [JSONTYPE] is not set. *)
Theorem jsonelement_outcome (chan : channel) (name source path : string)
    (rest : list string) (buflen : nat) (doc : json) :
  holds_text chan name source doc → path ≠ "" →
  ∃ chan',
    match element_walk (strsep_all (strip_path path) "/") doc with
    | Some thisobject =>
        jsonelement_exec chan (name :: path :: rest) buflen
        = (chan', ast_copy_string (element_value thisobject) buflen)
        ∧ reports chan' ASTJSON_OK
        ∧ chan' !! "JSONTYPE" = Some (element_type thisobject)
    | None =>
        jsonelement_exec chan (name :: path :: rest) buflen = (chan', "")
        ∧ reports chan' ASTJSON_NOTFOUND
        ∧ left_untouched chan chan'
    end.
Proof.
  intros Htext Hpath.
  destruct (holds_text_getvar _ _ _ _ ASTJSON_UNDECIDED Htext) as (c & name' & -> & Hget).
  destruct Htext as (_ & _ & _ & Hload).
  destruct path as [|d path]; [done|].
  unfold jsonelement_exec, app_arg. simpl lookup. cbv beta iota zeta.
  rewrite Hget. simpl. rewrite Hload.
  destruct (element_walk _ doc) as [thisobject|].
  - eexists. split; [reflexivity|]. split; [apply reports_result|].
    unfold json_set_operation_result, pbx_builtin_setvar_helper.
    rewrite lookup_insert_ne by done. apply lookup_insert_eq.
  - eexists. split; [reflexivity|].
    split; [apply reports_result|apply left_untouched_result].
Qed.

Lemma left_untouched_once (chan : channel) (result : Z) :
  left_untouched chan (json_set_operation_result chan result).
Proof.
  intros variable Hne. unfold json_set_operation_result, pbx_builtin_setvar_helper.
  by rewrite lookup_insert_ne.
Qed.

(** [JSONPRETTY] and [JSONCOMPRESS] return the text of the document in the
    buffer and never store it: whatever the arguments, no variable but the
    result code changes. On a document that parses they report Ok and the
    buffer holds the serialisation, cut to the size of the buffer. *)
Theorem format_returns_text :
  (∀ (chan : channel) (parse : list string) (buflen : nat),
     left_untouched chan (jsonpretty_exec chan parse buflen).1
     ∧ left_untouched chan (jsoncompress_exec chan parse buflen).1)
  ∧ (∀ (chan : channel) (name source : string) (rest : list string) (buflen : nat)
       (doc : json),
       holds_text chan name source doc →
       jsonpretty_exec chan (name :: rest) buflen
       = (json_set_operation_result chan ASTJSON_OK,
          ast_copy_string (ast_json_dump_string_pretty doc) buflen)
       ∧ jsoncompress_exec chan (name :: rest) buflen
         = (json_set_operation_result chan ASTJSON_OK,
            ast_copy_string (ast_json_dump_string_format doc) buflen)).
Proof.
  split.
  - intros chan parse buflen. unfold jsonpretty_exec, jsoncompress_exec.
    split; repeat case_match; simpl; apply left_untouched_once.
  - intros chan name source rest buflen doc (Hname & _ & Hget & Hload).
    destruct name as [|c name]; [done|].
    unfold jsonpretty_exec, jsoncompress_exec, app_arg, pbx_builtin_getvar_helper.
    simpl lookup. cbv beta iota zeta. rewrite Hget. simpl. by rewrite Hload.
Qed.

(** A document variable that is not set, or whose text does not parse,
    makes the four reading functions report ParseError, with an empty
    buffer and no variable changed but the result code. *)
Theorem unreadable_document_parse_error (chan : channel) (name : string)
    (rest : list string) (buflen : nat) :
  holds_no_document chan name →
  (∀ path, path ≠ "" →
     ∃ chan',
       jsonelement_exec chan (name :: path :: rest) buflen = (chan', "")
       ∧ reports chan' ASTJSON_PARSE_ERROR ∧ left_untouched chan chan')
  ∧ (reports (jsonvariables_exec chan (name :: rest)) ASTJSON_PARSE_ERROR
     ∧ left_untouched chan (jsonvariables_exec chan (name :: rest)))
  ∧ jsonpretty_exec chan (name :: rest) buflen
    = (json_set_operation_result chan ASTJSON_PARSE_ERROR, "")
  ∧ jsoncompress_exec chan (name :: rest) buflen
    = (json_set_operation_result chan ASTJSON_PARSE_ERROR, "").
Proof.
  intros (Hname & Hresult & Hload). destruct name as [|c name]; [done|].
  assert (ast_json_load_string
            (pbx_builtin_getvar_helper
               (json_set_operation_result chan ASTJSON_UNDECIDED) (String c name))
          = None) as Hload1.
  { unfold pbx_builtin_getvar_helper, json_set_operation_result,
      pbx_builtin_setvar_helper, ast_json_load_string.
    by rewrite lookup_insert_ne. }
  split; [|split; [|split]].
  - intros [|d path] Hpath; [done|].
    unfold jsonelement_exec, app_arg. simpl lookup. cbv beta iota zeta.
    rewrite Hload1. eexists. split; [reflexivity|].
    split; [apply reports_result|apply left_untouched_result].
  - unfold jsonvariables_exec, app_arg. simpl lookup. cbv beta iota zeta.
    rewrite Hload1. split; [apply reports_result|apply left_untouched_result].
  - unfold jsonpretty_exec, app_arg, ast_json_load_string, pbx_builtin_getvar_helper.
    simpl lookup. cbv beta iota zeta. by rewrite Hload.
  - unfold jsoncompress_exec, app_arg, ast_json_load_string, pbx_builtin_getvar_helper.
    simpl lookup. cbv beta iota zeta. by rewrite Hload.
Qed.

(** ** The result codes of jsonadd, jsonset and jsondelete *)

Ltac code_in_list :=
  repeat match goal with
         | H : _ ∈ _ :: _ |- _ => apply elem_of_cons in H as [->|H]
         | H : _ ∈ [] |- _ => by apply elem_of_nil in H
         end;
  repeat first [apply list_elem_of_here | apply list_elem_of_further].

Lemma set_walk_codes (args_value : option string) (pieces : list string)
    (doc doc' : json) (ixarray ret : Z) :
  json_utf8 doc = true →
  set_walk args_value pieces doc ixarray = Some (ret, doc') →
  ret ∈ [ASTJSON_OK; ASTJSON_NOTFOUND; ASTJSON_INVALID_TYPE].
Proof using Type.
  intros Hutf8.
  destruct pieces as [|pathpiece thispath]; [intros [= <- <-]; code_in_list|].
  destruct (element_walk (pathpiece :: thispath) doc) as [node|] eqn:E.
  - rewrite (set_walk_found _ (pathpiece :: thispath) _ _ _ Hutf8 ltac:(done) E).
    destruct (set_newobject node args_value) as [[element|]|]; simpl;
      [intros [= <- <-]; code_in_list..|discriminate].
  - rewrite (set_walk_notfound _ _ _ _ E). intros [= <- <-]. code_in_list.
Qed.

Lemma add_element_codes (target : json) (args_name : option string)
    (newobject : option json) :
  (add_element target args_name newobject).1 ∈ [ASTJSON_OK; ASTJSON_ADD_FAILED].
Proof using Type.
  unfold add_element, ast_json_object_set.
  destruct target, args_name as [key|], newobject; simpl;
    try destruct (utf8_check_string key); simpl; code_in_list.
Qed.

Lemma add_walk_codes (args_name : option string) (newobject : option json)
    (pieces : list string) (doc : json) :
  (add_walk args_name newobject pieces doc).1
  ∈ [ASTJSON_OK; ASTJSON_NOTFOUND; ASTJSON_ADD_FAILED].
Proof using Type.
  destruct pieces as [|pathpiece thispath]; [simpl; code_in_list|].
  destruct (element_walk (pathpiece :: thispath) doc) as [target|] eqn:E.
  - rewrite (add_walk_found _ _ (pathpiece :: thispath) _ _ ltac:(done) E).
    pose proof (add_element_codes target args_name newobject) as H.
    destruct (add_element target args_name newobject) as [ret target']. simpl in *.
    code_in_list.
  - rewrite (add_walk_notfound _ _ _ _ E). simpl. code_in_list.
Qed.

Lemma delete_loop_codes (fuel : nat) (pathpiece : string) (thispath : list string)
    (thisobject doc' : json) (ixarray ret ret' : Z) :
  delete_loop fuel pathpiece thispath thisobject ixarray ret = Some (ret', doc') →
  ret' = ret ∨ ret' = ASTJSON_OK.
Proof.
  revert thispath thisobject doc' ixarray ret.
  induction fuel as [|fuel IH]; intros thispath thisobject doc' ixarray ret;
    [discriminate|].
  simpl. destruct (next_object thisobject pathpiece) as [nextobject|] eqn:E.
  - destruct thispath as [|token thispath].
    + destruct (delete_from_found _ _ _ ixarray ret E) as (thisobject' & -> & _).
      intros H%IH. destruct H; by right.
    + destruct (delete_loop fuel pathpiece thispath nextobject _ ret)
        as [[r d]|] eqn:Hloop; [|discriminate].
      simpl. intros [= <- <-]. by eapply IH.
  - intros [= <- <-]. by left.
Qed.

(** Every run of the three applications ends with one result code of a
    short list: never Undecided, never SetFailed from [jsonset], never
    DeleteFailed from [jsondelete]. *)
Theorem mutation_result_codes (ixarray : Z) (chan chan' : channel)
    (data : list string) :
  (jsonadd_exec chan data = Some chan' →
   ∃ ret, reports chan' ret
          ∧ ret ∈ [ASTJSON_OK; ASTJSON_ARG_NEEDED; ASTJSON_PARSE_ERROR;
                   ASTJSON_NOTFOUND; ASTJSON_ADD_FAILED])
  ∧ (jsonset_exec ixarray chan data = Some chan' →
     ∃ ret, reports chan' ret
            ∧ ret ∈ [ASTJSON_OK; ASTJSON_ARG_NEEDED; ASTJSON_PARSE_ERROR;
                     ASTJSON_NOTFOUND; ASTJSON_INVALID_TYPE])
  ∧ (jsondelete_exec ixarray chan data = Some chan' →
     ∃ ret, reports chan' ret
            ∧ ret ∈ [ASTJSON_OK; ASTJSON_ARG_NEEDED; ASTJSON_PARSE_ERROR;
                     ASTJSON_NOTFOUND]).
Proof using Type.
  split; [|split].
  - unfold jsonadd_exec, app_arg.
    destruct data as [|args_json data];
      [intros [= <-]; eexists; split; [apply reports_result|code_in_list]|].
    simpl lookup. cbv beta iota zeta.
    destruct args_json as [|c args_json];
      [intros [= <-]; eexists; split; [apply reports_result|code_in_list]|].
    destruct (data !! 1%nat) as [[|d args_type]|];
      try (intros [= <-]; eexists; split; [apply reports_result|code_in_list]).
    destruct (add_newobject _ _) as [newobject| |];
      [|intros [= <-]; eexists; split; [apply reports_result|code_in_list]|discriminate].
    unfold jsonadd_document, jsonadd_path.
    destruct (ast_strlen_zero (pbx_builtin_getvar_helper _ _)).
    + match goal with
      | |- context [add_element ?t ?a ?o] => pose proof (add_element_codes t a o) as Hc
      end.
      destruct (add_element _ _ _) as [ret doc]. simpl in Hc. intros [= <-].
      eexists. split; [apply reports_result|code_in_list].
    + destruct (ast_json_load_string _) as [doc|];
        [|intros [= <-]; eexists; split; [apply reports_result|code_in_list]].
      destruct (data !! 0%nat) as [path|]; [|discriminate].
      destruct (Nat.eqb _ _).
      * match goal with
        | |- context [add_element ?t ?a ?o] => pose proof (add_element_codes t a o) as Hc
        end.
        destruct (add_element _ _ _) as [ret doc']. simpl in Hc. intros [= <-].
        eexists. split; [apply reports_result|code_in_list].
      * match goal with
        | |- context [add_walk ?a ?o ?p ?d] => pose proof (add_walk_codes a o p d) as Hc
        end.
        destruct (add_walk _ _ _ _) as [ret doc']. simpl in Hc. intros [= <-].
        eexists. split; [apply reports_result|code_in_list].
  - unfold jsonset_exec, app_arg.
    destruct data as [|args_json data];
      [intros [= <-]; eexists; split; [apply reports_result|code_in_list]|].
    simpl lookup. cbv beta iota zeta.
    destruct args_json as [|c args_json];
      [intros [= <-]; eexists; split; [apply reports_result|code_in_list]|].
    destruct (pbx_builtin_getvar_helper _ _) as [source|]; [simpl|discriminate].
    destruct (Nat.eqb _ _);
      [intros [= <-]; eexists; split; [apply reports_result|code_in_list]|].
    destruct (json_loads source) as [doc|] eqn:Hload;
      [|intros [= <-]; eexists; split; [apply reports_result|code_in_list]].
    destruct (data !! 0%nat) as [path|]; [simpl|discriminate].
    destruct (Nat.eqb _ _);
      [intros [= <-]; eexists; split; [apply reports_result|code_in_list]|].
    destruct (set_walk _ _ _ _) as [[ret doc']|] eqn:Hwalk; [simpl|discriminate].
    apply set_walk_codes in Hwalk; [|by eapply json_loads_utf8]. intros [= <-].
    eexists. split; [apply reports_result|code_in_list].
  - unfold jsondelete_exec, app_arg.
    destruct data as [|args_json data];
      [intros [= <-]; eexists; split; [apply reports_result|code_in_list]|].
    simpl lookup. cbv beta iota zeta.
    destruct args_json as [|c args_json];
      [intros [= <-]; eexists; split; [apply reports_result|code_in_list]|].
    destruct (data !! 0%nat) as [[|d path]|];
      try (intros [= <-]; eexists; split; [apply reports_result|code_in_list]).
    destruct (pbx_builtin_getvar_helper _ _) as [source|]; [simpl|discriminate].
    destruct (Nat.eqb _ _);
      [intros [= <-]; eexists; split; [apply reports_result|code_in_list]|].
    destruct (json_loads source) as [doc|];
      [|intros [= <-]; eexists; split; [apply reports_result|code_in_list]].
    destruct (delete_walk _ _ _) as [[ret doc']|] eqn:Hwalk; [simpl|discriminate].
    intros [= <-]. eexists. split; [apply reports_result|].
    unfold delete_walk in Hwalk.
    destruct (strsep_all _ _) as [|pathpiece thispath].
    + injection Hwalk as <- <-. code_in_list.
    + apply delete_loop_codes in Hwalk as [->| ->]; code_in_list.
Qed.

(** ** More on jsonset *)

Lemma coerce_set_newobject (node : json) (value : string) :
  ast_json_typeof node ∈ [AST_JSON_TRUE; AST_JSON_FALSE; AST_JSON_STRING; AST_JSON_REAL] →
  set_newobject node (Some value) = Some (coerce node value).
Proof using Type.
  intros H.
  assert (ast_json_typeof node = AST_JSON_TRUE ∨ ast_json_typeof node = AST_JSON_FALSE
          ∨ ast_json_typeof node = AST_JSON_STRING
          ∨ ast_json_typeof node = AST_JSON_REAL) as Htype.
  { repeat (apply elem_of_cons in H as [H|H]; [auto 6|]). by apply elem_of_nil in H. }
  clear H. unfold set_newobject, json_boolean, coerce.
  destruct node; try (destruct Htype as [?|[?|[?|?]]]; discriminate);
    cbn [ast_json_typeof]; try reflexivity;
    by destruct (value_is_false (Some value)).
Qed.

Lemma coerce_type (node element : json) (value : string) :
  coerce node value = Some element → element_type element = element_type node.
Proof.
  unfold coerce. destruct node; try discriminate.
  - destruct (utf8_check_string _); [by intros [= <-]|discriminate].
  - destruct (is_finite _); [by intros [= <-]|discriminate].
  - intros [= <-]. by match goal with |- context [if ?b then _ else _] => destruct b end.
  - intros [= <-]. by match goal with |- context [if ?b then _ else _] => destruct b end.
Qed.

(** [jsonset] on a boolean, a string or a real keeps the type
    [jsonelement] reports and follows the table of coercions: a boolean
    becomes the truth value of the text, a string the text itself, a real
    [atof] of the text; the new document is stored and has the new element
    at the path. When the text is not valid UTF-8 for a string, or [atof]
    gives no finite number for a real, the run reports InvalidType and
    nothing changes. *)
Theorem jsonset_keeps_scalar_type (ixarray : Z) (chan : channel)
    (name path value : string) (doc node : json) :
  holds_document chan name doc →
  strip_path path ≠ "" →
  resolve doc path = Some node →
  ast_json_typeof node ∈ [AST_JSON_TRUE; AST_JSON_FALSE; AST_JSON_STRING; AST_JSON_REAL] →
  ∃ chan',
    jsonset_exec ixarray chan [name; path; value] = Some chan'
    ∧ match coerce node value with
      | Some element =>
          reports chan' ASTJSON_OK
          ∧ stores chan chan' name
              (ast_json_dump_string_format (write_at doc path element))
          ∧ resolve (write_at doc path element) path = Some element
          ∧ element_type element = element_type node
      | None =>
          reports chan' ASTJSON_INVALID_TYPE ∧ left_untouched chan chan'
      end.
Proof.
  intros Hdoc Hpath%strlen_zero Hnode Htype.
  unfold resolve, write_at in *. rewrite Hpath in *.
  rewrite (jsonset_exec_loaded _ _ _ _ _ _ Hdoc). cbv zeta. rewrite Hpath.
  rewrite (set_walk_found _ _ _ _ _ (holds_document_utf8 _ _ _ Hdoc)
               (strsep_all_nonempty _ _) Hnode).
  simpl lookup. rewrite (coerce_set_newobject _ _ Htype). simpl.
  destruct (coerce node value) as [element|] eqn:Hcoerce; simpl.
  - eexists. split; [reflexivity|]. split; [apply reports_result|].
    split; [apply stores_result|].
    split; [by eapply element_walk_write_path|by eapply coerce_type].
  - eexists. split; [reflexivity|].
    split; [apply reports_result|apply left_untouched_result].
Qed.

(** [jsonset] on an object parses the value as JSON text and puts what
    the parser returns, an array or an object, in the place of the object;
    when the value does not parse, the run reports InvalidType and nothing
    changes. *)
Theorem jsonset_object_replaced (ixarray : Z) (chan : channel)
    (name path value : string) (doc : json) (members : list (string * json)) :
  holds_document chan name doc →
  strip_path path ≠ "" →
  resolve doc path = Some (JObject members) →
  ∃ chan',
    jsonset_exec ixarray chan [name; path; value] = Some chan'
    ∧ match json_loads value with
      | Some element =>
          reports chan' ASTJSON_OK
          ∧ stores chan chan' name
              (ast_json_dump_string_format (write_at doc path element))
          ∧ resolve (write_at doc path element) path = Some element
      | None =>
          reports chan' ASTJSON_INVALID_TYPE ∧ left_untouched chan chan'
      end.
Proof.
  intros Hdoc Hpath%strlen_zero Hnode.
  unfold resolve, write_at in *. rewrite Hpath in *.
  rewrite (jsonset_exec_loaded _ _ _ _ _ _ Hdoc). cbv zeta. rewrite Hpath.
  rewrite (set_walk_found _ _ _ _ _ (holds_document_utf8 _ _ _ Hdoc)
               (strsep_all_nonempty _ _) Hnode).
  simpl. destruct (json_loads value) as [element|]; simpl.
  - eexists. split; [reflexivity|]. split; [apply reports_result|].
    split; [apply stores_result|by eapply element_walk_write_path].
  - eexists. split; [reflexivity|].
    split; [apply reports_result|apply left_untouched_result].
Qed.

(** ** What a change of the document leaves as it was *)

Lemma next_object_write_back_other (thisobject nextobject element : json)
    (pathpiece other : string) :
  next_object thisobject pathpiece = Some nextobject →
  classify pathpiece ≠ classify other →
  next_object (write_back thisobject pathpiece element) other
  = next_object thisobject other.
Proof.
  unfold next_object, write_back, classify.
  destruct (sscanf_3d pathpiece) as [index|], (sscanf_3d other) as [index'|].
  - intros (elements & -> & Hpos & Hget)%array_get_Some Hne. simpl.
    destruct (Z.ltb_spec index' 0); [done|].
    apply list_lookup_insert_ne. intros Heq. apply Hne. f_equal. lia.
  - by intros (elements & -> & Hpos & Hget)%array_get_Some _.
  - by intros (members & -> & Hget)%object_get_Some _.
  - intros (members & -> & Hget)%object_get_Some Hne. simpl.
    assert (pathpiece ≠ other) as Hkey by congruence.
    clear Hget Hne. induction members as [|[k v] members IH]; simpl.
    + by rewrite (proj2 (String.eqb_neq _ _) Hkey).
    + destruct (String.eqb_spec k pathpiece) as [->|Hk]; simpl.
      * by rewrite (proj2 (String.eqb_neq _ _) Hkey).
      * by rewrite IH.
Qed.

Lemma write_path_frame (common : list string) (pathpiece other : string)
    (rest rest' : list string) (doc element : json) :
  classify pathpiece ≠ classify other →
  element_walk (common ++ other :: rest')
    (write_path (common ++ pathpiece :: rest) doc element)
  = element_walk (common ++ other :: rest') doc.
Proof.
  intros Hne. revert doc.
  induction common as [|c common IH]; intros doc; simpl.
  - destruct (next_object doc pathpiece) as [nextobject|] eqn:E; [|done].
    by erewrite next_object_write_back_other.
  - destruct (next_object doc c) as [nextobject|] eqn:E; simpl; [|by rewrite E].
    erewrite next_object_write_back by exact E. apply IH.
Qed.

(** A run of [jsonset] that reports Ok has stored a document in which
    every path that leaves the path given at some segment, for another
    index or another key, leads where it led before. *)
Theorem jsonset_changes_only_addressed (ixarray : Z) (chan chan' : channel)
    (name path : string) (rest0 : list string) (doc : json) :
  holds_document chan name doc →
  jsonset_exec ixarray chan (name :: path :: rest0) = Some chan' →
  reports chan' ASTJSON_OK →
  ∃ doc',
    stores chan chan' name (ast_json_dump_string_format doc')
    ∧ ∀ (common : list string) (pathpiece other : string) (rest rest' : list string),
        strsep_all (strip_path path) "/" = (common ++ pathpiece :: rest)%list →
        classify pathpiece ≠ classify other →
        element_walk (common ++ other :: rest') doc'
        = element_walk (common ++ other :: rest') doc.
Proof.
  intros Hdoc Hrun Hok.
  rewrite (jsonset_exec_loaded _ _ _ _ _ _ Hdoc) in Hrun. cbv zeta in Hrun.
  destruct (Nat.eqb (strlen (strip_path path)) 0).
  { injection Hrun as <-. by pose proof (reports_inj _ _ _ Hok (reports_result _ _)). }
  destruct (element_walk (strsep_all (strip_path path) "/") doc) as [node|] eqn:E.
  - rewrite (set_walk_found _ _ _ _ _ (holds_document_utf8 _ _ _ Hdoc)
               (strsep_all_nonempty _ _) E) in Hrun.
    destruct (set_newobject node (rest0 !! 0%nat)) as [[element|]|];
      simpl in Hrun; [| |discriminate]; injection Hrun as <-.
    + exists (write_path (strsep_all (strip_path path) "/") doc element).
      split; [apply stores_result|].
      intros common pathpiece other rest rest' -> Hne. by apply write_path_frame.
    + by pose proof (reports_inj _ _ _ Hok (reports_result _ _)).
  - rewrite (set_walk_notfound _ _ _ _ E) in Hrun. simpl in Hrun.
    injection Hrun as <-. by pose proof (reports_inj _ _ _ Hok (reports_result _ _)).
Qed.

(** ** More on jsonadd *)

(** [jsonadd] on a path that addresses an array appends the new element:
    the array stored is one element longer, the elements it had are where
    they were, and the name given is not used. *)
Theorem jsonadd_appends_to_array (chan : channel) (name path tag : string)
    (rest : list string) (doc element : json) (elements : list json) :
  holds_document chan name doc → tag ≠ "" →
  add_newobject tag (rest !! 1%nat) = Element (Some element) →
  resolve doc path = Some (JArray elements) →
  ∃ chan',
    jsonadd_exec chan (name :: path :: tag :: rest) = Some chan'
    ∧ reports chan' ASTJSON_OK
    ∧ stores chan chan' name
        (ast_json_dump_string_format
           (write_at doc path (JArray (elements ++ [element]))))
    ∧ resolve (write_at doc path (JArray (elements ++ [element]))) path
      = Some (JArray (elements ++ [element]))
    ∧ length (elements ++ [element]) = S (length elements)
    ∧ ∀ (i : nat) (x : json),
        elements !! i = Some x → (elements ++ [element])%list !! i = Some x.
Proof.
  intros Hdoc Htag Hrequest Hresolve.
  rewrite (jsonadd_exec_request _ _ _ _ _ (proj1 Hdoc) Htag), Hrequest.
  rewrite (jsonadd_document_loaded _ _ _ _ _ _ Hdoc), jsonadd_path_resolved, Hresolve.
  simpl. eexists. split; [reflexivity|]. split; [apply reports_result|].
  split; [apply stores_result|]. split; [by eapply resolve_write_at|].
  split; [rewrite length_app; simpl; lia|].
  intros i x Hi. by apply lookup_app_l_Some.
Qed.

Lemma members_set_other (key other : string) (value : json)
    (members : list (string * json)) :
  other ≠ key → members_get other (members_set key value members) = members_get other members.
Proof.
  intros Hne. induction members as [|[k v] members IH]; simpl.
  - by rewrite (proj2 (String.eqb_neq _ _) (not_eq_sym Hne)).
  - destruct (String.eqb_spec k key) as [->|Hk]; simpl.
    + by rewrite (proj2 (String.eqb_neq _ _) (not_eq_sym Hne)).
    + by rewrite IH.
Qed.

(** [jsonadd] on a path that addresses an object, once the element to
    add is made, sets the member of the name given when the name is valid
    UTF-8: it is found under that name afterwards, and every other member
    is as it was. A name that is not valid UTF-8 is refused as a key: the
    run reports AddFailed and changes no variable but the result code. *)
Theorem jsonadd_sets_member (chan : channel) (name path tag key : string)
    (rest : list string) (doc element : json) (members : list (string * json)) :
  holds_document chan name doc → tag ≠ "" →
  add_newobject tag (rest !! 1%nat) = Element (Some element) →
  resolve doc path = Some (JObject members) →
  rest !! 0%nat = Some key →
  ∃ chan',
    jsonadd_exec chan (name :: path :: tag :: rest) = Some chan'
    ∧ if utf8_check_string key
      then
        reports chan' ASTJSON_OK
        ∧ stores chan chan' name
            (ast_json_dump_string_format
               (write_at doc path (JObject (members_set key element members))))
        ∧ resolve (write_at doc path (JObject (members_set key element members))) path
          = Some (JObject (members_set key element members))
        ∧ members_get key (members_set key element members) = Some element
        ∧ ∀ other, other ≠ key →
            members_get other (members_set key element members)
            = members_get other members
      else reports chan' ASTJSON_ADD_FAILED ∧ left_untouched chan chan'.
Proof.
  intros Hdoc Htag Hrequest Hresolve Hkey.
  rewrite (jsonadd_exec_request _ _ _ _ _ (proj1 Hdoc) Htag), Hrequest.
  rewrite (jsonadd_document_loaded _ _ _ _ _ _ Hdoc), jsonadd_path_resolved, Hresolve.
  rewrite Hkey. cbn [add_element ast_json_typeof ast_json_object_set].
  destruct (utf8_check_string key); simpl.
  - eexists. split; [reflexivity|]. split; [apply reports_result|].
    split; [apply stores_result|]. split; [by eapply resolve_write_at|].
    split; [apply members_get_set|].
    intros other Hne. by apply members_set_other.
  - eexists. split; [reflexivity|].
    split; [apply reports_result|apply left_untouched_result].
Qed.

(** [jsonadd] changes nothing but the result code when the path does not
    resolve (NotFound), when it addresses an element that is neither an
    array nor an object (AddFailed), when the constructor made no element
    (AddFailed), and when it addresses an object and no name is given
    (AddFailed). *)
Theorem jsonadd_refuses (chan : channel) (name path tag : string)
    (rest : list string) (doc : json) (newobject : option json) :
  holds_document chan name doc → tag ≠ "" →
  add_newobject tag (rest !! 1%nat) = Element newobject →
  ∃ chan',
    jsonadd_exec chan (name :: path :: tag :: rest) = Some chan'
    ∧ (resolve doc path = None →
       reports chan' ASTJSON_NOTFOUND ∧ left_untouched chan chan')
    ∧ (∀ target,
         resolve doc path = Some target →
         (ast_json_typeof target ≠ AST_JSON_ARRAY
          ∧ ast_json_typeof target ≠ AST_JSON_OBJECT)
         ∨ newobject = None
         ∨ (ast_json_typeof target = AST_JSON_OBJECT ∧ rest !! 0%nat = None) →
         reports chan' ASTJSON_ADD_FAILED ∧ left_untouched chan chan').
Proof.
  intros Hdoc Htag Hrequest.
  rewrite (jsonadd_exec_request _ _ _ _ _ (proj1 Hdoc) Htag), Hrequest.
  rewrite (jsonadd_document_loaded _ _ _ _ _ _ Hdoc), jsonadd_path_resolved.
  eexists. split; [reflexivity|]. split.
  - intros ->. split; [apply reports_result|apply left_untouched_result].
  - intros target -> Hcases.
    assert (add_element target (rest !! 0%nat) newobject = (ASTJSON_ADD_FAILED, target))
      as ->.
    { unfold add_element.
      destruct Hcases as [[Harray Hobject]|[->|[Hobject ->]]].
      - by destruct target.
      - destruct target; simpl; try done.
        destruct (rest !! 0%nat) as [key|]; simpl; [|done].
        by destruct (utf8_check_string key).
      - by destruct target. }
    simpl. split; [apply reports_result|apply left_untouched_result].
Qed.

(** [jsonadd] on a document variable that is not set, or is empty, once
    the element to add is made, makes a new document whatever the path: an
    array that holds the new element when no name is given, and otherwise
    an object with the one member of that name, when the name is valid
    UTF-8. A name that is not valid UTF-8 is refused as a key: the run
    reports AddFailed and changes no variable but the result code. *)
Theorem jsonadd_creates_root (chan : channel) (name path tag : string)
    (rest : list string) (element : json) :
  name ≠ "" → name ≠ "JSONRESULT" →
  ast_strlen_zero (chan !! name) = true →
  tag ≠ "" →
  add_newobject tag (rest !! 1%nat) = Element (Some element) →
  ∃ chan',
    jsonadd_exec chan (name :: path :: tag :: rest) = Some chan'
    ∧ match rest !! 0%nat with
      | Some (String c key) =>
          if utf8_check_string (String c key)
          then
            reports chan' ASTJSON_OK
            ∧ stores chan chan' name
                (ast_json_dump_string_format (JObject [(String c key, element)]))
          else reports chan' ASTJSON_ADD_FAILED ∧ left_untouched chan chan'
      | _ =>
          reports chan' ASTJSON_OK
          ∧ stores chan chan' name (ast_json_dump_string_format (JArray [element]))
      end.
Proof.
  intros Hname Hresult Hempty Htag Hrequest.
  rewrite (jsonadd_exec_request _ _ _ _ _ Hname Htag), Hrequest.
  unfold jsonadd_document, pbx_builtin_getvar_helper.
  unfold json_set_operation_result at 1. unfold pbx_builtin_setvar_helper at 1.
  rewrite lookup_insert_ne by done. rewrite Hempty.
  unfold jsonadd_path. simpl strlen. cbv iota beta.
  eexists. split; [reflexivity|].
  destruct (rest !! 0%nat) as [[|c key]|];
    cbn [ast_strlen_zero add_element ast_json_typeof ast_json_object_create
         ast_json_array_create ast_json_object_set ast_json_array_append
         members_set app];
    try destruct (utf8_check_string (String c key)); simpl;
    (split; [apply reports_result|first [apply stores_result|apply left_untouched_result]]).
Qed.

(** ** More on jsondelete *)

Lemma delete_loop_length (fuel : nat) (pathpiece : string)
    (thispath thispath' : list string) (thisobject : json) (ixarray ret : Z) :
  length thispath = length thispath' →
  delete_loop fuel pathpiece thispath thisobject ixarray ret
  = delete_loop fuel pathpiece thispath' thisobject ixarray ret.
Proof.
  revert thispath thispath' thisobject ixarray ret.
  induction fuel as [|fuel IH]; intros thispath thispath' thisobject ixarray ret Hlen;
    [done|].
  simpl. destruct (next_object thisobject pathpiece) as [nextobject|]; [|done].
  destruct thispath as [|t thispath], thispath' as [|t' thispath']; try done.
  simpl in Hlen. by rewrite (IH thispath thispath') by lia.
Qed.

(** [jsondelete] reads the text of the first segment only: two paths with
    the same first segment and as many segments do the same. *)
Theorem jsondelete_ignores_later_segments (ixarray : Z) (chan : channel)
    (name path path' pathpiece : string) (thispath thispath' : list string) :
  path ≠ "" → path' ≠ "" →
  strsep_all (strip_path path) "/" = pathpiece :: thispath →
  strsep_all (strip_path path') "/" = pathpiece :: thispath' →
  length thispath = length thispath' →
  jsondelete_exec ixarray chan [name; path] = jsondelete_exec ixarray chan [name; path'].
Proof.
  intros Hpath Hpath' Hpieces Hpieces' Hlen.
  destruct path as [|c path]; [done|]. destruct path' as [|c' path']; [done|].
  unfold jsondelete_exec, app_arg. simpl lookup. cbv beta iota zeta.
  rewrite Hpieces, Hpieces'. unfold delete_walk.
  destruct name as [|d name]; [done|].
  destruct (pbx_builtin_getvar_helper _ _) as [source|]; [simpl|done].
  destruct (Nat.eqb _ _); [done|].
  destruct (json_loads source) as [doc|]; [|done].
  by rewrite (delete_loop_length _ _ thispath thispath').
Qed.

(** [jsondelete] with one segment that is an index within a root array
    removes the element at that index and every element after it: the
    array stored is the elements before the index. *)
Theorem jsondelete_array_keeps_prefix (ixarray : Z) (chan : channel)
    (name path pathpiece : string) (index : Z) (elements : list json) :
  holds_document chan name (JArray elements) →
  path ≠ "" →
  strsep_all (strip_path path) "/" = [pathpiece] →
  sscanf_3d pathpiece = Some index → 0 <= index →
  (Z.to_nat index < length elements)%nat →
  ∃ chan',
    jsondelete_exec ixarray chan [name; path] = Some chan'
    ∧ reports chan' ASTJSON_OK
    ∧ stores chan chan' name
        (ast_json_dump_string_format (JArray (take (Z.to_nat index) elements))).
Proof.
  intros Hdoc Hpath Hpieces Hscan Hpos Hlt. destruct path as [|c path]; [done|].
  rewrite (jsondelete_exec_loaded _ _ _ _ _ _ _ Hdoc). cbv zeta. rewrite Hpieces.
  rewrite (delete_walk_array_tail _ _ _ _ Hscan Hpos Hlt). simpl.
  eexists. split; [reflexivity|]. split; [apply reports_result|apply stores_result].
Qed.

Lemma members_without_absent (key : string) (members : list (string * json)) :
  members_get key members = None → members_without key members = members.
Proof.
  unfold members_without. induction members as [|[k v] members IH]; simpl; [done|].
  destruct (String.eqb_spec k key) as [->|Hk]; [done|].
  intros H. rewrite filter_cons_True by done. by rewrite IH.
Qed.

Lemma members_del_without (key : string) (members members' : list (string * json)) :
  members_del key members = Some members' →
  members_without key members' = members_without key members
  ∧ S (length members') = length members.
Proof using Type.
  unfold members_without. revert members'.
  induction members as [|[k v] members IH]; intros members'; simpl; [done|].
  destruct (String.eqb_spec k key) as [->|Hk].
  - intros [= <-]. by rewrite filter_cons_False by (simpl; intros H; by apply H).
  - destruct (members_del key members) as [m|]; [|done]. intros [= <-].
    destruct (IH m eq_refl) as [Hfilter Hlen].
    rewrite !filter_cons_True by done. simpl. by rewrite Hfilter, Hlen.
Qed.

Lemma delete_loop_object (fuel : nat) (key : string) (members : list (string * json))
    (ixarray ret : Z) :
  sscanf_3d key = None → (length members < fuel)%nat →
  delete_loop fuel key [] (JObject members) ixarray ret
  = Some (match members_get key members with Some _ => ASTJSON_OK | None => ret end,
          JObject (members_without key members)).
Proof.
  intros Hscan. revert members ret.
  induction fuel as [|fuel IH]; intros members ret Hfuel; [lia|].
  simpl. unfold next_object, next_ixarray, delete_from. rewrite Hscan. simpl.
  destruct (members_get key members) as [value|] eqn:Hget.
  - destruct (members_get_del _ _ _ Hget) as [members' Hdel]. rewrite Hdel. simpl.
    destruct (members_del_without _ _ _ Hdel) as [Hfilter Hlen].
    rewrite IH by lia. rewrite Hfilter. by destruct (members_get key members').
  - by rewrite members_without_absent.
Qed.

Lemma json_size_object (members : list (string * json)) :
  (length members < json_size (JObject members))%nat.
Proof.
  simpl. induction members as [|[k v] l IH]; simpl; [lia|].
  pose proof (json_size_pos v). lia.
Qed.

Lemma members_without_get (key other : string) (members : list (string * json)) :
  members_get other (members_without key members)
  = if String.eqb other key then None else members_get other members.
Proof.
  unfold members_without. induction members as [|[k v] members IH]; simpl.
  - by destruct (String.eqb other key).
  - destruct (decide (k ≠ key)) as [Hk|Hk].
    + rewrite filter_cons_True by done. simpl. rewrite IH.
      destruct (String.eqb_spec k other) as [->|Hother]; [|done].
      by rewrite (proj2 (String.eqb_neq _ _) Hk).
    + rewrite filter_cons_False by done. rewrite IH.
      assert (k = key) as -> by (by destruct (decide (k = key))).
      destruct (String.eqb_spec other key) as [->|Hother]; [done|].
      by rewrite (proj2 (String.eqb_neq _ _) (not_eq_sym Hother)).
Qed.

(** [jsondelete] with one segment that is the key of a member of a root
    object removes that member and no other: the object stored has the
    other members, in their order, and the key is no longer found. *)
Theorem jsondelete_removes_member (ixarray : Z) (chan : channel)
    (name path key : string) (members : list (string * json)) (value : json) :
  holds_document chan name (JObject members) →
  path ≠ "" →
  strsep_all (strip_path path) "/" = [key] →
  sscanf_3d key = None →
  members_get key members = Some value →
  ∃ chan',
    jsondelete_exec ixarray chan [name; path] = Some chan'
    ∧ reports chan' ASTJSON_OK
    ∧ stores chan chan' name
        (ast_json_dump_string_format (JObject (members_without key members)))
    ∧ members_get key (members_without key members) = None
    ∧ ∀ other, other ≠ key →
        members_get other (members_without key members) = members_get other members.
Proof.
  intros Hdoc Hpath Hpieces Hscan Hget. destruct path as [|c path]; [done|].
  rewrite (jsondelete_exec_loaded _ _ _ _ _ _ _ Hdoc). cbv zeta. rewrite Hpieces.
  unfold delete_walk.
  rewrite (delete_loop_object _ _ _ _ _ Hscan (json_size_object members)), Hget.
  simpl. eexists. split; [reflexivity|]. split; [apply reports_result|].
  split; [apply stores_result|]. split.
  - by rewrite members_without_get, String.eqb_refl.
  - intros other Hne. by rewrite members_without_get, (proj2 (String.eqb_neq _ _) Hne).
Qed.

(** [jsondelete] returns for all arguments but these: a name and a path
    that are not empty, with the variable of that name not set, in which
    case [strlen] is called on [NULL]. In particular its loop always
    ends. *)
Theorem jsondelete_returns (ixarray : Z) (chan : channel) (data : list string) :
  jsondelete_exec ixarray chan data = None
  ↔ ∃ name path,
      data !! 0%nat = Some name ∧ name ≠ "" ∧ data !! 1%nat = Some path ∧ path ≠ ""
      ∧ name ≠ "JSONRESULT" ∧ chan !! name = None.
Proof.
  unfold jsondelete_exec, app_arg.
  destruct data as [|name data]; [split; [done|by intros (? & ? & ? & _)]|].
  simpl lookup. cbv beta iota zeta.
  destruct name as [|c name].
  { split; [done|]. by intros (? & ? & [= <-] & ? & _). }
  destruct (data !! 0%nat) as [[|d path]|] eqn:Hpath.
  - split; [done|]. by intros (? & ? & _ & _ & [= <-] & ? & _).
  - rewrite getvar_after_result.
    destruct (decide (String c name = "JSONRESULT")) as [Heq|Hne].
    + simpl. split; [|by intros (? & ? & [= <-] & _ & _ & _ & ? & _)].
      destruct (json_loads _) as [doc|]; [|done].
      destruct (delete_walk_total (strsep_all (strip_path (String d path)) "/") doc
                  ixarray) as [[ret doc'] ->]. done.
    + destruct (chan !! String c name) as [source|] eqn:Hget; simpl.
      * split; [|by intros (? & ? & [= <-] & _ & _ & _ & _ & ?); simplify_eq].
        destruct (Nat.eqb _ _); [done|].
        destruct (json_loads _) as [doc|]; [|done].
        destruct (delete_walk_total (strsep_all (strip_path (String d path)) "/") doc
                    ixarray) as [[ret doc'] ->]. done.
      * split; [|done]. intros _. by exists (String c name), (String d path).
  - split; [done|]. by intros (? & ? & _ & _ & [=] & _).
Qed.

(** ** Where jsonset does not return *)

Lemma set_newobject_None (node : json) (args_value : option string) :
  set_newobject node args_value = None
  ↔ (ast_json_typeof node = AST_JSON_REAL ∨ ast_json_typeof node = AST_JSON_INTEGER)
    ∧ args_value = None.
Proof.
  unfold set_newobject.
  destruct node, args_value as [value|]; simpl; split;
    try done; try (by intros [[?|?] ?]); try (intros _; split; [by left|done]);
    intros _; split; [by right|done].
Qed.

(** [jsonset] returns for all arguments but these: a name that is not
    empty with the variable of that name not set ([strlen] of [NULL]); a
    document that parses and no path argument (a [NULL] path is read); a
    path that addresses a number and no value argument ([atof] or [atoi] of
    [NULL]). *)
Theorem jsonset_returns (ixarray : Z) (chan : channel) (data : list string) :
  jsonset_exec ixarray chan data = None
  ↔ ∃ name,
      data !! 0%nat = Some name ∧ name ≠ ""
      ∧ match pbx_builtin_getvar_helper
                (json_set_operation_result chan ASTJSON_UNDECIDED) name with
        | None => True
        | Some source =>
            source ≠ ""
            ∧ ∃ doc,
                json_loads source = Some doc
                ∧ match data !! 1%nat with
                  | None => True
                  | Some path =>
                      strip_path path ≠ ""
                      ∧ ∃ node,
                          resolve doc path = Some node
                          ∧ (ast_json_typeof node = AST_JSON_REAL
                             ∨ ast_json_typeof node = AST_JSON_INTEGER)
                          ∧ data !! 2%nat = None
                  end
        end.
Proof.
  unfold jsonset_exec, app_arg.
  destruct data as [|name data]; [split; [done|by intros (? & ? & _)]|].
  simpl lookup. cbv beta iota zeta.
  destruct name as [|c name].
  { split; [done|]. by intros (? & [= <-] & ? & _). }
  destruct (pbx_builtin_getvar_helper _ (String c name)) as [source|] eqn:Hget; simpl.
  - destruct source as [|d source]; simpl.
    { split; [done|]. intros (? & [= <-] & _ & H). rewrite Hget in H. by destruct H. }
    destruct (json_loads (String d source)) as [doc|] eqn:Hload.
    + destruct (data !! 0%nat) as [path|] eqn:Hpath; simpl.
      * unfold resolve.
        destruct (Nat.eqb (strlen (strip_path path)) 0) eqn:Hstrip.
        { split; [done|]. intros (? & [= <-] & _ & H). rewrite Hget in H.
          destruct H as (_ & ? & _ & H & _). apply strlen_zero in H. congruence. }
        destruct (element_walk (strsep_all (strip_path path) "/") doc) as [node|] eqn:E.
        -- rewrite (set_walk_found _ _ _ _ _ (json_loads_utf8 _ _ Hload)
                      (strsep_all_nonempty _ _) E).
           destruct (set_newobject node (data !! 1%nat)) as [newobject|] eqn:Hnew;
             [destruct newobject as [element|]|]; simpl.
           1,2: split; [done|]; intros (? & [= <-] & _ & H); rewrite Hget in H;
             destruct H as (_ & doc0 & Hdoc0 & _ & node0 & Hnode0 & Htype & Hvalue);
             rewrite Hload in Hdoc0; injection Hdoc0 as <-;
             rewrite E in Hnode0; injection Hnode0 as <-;
             assert (set_newobject node (data !! 1%nat) = None) as Hnone
               by (by apply set_newobject_None);
             by rewrite Hnone in Hnew.
           ++ split; [|done]. intros _. exists (String c name).
              split; [done|]. split; [done|]. rewrite Hget. split; [done|].
              exists doc. split; [done|]. split; [by apply strlen_zero|].
              exists node. split; [done|].
              by apply set_newobject_None in Hnew.
        -- rewrite (set_walk_notfound _ _ _ _ E). simpl.
           split; [done|]. intros (? & [= <-] & _ & H). rewrite Hget in H.
           destruct H as (_ & doc0 & Hdoc0 & _ & node0 & Hnode0 & _).
           rewrite Hload in Hdoc0. injection Hdoc0 as <-.
           by rewrite E in Hnode0.
      * split; [|done]. intros _. exists (String c name).
        split; [done|]. split; [done|]. rewrite Hget. split; [done|]. by exists doc.
    + split; [done|]. intros (? & [= <-] & _ & H). rewrite Hget in H.
      destruct H as (_ & doc0 & Hdoc0 & _). by rewrite Hload in Hdoc0.
  - split; [|done]. intros _. exists (String c name). by rewrite Hget.
Qed.

(** ** More on jsonvariables *)

Lemma members_get_None (key : string) (members : list (string * json)) :
  members_get key members = None → key ∉ members.*1.
Proof.
  induction members as [|[k v] members IH]; simpl; [intros _; apply not_elem_of_nil|].
  destruct (String.eqb_spec k key) as [->|Hk]; [done|].
  intros H%IH. apply not_elem_of_cons. split; [done|done].
Qed.

Lemma members_get_elem_of (key : string) (value : json) (members : list (string * json)) :
  members_get key members = Some value → (key, value) ∈ members.
Proof.
  induction members as [|[k v] members IH]; simpl; [done|].
  destruct (String.eqb_spec k key) as [->|Hk].
  - intros [= ->]. apply list_elem_of_here.
  - intros H%IH. by apply list_elem_of_further.
Qed.

(** On an object [jsonvariables] reports Ok and sets, for every key, the
    variable of that name to the text of the member: 1 or 0 for a boolean,
    the empty text for null, the number or the string, [!array!] for an
    array, the serialisation for an object. No other variable changes but
    the result code. *)
Theorem jsonvariables_sets_members (chan : channel) (name : string)
    (rest : list string) (members : list (string * json)) :
  holds_document chan name (JObject members) →
  NoDup members.*1 →
  reports (jsonvariables_exec chan (name :: rest)) ASTJSON_OK
  ∧ ∀ variable,
      variable ≠ "JSONRESULT" →
      jsonvariables_exec chan (name :: rest) !! variable
      = match members_get variable members with
        | Some value => Some (variable_value value)
        | None => chan !! variable
        end.
Proof.
  intros Hdoc Hnodup. rewrite (jsonvariables_exec_loaded _ _ _ _ Hdoc).
  split; [apply reports_result|]. intros variable Hne.
  unfold json_set_operation_result at 1. unfold pbx_builtin_setvar_helper at 1.
  rewrite lookup_insert_ne by done.
  destruct (members_get variable members) as [value|] eqn:Hget.
  - apply set_variables_member; [done|by apply members_get_elem_of].
  - rewrite set_variables_other by (by apply members_get_None).
    unfold json_set_operation_result, pbx_builtin_setvar_helper.
    by rewrite lookup_insert_ne.
Qed.

(** ** A text that does not parse *)

(** On a document text that does not parse, [jsonset], [jsondelete] and
    [jsonadd] report ParseError and change nothing else, before they look
    at the path: [jsonset] does so even without a path argument. *)
Theorem unparsable_document_refused (ixarray : Z) (chan : channel)
    (name source : string) :
  name ≠ "" → name ≠ "JSONRESULT" →
  chan !! name = Some source → source ≠ "" → json_loads source = None →
  (∀ rest,
     jsonset_exec ixarray chan (name :: rest)
     = Some (json_set_operation_result
               (json_set_operation_result chan ASTJSON_UNDECIDED) ASTJSON_PARSE_ERROR))
  ∧ (∀ path rest,
       path ≠ "" →
       jsondelete_exec ixarray chan (name :: path :: rest)
       = Some (json_set_operation_result
                 (json_set_operation_result chan ASTJSON_UNDECIDED) ASTJSON_PARSE_ERROR))
  ∧ (∀ path tag rest newobject,
       tag ≠ "" → add_newobject tag (rest !! 1%nat) = Element newobject →
       jsonadd_exec chan (name :: path :: tag :: rest)
       = Some (json_set_operation_result
                 (json_set_operation_result chan ASTJSON_UNDECIDED) ASTJSON_PARSE_ERROR)).
Proof.
  intros Hname Hresult Hget Hsource Hload.
  assert (pbx_builtin_getvar_helper
            (json_set_operation_result chan ASTJSON_UNDECIDED) name = Some source)
    as Hget1.
  { rewrite getvar_after_result. by rewrite decide_False. }
  destruct source as [|d source]; [done|].
  split; [|split].
  - intros rest. destruct name as [|c name]; [done|].
    unfold jsonset_exec, app_arg. simpl lookup. cbv beta iota zeta.
    rewrite Hget1. simpl. by rewrite Hload.
  - intros [|e path] rest Hpath; [done|]. destruct name as [|c name]; [done|].
    unfold jsondelete_exec, app_arg. simpl lookup. cbv beta iota zeta.
    rewrite Hget1. simpl. by rewrite Hload.
  - intros path tag rest newobject Htag Hrequest.
    rewrite (jsonadd_exec_request _ _ _ _ _ Hname Htag), Hrequest.
    unfold jsonadd_document. rewrite Hget1. simpl. by rewrite Hload.
Qed.

(** ** Paths *)

Lemma chop_append_slash (path : string) :
  chop_trailing_slash (String.append path "/") = path.
Proof.
  induction path as [|c path IH]; [done|].
  change (String.append (String c path) "/") with (String c (String.append path "/")).
  destruct path as [|d path]; [done|].
  change (chop_trailing_slash (String c (String.append (String d path) "/")))
    with (String c (chop_trailing_slash (String.append (String d path) "/"))).
  by rewrite IH.
Qed.

Lemma with_slashes_strip (path path' : string) :
  bare_path path → path' ∈ with_slashes path →
  strip_path path' = path ∧ path' ≠ "".
Proof.
  intros [Hfirst Hlast] Hin. destruct path as [|c path]; [done|].
  assert (Ascii.eqb c "/" = false) as Hc by (by apply Ascii.eqb_neq).
  unfold with_slashes in Hin.
  repeat (apply elem_of_cons in Hin as [->|Hin]); [..|by apply elem_of_nil in Hin].
  - split; [|done]. unfold strip_path. by rewrite Hc.
  - split; [|done]. done.
  - split; [|done]. unfold strip_path.
    change (String.append (String c path) "/") with (String c (String.append path "/")).
    cbv iota. rewrite Hc. apply (chop_append_slash (String c path)).
  - split; [|done]. unfold strip_path. simpl Ascii.eqb. cbv iota.
    apply chop_append_slash.
Qed.

(** One slash before the path and one after it are optional: the four
    spellings of a path that has neither do the same in all four
    operations. *)
Theorem path_slashes_optional (ixarray : Z) (chan : channel) (name path path' : string)
    (rest : list string) (buflen : nat) :
  bare_path path → path' ∈ with_slashes path →
  jsonelement_exec chan (name :: path' :: rest) buflen
  = jsonelement_exec chan (name :: path :: rest) buflen
  ∧ jsonadd_exec chan (name :: path' :: rest) = jsonadd_exec chan (name :: path :: rest)
  ∧ jsonset_exec ixarray chan (name :: path' :: rest)
    = jsonset_exec ixarray chan (name :: path :: rest)
  ∧ jsondelete_exec ixarray chan (name :: path' :: rest)
    = jsondelete_exec ixarray chan (name :: path :: rest).
Proof.
  intros Hbare Hin.
  destruct (with_slashes_strip _ _ Hbare Hin) as [Hstrip' Hne'].
  destruct (with_slashes_strip path path Hbare ltac:(apply list_elem_of_here))
    as [Hstrip Hne].
  assert (jsonadd_exec chan (name :: path' :: rest)
          = jsonadd_exec chan (name :: path :: rest)) as Hadd.
  { unfold jsonadd_exec, jsonadd_document, app_arg.
    simpl lookup. cbv beta iota zeta. by rewrite Hstrip', Hstrip. }
  assert (jsonset_exec ixarray chan (name :: path' :: rest)
          = jsonset_exec ixarray chan (name :: path :: rest)) as Hset.
  { unfold jsonset_exec, app_arg. simpl lookup. cbv beta iota zeta.
    destruct name as [|d name]; [done|].
    destruct (pbx_builtin_getvar_helper _ _) as [source|]; [simpl|done].
    by rewrite Hstrip', Hstrip. }
  destruct path as [|c path]; [done|]. destruct path' as [|c' path']; [done|].
  split; [|split; [done|split; [done|]]].
  - unfold jsonelement_exec, app_arg.
    simpl lookup. cbv beta iota zeta. by rewrite Hstrip', Hstrip.
  - unfold jsondelete_exec, app_arg.
    simpl lookup. cbv beta iota zeta. by rewrite Hstrip', Hstrip.
Qed.

Lemma concat_cons_cons (sep x y : string) (ys : list string) :
  String.concat sep (x :: y :: ys)
  = String.append x (String.append sep (String.concat sep (y :: ys))).
Proof. reflexivity. Qed.

(** The tokens of [strsep] lose nothing of the path: joined with the
    delimiter they give the path back, and none of them holds the
    delimiter. *)
Theorem strsep_all_concat (s : string) (delim : ascii) :
  String.concat (String delim EmptyString) (strsep_all s delim) = s
  ∧ Forall (λ token, delim ∉ list_ascii_of_string token) (strsep_all s delim).
Proof.
  induction s as [|c s [IHconcat IHtokens]].
  - split; [done|]. repeat constructor. apply not_elem_of_nil.
  - cbn [strsep_all]. pose proof (strsep_all_nonempty s delim) as Hne.
    destruct (strsep_all s delim) as [|token tokens]; [done|].
    apply Forall_cons in IHtokens as Htokens. destruct Htokens as [Htoken Htokens].
    destruct (Ascii.eqb_spec c delim) as [->|Hc].
    + split.
      * rewrite concat_cons_cons, IHconcat. reflexivity.
      * constructor; [apply not_elem_of_nil|done].
    + split.
      * destruct tokens as [|token' tokens].
        -- simpl in *. by rewrite IHconcat.
        -- rewrite concat_cons_cons in *.
           change (String.append (String c token) ?x) with (String c (String.append token x)).
           by rewrite IHconcat.
      * constructor; [|done]. simpl. apply not_elem_of_cons. split; [congruence|done].
Qed.

Lemma digit_value_range (c : ascii) : isdigit c = true → 0 <= digit_value c <= 9.
Proof. intros H%isdigit_bounds. unfold digit_value. lia. Qed.

Lemma scan_digits_bound (width : nat) (s : string) (acc value : Z) :
  0 <= acc → scan_digits width s (Some acc) = Some value →
  0 <= value < (acc + 1) * 10 ^ Z.of_nat width.
Proof.
  revert s acc. induction width as [|width IH]; intros s acc Hacc.
  - destruct s; simpl; intros [= <-]; lia.
  - rewrite Nat2Z.inj_succ, Z.pow_succ_r by lia.
    assert (0 < 10 ^ Z.of_nat width) by (apply Z.pow_pos_nonneg; lia).
    destruct s as [|c s]; simpl; [intros [= <-]; nia|].
    destruct (isdigit c) eqn:Hc; [|intros [= <-]; nia].
    pose proof (digit_value_range c Hc).
    intros Hscan%IH; [|lia]. nia.
Qed.

Lemma scan_digits_first (width : nat) (s : string) (value : Z) :
  scan_digits width s None = Some value → 0 <= value < 10 ^ Z.of_nat width.
Proof.
  destruct width as [|width], s as [|c s]; simpl; try done.
  destruct (isdigit c) eqn:Hc; [|done].
  pose proof (digit_value_range c Hc).
  intros Hscan%scan_digits_bound; [|lia].
  rewrite Nat2Z.inj_succ, Z.pow_succ_r by lia.
  assert (0 < 10 ^ Z.of_nat width) by (apply Z.pow_pos_nonneg; lia). nia.
Qed.

Lemma sscanf_3d_range (s : string) (value : Z) :
  sscanf_3d s = Some value → -99 <= value <= 999.
Proof.
  unfold sscanf_3d, scan_int. destruct (skip_space s) as [|c s']; [done|].
  destruct (Ascii.eqb c "-").
  - destruct (scan_digits (3 - 1) s' None) as [v|] eqn:Hscan; [|done].
    apply scan_digits_first in Hscan. simpl. intros [= <-]. simpl in Hscan. lia.
  - destruct (Ascii.eqb c "+").
    + intros Hscan%scan_digits_first. simpl in Hscan. lia.
    + intros Hscan%scan_digits_first. simpl in Hscan. lia.
Qed.

(** A segment reaches the elements of an array at the positions 0 to 999
    only: what it finds in an array is at the position converted, which is
    below 1000, and an element further on is found by no segment. *)
Theorem array_index_range (elements : list json) (pathpiece : string) (x : json) :
  next_object (JArray elements) pathpiece = Some x →
  ∃ i : nat,
    (i < 1000)%nat ∧ sscanf_3d pathpiece = Some (Z.of_nat i) ∧ elements !! i = Some x.
Proof.
  unfold next_object. destruct (sscanf_3d pathpiece) as [index|] eqn:Hscan; [|done].
  intros (l & [= <-] & Hpos & Hget)%array_get_Some.
  apply sscanf_3d_range in Hscan as Hrange.
  exists (Z.to_nat index). split; [lia|]. split; [|done]. f_equal. lia.
Qed.

Lemma element_walk_app (pieces pieces' : list string) (doc : json) :
  element_walk (pieces ++ pieces') doc = element_walk pieces doc ≫= element_walk pieces'.
Proof.
  revert doc. induction pieces as [|p pieces IH]; intros doc; simpl; [done|].
  destruct (next_object doc p); simpl; [apply IH|done].
Qed.

(** A member of an object whose key begins as a number (white space, a
    sign, a digit) is found by no path: the segment is taken for an index,
    and [jsonelement], [jsonadd] and [jsonset] end the walk with NotFound. *)
Theorem numeric_key_unreachable (common rest : list string) (key : string)
    (doc : json) (members : list (string * json)) :
  element_walk common doc = Some (JObject members) →
  is_Some (sscanf_3d key) →
  element_walk (common ++ key :: rest) doc = None
  ∧ (∀ args_name newobject,
       add_walk args_name newobject (common ++ key :: rest) doc = (ASTJSON_NOTFOUND, doc))
  ∧ (∀ args_value ixarray,
       set_walk args_value (common ++ key :: rest) doc ixarray
       = Some (ASTJSON_NOTFOUND, doc)).
Proof.
  intros Hwalk [index Hscan].
  assert (element_walk (common ++ key :: rest) doc = None) as Hnone.
  { rewrite element_walk_app, Hwalk. simpl. unfold next_object. by rewrite Hscan. }
  split; [done|]. split.
  - intros. by apply add_walk_notfound.
  - intros. by apply set_walk_notfound.
Qed.


(** ** One operation after another *)

Lemma stores_holds_text (chan chan' : channel) (name text : string) (doc doc' : json) :
  holds_document chan name doc → stores chan chan' name text →
  json_loads text = Some doc' → holds_text chan' name text doc'.
Proof.
  intros (Hname & Hresult & _) Hstores Hload.
  split; [done|]. split; [done|]. split; [by eapply stores_lookup|done].
Qed.

Lemma stores_holds_document (chan chan' : channel) (name text : string)
    (doc doc' : json) :
  holds_document chan name doc → stores chan chan' name text →
  text ≠ "" → json_loads text = Some doc' → holds_document chan' name doc'.
Proof.
  intros (Hname & Hresult & _) Hstores Htext Hload.
  split; [done|]. split; [done|]. exists text. split; [by eapply stores_lookup|done].
Qed.

Lemma stores_twice (chan chan' chan'' : channel) (name text text' : string) :
  stores chan chan' name text → stores chan' chan'' name text' →
  stores chan chan'' name text'.
Proof.
  intros H H' variable Hne. rewrite (H' variable Hne).
  destruct (decide (name = variable)) as [->|Hname].
  - by rewrite !lookup_insert_eq.
  - rewrite !(lookup_insert_ne _ name) by done. rewrite (H variable Hne).
    by rewrite lookup_insert_ne.
Qed.

Lemma jsonelement_exec_text (chan : channel) (name source path : string)
    (rest : list string) (buflen : nat) (doc : json) :
  holds_text chan name source doc → path ≠ "" →
  jsonelement_exec chan (name :: path :: rest) buflen =
  let chan1 := json_set_operation_result chan ASTJSON_UNDECIDED in
  match element_walk (strsep_all (strip_path path) "/") doc with
  | None => (json_set_operation_result chan1 ASTJSON_NOTFOUND, EmptyString)
  | Some thisobject =>
      (json_set_operation_result
         (pbx_builtin_setvar_helper chan1 "JSONTYPE" (element_type thisobject))
         ASTJSON_OK,
       ast_copy_string (element_value thisobject) buflen)
  end.
Proof.
  intros Htext Hpath.
  destruct (holds_text_getvar _ _ _ _ ASTJSON_UNDECIDED Htext) as (c & name' & -> & Hget).
  destruct Htext as (_ & _ & _ & Hload).
  destruct path as [|d path]; [done|].
  unfold jsonelement_exec, app_arg. simpl lookup. cbv beta iota zeta.
  rewrite Hget. simpl. by rewrite Hload.
Qed.

Lemma jsonelement_exec_found (chan : channel) (name source path : string)
    (rest : list string) (buflen : nat) (doc thisobject : json) :
  holds_text chan name source doc → path ≠ "" →
  element_walk (strsep_all (strip_path path) "/") doc = Some thisobject →
  ∃ chan',
    jsonelement_exec chan (name :: path :: rest) buflen
    = (chan', ast_copy_string (element_value thisobject) buflen)
    ∧ reports chan' ASTJSON_OK
    ∧ chan' !! "JSONTYPE" = Some (element_type thisobject).
Proof.
  intros Htext Hpath Hwalk.
  rewrite (jsonelement_exec_text _ _ _ _ _ _ _ Htext Hpath). cbv zeta. rewrite Hwalk.
  eexists. split; [reflexivity|]. split; [apply reports_result|].
  unfold json_set_operation_result, pbx_builtin_setvar_helper.
  rewrite lookup_insert_ne by done. apply lookup_insert_eq.
Qed.

Lemma jsonelement_exec_notfound (chan : channel) (name source path : string)
    (rest : list string) (buflen : nat) (doc : json) :
  holds_text chan name source doc → path ≠ "" →
  element_walk (strsep_all (strip_path path) "/") doc = None →
  ∃ chan',
    jsonelement_exec chan (name :: path :: rest) buflen = (chan', "")
    ∧ reports chan' ASTJSON_NOTFOUND.
Proof.
  intros Htext Hpath Hwalk.
  rewrite (jsonelement_exec_text _ _ _ _ _ _ _ Htext Hpath). cbv zeta. rewrite Hwalk.
  eexists. split; [reflexivity|apply reports_result].
Qed.

Lemma strip_path_nonempty (path : string) : strip_path path ≠ "" → path ≠ "".
Proof. by intros H ->. Qed.

Lemma resolve_segments_walk (doc : json) (path : string) :
  resolve doc path = element_walk (segments path) doc.
Proof. unfold resolve, segments. by destruct (Nat.eqb _ _). Qed.

(** [jsonelement] after [jsonset]. When [jsonset] puts an element in the
    place of the one the path addresses, and the parser reads the stored
    text back as the document serialised, [jsonelement] with the same path
    reports Ok and returns the text and the type of the new element. *)
Theorem jsonset_then_jsonelement (ixarray : Z) (chan : channel)
    (name path : string) (rest : list string) (doc node element : json) :
  holds_document chan name doc →
  strip_path path ≠ "" →
  resolve doc path = Some node →
  set_newobject node (rest !! 0%nat) = Some (Some element) →
  json_loads (ast_json_dump_string_format (write_at doc path element))
  = Some (write_at doc path element) →
  ∃ chan',
    jsonset_exec ixarray chan (name :: path :: rest) = Some chan'
    ∧ reports chan' ASTJSON_OK
    ∧ ∀ (rest' : list string) (buflen : nat),
      ∃ chan'',
        jsonelement_exec chan' (name :: path :: rest') buflen
        = (chan'', ast_copy_string (element_value element) buflen)
        ∧ reports chan'' ASTJSON_OK
        ∧ chan'' !! "JSONTYPE" = Some (element_type element).
Proof.
  intros Hdoc Hstrip Hnode Hnew Hload.
  assert (jsonset_exec ixarray chan (name :: path :: rest)
          = Some (json_set_operation_result
                    (pbx_builtin_setvar_helper
                       (json_set_operation_result chan ASTJSON_UNDECIDED) name
                       (ast_json_dump_string_format (write_at doc path element)))
                    ASTJSON_OK)) as Hrun.
  { rewrite (jsonset_exec_loaded _ _ _ _ _ _ Hdoc). cbv zeta.
    unfold resolve, write_at in *. apply strlen_zero in Hstrip. rewrite Hstrip in *.
    rewrite (set_walk_found _ _ _ _ _ (holds_document_utf8 _ _ _ Hdoc)
               (strsep_all_nonempty _ _) Hnode).
    by rewrite Hnew. }
  eexists. split; [exact Hrun|]. split; [apply reports_result|].
  intros rest' buflen.
  eapply jsonelement_exec_found; [|by apply strip_path_nonempty|].
  - eapply stores_holds_text; [exact Hdoc|apply stores_result|exact Hload].
  - pose proof (resolve_write_at _ _ element _ Hnode) as Hfound.
    unfold resolve in Hfound. apply strlen_zero in Hstrip. by rewrite Hstrip in Hfound.
Qed.

Lemma resolve_utf8 (doc node : json) (path : string) :
  json_utf8 doc = true → resolve doc path = Some node → json_utf8 node = true.
Proof.
  intros Hutf8. unfold resolve. destruct (Nat.eqb _ _); [by intros [= <-]|].
  by apply element_walk_utf8.
Qed.

(** A document the parser returned holds valid UTF-8 only: the key of a
    member written into it is valid UTF-8. *)
Lemma written_key_utf8 (doc node element : json) (path key source : string)
    (members : list (string * json)) :
  resolve doc path = Some node →
  json_loads source = Some (write_at doc path (JObject (members_set key element members))) →
  utf8_check_string key = true.
Proof.
  intros Hresolve Hutf8%json_loads_utf8.
  pose proof (resolve_write_at _ _ (JObject (members_set key element members)) _ Hresolve)
    as Hwritten.
  pose proof (resolve_utf8 _ _ _ Hutf8 Hwritten) as Hobject.
  exact (proj1 (members_get_utf8 _ _ _ Hobject (members_get_set key element members))).
Qed.

(** [jsonelement] after [jsonadd]. Once [jsonadd] has set the member of
    an object, and the parser reads the stored text back as the document
    serialised, [jsonelement] finds the new element one segment further
    than the path of the object, under the name given, provided the name
    does not convert as an index. *)
Theorem jsonadd_then_jsonelement (chan : channel) (name path path' tag key : string)
    (rest : list string) (doc element : json) (members : list (string * json)) :
  holds_document chan name doc → tag ≠ "" →
  add_newobject tag (rest !! 1%nat) = Element (Some element) →
  resolve doc path = Some (JObject members) →
  rest !! 0%nat = Some key →
  sscanf_3d key = None →
  path' ≠ "" →
  strsep_all (strip_path path') "/" = (segments path ++ [key])%list →
  json_loads (ast_json_dump_string_format
                (write_at doc path (JObject (members_set key element members))))
  = Some (write_at doc path (JObject (members_set key element members))) →
  ∃ chan',
    jsonadd_exec chan (name :: path :: tag :: rest) = Some chan'
    ∧ reports chan' ASTJSON_OK
    ∧ ∀ (rest' : list string) (buflen : nat),
      ∃ chan'',
        jsonelement_exec chan' (name :: path' :: rest') buflen
        = (chan'', ast_copy_string (element_value element) buflen)
        ∧ reports chan'' ASTJSON_OK
        ∧ chan'' !! "JSONTYPE" = Some (element_type element).
Proof.
  intros Hdoc Htag Hrequest Hresolve Hkey Hscan Hpath' Hpieces Hload.
  assert (jsonadd_exec chan (name :: path :: tag :: rest)
          = Some (json_set_operation_result
                    (pbx_builtin_setvar_helper
                       (json_set_operation_result chan ASTJSON_UNDECIDED) name
                       (ast_json_dump_string_format
                          (write_at doc path (JObject (members_set key element members)))))
                    ASTJSON_OK)) as Hrun.
  { rewrite (jsonadd_exec_request _ _ _ _ _ (proj1 Hdoc) Htag), Hrequest.
    rewrite (jsonadd_document_loaded _ _ _ _ _ _ Hdoc), jsonadd_path_resolved, Hresolve.
    rewrite Hkey. cbn [add_element ast_json_typeof ast_json_object_set].
    by rewrite (written_key_utf8 _ _ _ _ _ _ _ Hresolve Hload). }
  eexists. split; [exact Hrun|]. split; [apply reports_result|].
  intros rest' buflen.
  eapply jsonelement_exec_found; [|done|].
  - eapply stores_holds_text; [exact Hdoc|apply stores_result|exact Hload].
  - rewrite Hpieces, element_walk_app, <- resolve_segments_walk.
    rewrite (resolve_write_at _ _ _ _ Hresolve). simpl.
    unfold next_object. rewrite Hscan. simpl. by rewrite members_get_set.
Qed.

Lemma delete_loop_gone (fuel : nat) (pathpiece : string) (thisobject doc' : json)
    (ixarray ret ret' : Z) :
  delete_loop fuel pathpiece [] thisobject ixarray ret = Some (ret', doc') →
  next_object doc' pathpiece = None.
Proof.
  revert thisobject ixarray ret.
  induction fuel as [|fuel IH]; intros thisobject ixarray ret; [done|].
  simpl. destruct (next_object thisobject pathpiece) as [nextobject|] eqn:E.
  - destruct (delete_from thisobject _ pathpiece ret) as [r thisobject']. apply IH.
  - by intros [= _ <-].
Qed.

(** [jsonelement] after [jsondelete]. With a path of one segment, the
    loop of [jsondelete] leaves a document in which the segment finds
    nothing: when the run reports Ok and the parser reads the stored text
    back as the document serialised, [jsonelement] with the same path
    reports NotFound and returns nothing. *)
Theorem jsondelete_then_jsonelement (ixarray : Z) (chan : channel)
    (name path pathpiece : string) (doc doc' : json) :
  holds_document chan name doc →
  path ≠ "" →
  strsep_all (strip_path path) "/" = [pathpiece] →
  delete_walk [pathpiece] doc ixarray = Some (ASTJSON_OK, doc') →
  json_loads (ast_json_dump_string_format doc') = Some doc' →
  ∃ chan',
    jsondelete_exec ixarray chan [name; path] = Some chan'
    ∧ reports chan' ASTJSON_OK
    ∧ stores chan chan' name (ast_json_dump_string_format doc')
    ∧ ∀ (rest : list string) (buflen : nat),
      ∃ chan'',
        jsonelement_exec chan' (name :: path :: rest) buflen = (chan'', "")
        ∧ reports chan'' ASTJSON_NOTFOUND.
Proof.
  intros Hdoc Hpath Hpieces Hwalk Hload.
  assert (jsondelete_exec ixarray chan [name; path]
          = Some (json_set_operation_result
                    (pbx_builtin_setvar_helper
                       (json_set_operation_result chan ASTJSON_UNDECIDED) name
                       (ast_json_dump_string_format doc'))
                    ASTJSON_OK)) as Hrun.
  { destruct path as [|c path]; [done|].
    rewrite (jsondelete_exec_loaded _ _ _ _ _ _ _ Hdoc). cbv zeta.
    by rewrite Hpieces, Hwalk. }
  eexists. split; [exact Hrun|]. split; [apply reports_result|].
  split; [apply stores_result|].
  intros rest buflen.
  eapply jsonelement_exec_notfound; [|done|].
  - eapply stores_holds_text; [exact Hdoc|apply stores_result|exact Hload].
  - rewrite Hpieces. simpl. by rewrite (delete_loop_gone _ _ _ _ _ _ _ Hwalk).
Qed.

Lemma members_without_set (key : string) (element : json)
    (members : list (string * json)) :
  members_get key members = None →
  members_without key (members_set key element members) = members.
Proof.
  unfold members_without. induction members as [|[k v] members IH]; simpl.
  - intros _. by rewrite filter_cons_False by (simpl; intros H; by apply H).
  - destruct (String.eqb_spec k key) as [->|Hk]; [done|].
    intros H. rewrite filter_cons_True by done. by rewrite IH.
Qed.

(** [jsondelete] after [jsonadd] gives the document back. Once [jsonadd]
    has given the root object a member under a new name, and the parser
    reads the stored text back as the document serialised, [jsondelete] of
    that name reports Ok and stores the serialisation of the object as it
    was before the two runs. *)
Theorem jsonadd_then_jsondelete (ixarray : Z) (chan : channel)
    (name path path' tag key : string) (rest : list string) (element : json)
    (members : list (string * json)) :
  holds_document chan name (JObject members) → tag ≠ "" →
  add_newobject tag (rest !! 1%nat) = Element (Some element) →
  strip_path path = "" →
  rest !! 0%nat = Some key →
  sscanf_3d key = None →
  members_get key members = None →
  path' ≠ "" →
  strsep_all (strip_path path') "/" = [key] →
  ast_json_dump_string_format (JObject (members_set key element members)) ≠ "" →
  json_loads (ast_json_dump_string_format (JObject (members_set key element members)))
  = Some (JObject (members_set key element members)) →
  ∃ chan' chan'',
    jsonadd_exec chan (name :: path :: tag :: rest) = Some chan'
    ∧ reports chan' ASTJSON_OK
    ∧ jsondelete_exec ixarray chan' [name; path'] = Some chan''
    ∧ reports chan'' ASTJSON_OK
    ∧ stores chan chan'' name (ast_json_dump_string_format (JObject members)).
Proof.
  intros Hdoc Htag Hrequest Hroot Hkey Hscan Hnew Hpath' Hpieces Htext Hload.
  assert (resolve (JObject members) path = Some (JObject members)) as Hresolve.
  { unfold resolve. by rewrite Hroot. }
  assert (∀ element', write_at (JObject members) path element' = element') as Hwrite.
  { intros element'. unfold write_at. by rewrite Hroot. }
  assert (jsonadd_exec chan (name :: path :: tag :: rest)
          = Some (json_set_operation_result
                    (pbx_builtin_setvar_helper
                       (json_set_operation_result chan ASTJSON_UNDECIDED) name
                       (ast_json_dump_string_format
                          (JObject (members_set key element members))))
                    ASTJSON_OK)) as Hrun.
  { assert (utf8_check_string key = true) as Hutf8.
    { pose proof (json_loads_utf8 _ _ Hload) as Hobject.
      exact (proj1 (members_get_utf8 _ _ _ Hobject (members_get_set key element members))). }
    rewrite (jsonadd_exec_request _ _ _ _ _ (proj1 Hdoc) Htag), Hrequest.
    rewrite (jsonadd_document_loaded _ _ _ _ _ _ Hdoc), jsonadd_path_resolved, Hresolve.
    rewrite Hkey. cbn [add_element ast_json_typeof ast_json_object_set].
    rewrite Hutf8. simpl. by rewrite Hwrite. }
  eexists. eexists. split; [exact Hrun|]. split; [apply reports_result|].
  pose proof (stores_holds_document _ _ _ _ _ _ Hdoc
                (stores_result chan name _ ASTJSON_UNDECIDED ASTJSON_OK) Htext Hload)
    as Hdoc'.
  destruct path' as [|c path']; [done|].
  rewrite (jsondelete_exec_loaded _ _ _ _ _ _ _ Hdoc'). cbv zeta.
  rewrite Hpieces. unfold delete_walk.
  rewrite (delete_loop_object _ _ _ _ _ Hscan (json_size_object _)), members_get_set.
  rewrite (members_without_set _ _ _ Hnew). simpl.
  split; [reflexivity|]. split; [apply reports_result|].
  eapply stores_twice; apply stores_result.
Qed.

End ResJson.

(** ** The theorems at work on the sample documents *)

(** The sample texts have an array or an object at the root and hold
    valid UTF-8 only: [json_loads] returns what they denote. *)
Lemma sample_loads_accepted (source : string) :
  json_loads sample_loads source = sample_loads source.
Proof.
  unfold json_loads, sample_loads.
  repeat (destruct (String.eqb source _); [reflexivity|]). reflexivity.
Qed.

Lemma sample_holds (name source : string) (doc : json) :
  name ≠ "" → name ≠ "JSONRESULT" → source ≠ "" → sample_loads source = Some doc →
  holds_document sample_loads {[name := source]} name doc.
Proof.
  intros Hname Hresult Hsource Hload. split; [done|]. split; [done|].
  exists source. split; [apply lookup_singleton_eq|].
  by rewrite sample_loads_accepted.
Qed.

Lemma jsonset_integer_becomes_string_witness :
  (∃ chan',
     jsonset_exec sample_atof sample_loads sample_dump 0 {["doc" := text_a1]}
       ["doc"; "/a"; "abc"] = Some chan'
     ∧ reports chan' ASTJSON_OK
     ∧ stores {["doc" := text_a1]} chan' "doc" text_a_abc)
  ∧ (∃ chan',
       jsonset_exec sample_atof sample_loads sample_dump 0 {["doc" := text_a1]}
         ["doc"; "/a"; text_ff] = Some chan'
       ∧ reports chan' ASTJSON_INVALID_TYPE
       ∧ left_untouched {["doc" := text_a1]} chan').
Proof.
  split.
  - destruct (jsonset_integer_becomes_string sample_atof sample_loads sample_dump 0
                {["doc" := text_a1]} "doc" "/a" "abc" (JObject [("a", JInteger 1)]) 1)
      as (chan' & Hexec & Hreports & Hstores & _).
    + apply sample_holds; [discriminate..|reflexivity].
    + discriminate.
    + reflexivity.
    + exists chan'. split; [exact Hexec|]. split; [exact Hreports|exact Hstores].
  - destruct (jsonset_integer_becomes_string sample_atof sample_loads sample_dump 0
                {["doc" := text_a1]} "doc" "/a" text_ff (JObject [("a", JInteger 1)]) 1)
      as (chan' & Hexec & Hreports & Hsame).
    + apply sample_holds; [discriminate..|reflexivity].
    + discriminate.
    + reflexivity.
    + exists chan'. split; [exact Hexec|]. split; [exact Hreports|exact Hsame].
Defined.

(** C5, as the claim has it, fails on a path without segments: the root
    of the document [[1]] is an array, and [jsonset] with the empty path
    reports NotFound (4), not InvalidType (5). *)
Lemma jsonset_array_root_counterexample :
  resolve (JArray [JInteger 1]) "" = Some (JArray [JInteger 1])
  ∧ ast_json_typeof (JArray [JInteger 1]) = AST_JSON_ARRAY
  ∧ sample_loads "[1]" = Some (JArray [JInteger 1])
  ∧ ∃ chan',
      jsonset_exec sample_atof sample_loads sample_dump 0 {["doc" := "[1]"]}
        ["doc"; ""; "2"] = Some chan'
      ∧ result_code chan' = Some "4"
      ∧ ¬ reports chan' ASTJSON_INVALID_TYPE.
Proof.
  split; [reflexivity|]. split; [reflexivity|]. split; [reflexivity|].
  eexists. split; [vm_compute; reflexivity|]. split; [reflexivity|].
  vm_compute. discriminate.
Qed.

Lemma jsonset_null_or_array_invalid_type_witness :
  ∃ chan',
    jsonset_exec sample_atof sample_loads sample_dump 0 {["doc" := "[[1],null]"]}
      ["doc"; "/1"; "2"] = Some chan'
    ∧ reports chan' ASTJSON_INVALID_TYPE
    ∧ ¬ reports chan' ASTJSON_OK
    ∧ left_untouched {["doc" := "[[1],null]"]} chan'.
Proof.
  apply (jsonset_null_or_array_invalid_type sample_atof sample_loads sample_dump 0
           {["doc" := "[[1],null]"]} "doc" "/1" ["2"]
           (JArray [JArray [JInteger 1]; JNull]) JNull).
  - apply sample_holds; [discriminate..|reflexivity].
  - reflexivity.
  - left. reflexivity.
Defined.

(** C2 on the channel whose variable [doc] holds [[1,2,3]]: the buffer
    holds the name [doc], not the text of the document. *)
Lemma jsonelement_empty_path_returns_name_witness :
  ∃ chan',
    jsonelement_exec sample_printf_f sample_loads sample_dump
      {["doc" := "[1,2,3]"]} ["doc"; ""] 4096 = (chan', "doc")
    ∧ reports chan' ASTJSON_OK
    ∧ left_untouched {["doc" := "[1,2,3]"]} chan'.
Proof.
  apply (jsonelement_empty_path_returns_name sample_printf_f sample_loads sample_dump
           {["doc" := "[1,2,3]"]} "doc" [""] 4096).
  - discriminate.
  - reflexivity.
Defined.

(** C3, as the claim has it, fails in two ways. [jsondelete] with an empty
    path reports Ok and writes nothing: the variable [doc], not set before,
    is not set after. And the result code is a variable of the channel too:
    when the document is kept in JSONRESULT, a run that fails changes it. *)
Lemma document_written_iff_ok_counterexample :
  (∃ chan',
     jsondelete_exec sample_loads sample_dump 0 ∅ ["doc"; ""] = Some chan'
     ∧ reports chan' ASTJSON_OK
     ∧ ¬ document_written sample_dump chan' "doc")
  ∧ (∃ chan',
       jsonset_exec sample_atof sample_loads sample_dump 0 {["JSONRESULT" := "[1]"]}
         ["JSONRESULT"; "/0"; "2"] = Some chan'
       ∧ ¬ reports chan' ASTJSON_OK
       ∧ chan' !! "JSONRESULT" ≠ Some "[1]").
Proof.
  split.
  - eexists. split; [reflexivity|]. split; [reflexivity|].
    intros [doc Hdoc]. vm_compute in Hdoc. discriminate.
  - eexists. split; [reflexivity|]. split; vm_compute; discriminate.
Qed.

Lemma document_written_only_if_ok_witness :
  ∃ chan',
    jsonset_exec sample_atof sample_loads sample_dump 0 {["doc" := "[1]"]}
      ["doc"; "/5"; "2"] = Some chan'
    ∧ ¬ reports chan' ASTJSON_OK
    ∧ left_untouched {["doc" := "[1]"]} chan'.
Proof.
  eexists. split; [reflexivity|].
  assert (¬ reports
            (json_set_operation_result
               (json_set_operation_result {["doc" := "[1]"]} ASTJSON_UNDECIDED)
               ASTJSON_NOTFOUND) ASTJSON_OK) as Hfails.
  { vm_compute. discriminate. }
  split; [exact Hfails|].
  exact (proj1 (document_written_only_if_ok sample_atof sample_loads sample_dump 0
                  {["doc" := "[1]"]} _ ["doc"; "/5"; "2"]
                  (or_intror (or_introl eq_refl))) Hfails).
Defined.

(** C4 on the sample channel: after [jsondelete] with [/0] the variable
    holds [[]]. *)
Lemma jsondelete_removes_array_tail_witness :
  ∃ chan',
    jsondelete_exec sample_loads sample_dump 0 {["doc" := "[1,2,3]"]} ["doc"; "/0"]
    = Some chan'
    ∧ reports chan' ASTJSON_OK
    ∧ stores {["doc" := "[1,2,3]"]} chan' "doc" "[]".
Proof.
  apply (jsondelete_removes_array_tail sample_loads sample_dump 0
           {["doc" := "[1,2,3]"]} "doc").
  apply sample_holds; [discriminate..|reflexivity].
Defined.



(** C7, as the claim has it, fails on the document [[1,2,3]], whose root
    is an array: [jsonvariables] reports Ok (0), not ParseError (3). *)
Lemma jsonvariables_array_root_counterexample :
  sample_loads "[1,2,3]" = Some (JArray [JInteger 1; JInteger 2; JInteger 3])
  ∧ result_code
      (jsonvariables_exec sample_printf_f sample_loads sample_dump
         {["doc" := "[1,2,3]"]} ["doc"]) = Some "0"
  ∧ ¬ reports
        (jsonvariables_exec sample_printf_f sample_loads sample_dump
           {["doc" := "[1,2,3]"]} ["doc"]) ASTJSON_PARSE_ERROR.
Proof.
  split; [reflexivity|]. split; [reflexivity|]. vm_compute. discriminate.
Qed.

Lemma jsonvariables_not_object_witness :
  (reports
     (jsonvariables_exec sample_printf_f sample_loads sample_dump
        {["doc" := "[1,2,3]"]} ["doc"]) ASTJSON_OK
   ∧ left_untouched {["doc" := "[1,2,3]"]}
       (jsonvariables_exec sample_printf_f sample_loads sample_dump
          {["doc" := "[1,2,3]"]} ["doc"]))
  ∧ (reports
       (jsonvariables_exec sample_printf_f sample_decode_any sample_dump
          {["doc" := "5"]} ["doc"]) ASTJSON_PARSE_ERROR
     ∧ left_untouched {["doc" := "5"]}
         (jsonvariables_exec sample_printf_f sample_decode_any sample_dump
            {["doc" := "5"]} ["doc"])).
Proof.
  split.
  - destruct (jsonvariables_not_object sample_printf_f sample_loads sample_dump
                {["doc" := "[1,2,3]"]} "doc" "[1,2,3]" []
                (JArray [JInteger 1; JInteger 2; JInteger 3]))
      as ((Hok & _) & Hsame);
      [discriminate|discriminate|reflexivity|reflexivity|reflexivity|discriminate|].
    split; [exact Hok|exact Hsame].
  - destruct (jsonvariables_not_object sample_printf_f sample_decode_any sample_dump
                {["doc" := "5"]} "doc" "5" [] (JInteger 5))
      as (Herror & Hsame);
      [discriminate|discriminate|reflexivity|reflexivity|reflexivity|discriminate|].
    split; [exact Herror|exact Hsame].
Defined.

(** C8, as the claim has it, fails on the tag [foo], for which [jsonadd]
    reports ArgumentNeeded (2), not InvalidType (5); and on the tag [node],
    which is not in the list of the claim and is the tag of an object: the
    run reports Ok and the document changes. *)
Lemma jsonadd_unknown_type_counterexample :
  (∃ chan',
     jsonadd_exec sample_atof sample_loads sample_dump {["doc" := "[1]"]}
       ["doc"; ""; "foo"; "n"; "1"] = Some chan'
     ∧ result_code chan' = Some "2"
     ∧ ¬ reports chan' ASTJSON_INVALID_TYPE)
  ∧ (∃ chan',
       jsonadd_exec sample_atof sample_loads sample_dump {["doc" := "[1]"]}
         ["doc"; ""; "node"; "n"; ""] = Some chan'
       ∧ reports chan' ASTJSON_OK
       ∧ chan' !! "doc" = Some "[1,{}]").
Proof.
  split.
  - eexists. split; [reflexivity|]. split; [reflexivity|]. vm_compute. discriminate.
  - eexists. split; [reflexivity|]. split; reflexivity.
Qed.

Lemma jsonadd_unknown_type_witness :
  ∃ chan',
    jsonadd_exec sample_atof sample_loads sample_dump {["doc" := "[1]"]}
      ["doc"; ""; "foo"; "n"; "1"] = Some chan'
    ∧ reports chan' ASTJSON_ARG_NEEDED
    ∧ ¬ reports chan' ASTJSON_INVALID_TYPE
    ∧ left_untouched {["doc" := "[1]"]} chan'.
Proof.
  apply (jsonadd_unknown_type sample_atof sample_loads sample_dump
           {["doc" := "[1]"]} ["doc"; ""; "foo"; "n"; "1"] "foo").
  - reflexivity.
  - unfold unknown_type. repeat constructor; vm_compute; discriminate.
Defined.

(** The sample [atof] returns zero where there is no number to convert. *)
Lemma scan_digits_no_digit (width : nat) (s : string) :
  match s with String c _ => isdigit c = false | EmptyString => True end →
  scan_digits width s None = None.
Proof. destruct width, s as [|c s]; simpl; try done. by intros ->. Qed.

Lemma sample_atof_no_conversion (s : string) :
  strtod_subject s = false → sample_atof s = positive_zero.
Proof.
  unfold strtod_subject, sample_atof, scan_int.
  destruct (skip_space s) as [|c s']; [done|].
  destruct (Ascii.eqb c "-"); simpl.
  - intros H. rewrite scan_digits_no_digit; [done|].
    destruct s' as [|c' s'']; [done|].
    by repeat (apply orb_false_elim in H as [H _]).
  - destruct (Ascii.eqb c "+"); simpl.
    + intros H. rewrite scan_digits_no_digit; [done|].
      destruct s' as [|c' s'']; [done|].
      by repeat (apply orb_false_elim in H as [H _]).
    + intros H. repeat (apply orb_false_elim in H as [H _]). by rewrite H.
Qed.

(** C9, as the claim has it, fails on the value [inf]: [atof] gives an
    infinity, of which no JSON real is made, and [jsonadd] reports
    AddFailed (6) and stores nothing. *)
Lemma jsonadd_number_infinity_counterexample :
  sample_atof_inf "inf" = S754_infinity false
  ∧ ∃ chan',
      jsonadd_exec sample_atof_inf sample_loads sample_dump {["doc" := "[1]"]}
        ["doc"; ""; "number"; "n"; "inf"] = Some chan'
      ∧ result_code chan' = Some "6"
      ∧ ¬ reports chan' ASTJSON_OK
      ∧ chan' !! "doc" = Some "[1]".
Proof.
  split; [reflexivity|].
  eexists. split; [reflexivity|]. split; [reflexivity|].
  split; [vm_compute; discriminate|reflexivity].
Qed.

(** C9 on the sample channel: the tag [Number] and the value [abc] add
    the real zero to the array the path [/0] addresses. *)
Lemma jsonadd_number_stores_real_witness :
  ∃ chan',
    jsonadd_exec sample_atof sample_loads sample_dump {["doc" := "[[1],null]"]}
      ["doc"; "/0"; "Number"; "n"; "abc"] = Some chan'
    ∧ reports chan' ASTJSON_OK
    ∧ stores {["doc" := "[[1],null]"]} chan' "doc"
        (sample_dump (JArray [JArray [JInteger 1; JReal positive_zero]; JNull]))
    ∧ sample_atof "abc" = positive_zero.
Proof.
  destruct (jsonadd_number_stores_real sample_atof sample_loads sample_dump
              sample_atof_no_conversion {["doc" := "[[1],null]"]}
              "doc" "/0" "Number" "n" "abc"
              (JArray [JArray [JInteger 1]; JNull]) (JArray [JInteger 1]))
    as (chan' & Hrun & Hfinite & _ & _ & _ & Hzero).
  - reflexivity.
  - apply sample_holds; [discriminate..|reflexivity].
  - reflexivity.
  - destruct (Hfinite eq_refl) as [Harray _].
    destruct (Harray [JInteger 1] eq_refl) as (Hok & Hstores & _).
    exists chan'. split; [exact Hrun|]. split; [exact Hok|].
    split; [exact Hstores|exact (proj1 (Hzero eq_refl))].
Defined.

(** C10 on the sample channel: the integer 4294967297 is 1 once cast. *)
Lemma integer_rendering_witness :
  (∃ chan',
     jsonelement_exec sample_printf_f sample_loads sample_dump
       {["doc" := "[4294967297]"]} ["doc"; "/0"] 4096 = (chan', "1"))
  ∧ jsonvariables_exec sample_printf_f sample_loads sample_dump
      {["doc" := text_a1]} ["doc"] !! "a" = Some "1"
  ∧ cast_int 4294967297 = 1.
Proof.
  destruct (integer_rendering sample_printf_f sample_loads sample_dump)
    as (Hget & Hvariables & _).
  split; [|split; [|reflexivity]].
  - destruct (Hget {["doc" := "[4294967297]"]} "doc" "/0" [] 4096%nat
                (JArray [JInteger 4294967297]) 4294967297
                (sample_holds "doc" "[4294967297]" _ ltac:(discriminate)
                   ltac:(discriminate) ltac:(discriminate) eq_refl)
                ltac:(discriminate) eq_refl)
      as (chan' & Hexec & _).
    exists chan'. exact Hexec.
  - apply (Hvariables {["doc" := text_a1]} "doc" "a" [] [("a", JInteger 1)] 1).
    + apply sample_holds; [discriminate..|reflexivity].
    + repeat constructor. by intros ?%elem_of_nil.
    + by apply list_elem_of_here.
    + discriminate.
Defined.

(** ** More of the theorems at work on the sample documents *)

(** A channel with one variable, which holds a text the parser reads. *)
Lemma singleton_holds (decode_json : string → option json) (name source : string)
    (doc : json) :
  name ≠ "" → name ≠ "JSONRESULT" → source ≠ "" →
  json_loads decode_json source = Some doc →
  holds_document decode_json {[name := source]} name doc.
Proof.
  intros Hname Hresult Hsource Hload. split; [done|]. split; [done|].
  exists source. split; [apply lookup_singleton_eq|done].
Qed.

Lemma singleton_holds_text (decode_json : string → option json) (name source : string)
    (doc : json) :
  name ≠ "" → name ≠ "JSONRESULT" → json_loads decode_json source = Some doc →
  holds_text decode_json {[name := source]} name source doc.
Proof.
  intros Hname Hresult Hload. split; [done|]. split; [done|].
  split; [apply lookup_singleton_eq|done].
Qed.

Lemma buffer_within_size_witness :
  (strlen (jsonelement_exec sample_printf_f sample_loads sample_dump
             {["doc" := "[1,2,3]"]} ["doc"; "/"] 4).2 < 4)%nat
  ∧ (strlen (jsonpretty_exec sample_loads sample_dump
               {["doc" := "[1,2,3]"]} ["doc"; "/"] 4).2 < 4)%nat
  ∧ (strlen (jsoncompress_exec sample_loads sample_dump
               {["doc" := "[1,2,3]"]} ["doc"; "/"] 4).2 < 4)%nat.
Proof.
  apply (buffer_within_size sample_printf_f sample_loads sample_dump sample_dump
           {["doc" := "[1,2,3]"]} ["doc"; "/"] 4).
  lia.
Defined.

Lemma jsonelement_frame_witness :
  (jsonelement_exec sample_printf_f sample_loads sample_dump
     {["doc" := "[1,2,3]"]} ["doc"; "/0"] 4096).1 !! "doc"
  = ({["doc" := "[1,2,3]"]} : channel) !! "doc".
Proof.
  apply (jsonelement_frame sample_printf_f sample_loads sample_dump
           {["doc" := "[1,2,3]"]} ["doc"; "/0"] 4096 "doc"); discriminate.
Defined.

Lemma jsonelement_outcome_witness :
  ∃ chan',
    jsonelement_exec sample_printf_f sample_loads sample_dump
      {["doc" := "[1,2,3]"]} ["doc"; "/1"] 4096 = (chan', "2")
    ∧ reports chan' ASTJSON_OK
    ∧ chan' !! "JSONTYPE" = Some "number".
Proof.
  apply (jsonelement_outcome sample_printf_f sample_loads sample_dump
           {["doc" := "[1,2,3]"]} "doc" "[1,2,3]" "/1" [] 4096
           (JArray [JInteger 1; JInteger 2; JInteger 3])).
  - apply singleton_holds_text; [discriminate..|reflexivity].
  - discriminate.
Defined.

(** The compact serialiser of the samples stands for both formats. *)
Lemma format_returns_text_witness :
  jsonpretty_exec sample_loads sample_dump {["doc" := "[1,2,3]"]} ["doc"] 4096
  = (json_set_operation_result {["doc" := "[1,2,3]"]} ASTJSON_OK, "[1,2,3]")
  ∧ jsoncompress_exec sample_loads sample_dump {["doc" := "[1,2,3]"]} ["doc"] 4
    = (json_set_operation_result {["doc" := "[1,2,3]"]} ASTJSON_OK, "[1,")
  ∧ left_untouched {["doc" := "[1,2,3]"]}
      (jsonpretty_exec sample_loads sample_dump {["doc" := "[1,2,3]"]} ["doc"] 4096).1.
Proof.
  destruct (format_returns_text sample_loads sample_dump sample_dump) as [Hframe Htext].
  split; [|split].
  - apply (Htext {["doc" := "[1,2,3]"]} "doc" "[1,2,3]" [] 4096%nat
             (JArray [JInteger 1; JInteger 2; JInteger 3])).
    apply singleton_holds_text; [discriminate..|reflexivity].
  - apply (Htext {["doc" := "[1,2,3]"]} "doc" "[1,2,3]" [] 4%nat
             (JArray [JInteger 1; JInteger 2; JInteger 3])).
    apply singleton_holds_text; [discriminate..|reflexivity].
  - apply Hframe.
Defined.

Lemma unreadable_document_parse_error_witness :
  (∃ chan',
     jsonelement_exec sample_printf_f sample_loads sample_dump
       {["doc" := "oops"]} ["doc"; "/0"] 4096 = (chan', "")
     ∧ reports chan' ASTJSON_PARSE_ERROR
     ∧ left_untouched {["doc" := "oops"]} chan')
  ∧ jsonpretty_exec sample_loads sample_dump {["doc" := "oops"]} ["doc"] 4096
    = (json_set_operation_result {["doc" := "oops"]} ASTJSON_PARSE_ERROR, "").
Proof.
  destruct (unreadable_document_parse_error sample_printf_f sample_loads sample_dump
              sample_dump {["doc" := "oops"]} "doc" [] 4096)
    as (Hget & _ & Hpretty & _).
  - split; [discriminate|]. split; [discriminate|]. reflexivity.
  - split; [|exact Hpretty]. apply (Hget "/0"). discriminate.
Defined.

Lemma mutation_result_codes_witness :
  ∃ chan' ret,
    jsonset_exec sample_atof sample_loads sample_dump 0 {["doc" := "[1]"]}
      ["doc"; "/5"; "2"] = Some chan'
    ∧ reports chan' ret
    ∧ ret ∈ [ASTJSON_OK; ASTJSON_ARG_NEEDED; ASTJSON_PARSE_ERROR; ASTJSON_NOTFOUND;
             ASTJSON_INVALID_TYPE].
Proof.
  assert (jsonset_exec sample_atof sample_loads sample_dump 0 {["doc" := "[1]"]}
            ["doc"; "/5"; "2"]
          = Some (json_set_operation_result
                    (json_set_operation_result {["doc" := "[1]"]} ASTJSON_UNDECIDED)
                    ASTJSON_NOTFOUND)) as Hrun by reflexivity.
  destruct (proj1 (proj2 (mutation_result_codes sample_atof sample_loads sample_dump 0
                            _ _ _)) Hrun)
    as (ret & Hreports & Hin).
  eexists. exists ret. split; [exact Hrun|]. split; [exact Hreports|exact Hin].
Defined.

Lemma jsonset_keeps_scalar_type_witness :
  (∃ chan',
     jsonset_exec sample_atof sample_loads_strings sample_dump 0
       {["doc" := text_a_string "abc"]} ["doc"; "/a"; "xyz"] = Some chan'
     ∧ reports chan' ASTJSON_OK
     ∧ stores {["doc" := text_a_string "abc"]} chan' "doc" (text_a_string "xyz"))
  ∧ (∃ chan',
       jsonset_exec sample_atof sample_loads_strings sample_dump 0
         {["doc" := text_a_string "abc"]} ["doc"; "/a"; text_ff] = Some chan'
       ∧ reports chan' ASTJSON_INVALID_TYPE
       ∧ left_untouched {["doc" := text_a_string "abc"]} chan').
Proof.
  split.
  - destruct (jsonset_keeps_scalar_type sample_atof sample_loads_strings sample_dump 0
                {["doc" := text_a_string "abc"]} "doc" "/a" "xyz"
                (JObject [("a", JString "abc")]) (JString "abc"))
      as (chan' & Hrun & Hok & Hstores & _).
    + apply singleton_holds; [discriminate..|reflexivity].
    + discriminate.
    + reflexivity.
    + do 2 apply list_elem_of_further. apply list_elem_of_here.
    + exists chan'. split; [exact Hrun|]. split; [exact Hok|exact Hstores].
  - destruct (jsonset_keeps_scalar_type sample_atof sample_loads_strings sample_dump 0
                {["doc" := text_a_string "abc"]} "doc" "/a" text_ff
                (JObject [("a", JString "abc")]) (JString "abc"))
      as (chan' & Hrun & Hinvalid & Hsame).
    + apply singleton_holds; [discriminate..|reflexivity].
    + discriminate.
    + reflexivity.
    + do 2 apply list_elem_of_further. apply list_elem_of_here.
    + exists chan'. split; [exact Hrun|]. split; [exact Hinvalid|exact Hsame].
Defined.

Lemma jsonset_object_replaced_witness :
  ∃ chan',
    jsonset_exec sample_atof sample_loads_strings sample_dump 0
      {["doc" := text_a_object]} ["doc"; "/a"; "[]"] = Some chan'
    ∧ reports chan' ASTJSON_OK
    ∧ stores {["doc" := text_a_object]} chan' "doc"
        (sample_dump (JObject [("a", JArray [])])).
Proof.
  destruct (jsonset_object_replaced sample_atof sample_loads_strings sample_dump 0
              {["doc" := text_a_object]} "doc" "/a" "[]"
              (JObject [("a", JObject [])]) [])
    as (chan' & Hrun & Hok & Hstores & _).
  - apply singleton_holds; [discriminate..|reflexivity].
  - discriminate.
  - reflexivity.
  - exists chan'. split; [exact Hrun|]. split; [exact Hok|exact Hstores].
Defined.

Lemma jsonset_changes_only_addressed_witness :
  ∃ chan' doc',
    jsonset_exec sample_atof sample_loads_strings sample_dump 0
      {["doc" := text_a_b_strings "abc" "hi"]} ["doc"; "/a"; "xyz"] = Some chan'
    ∧ stores {["doc" := text_a_b_strings "abc" "hi"]} chan' "doc" (sample_dump doc')
    ∧ element_walk ["b"] doc' = Some (JString "hi").
Proof.
  assert (jsonset_exec sample_atof sample_loads_strings sample_dump 0
            {["doc" := text_a_b_strings "abc" "hi"]} ["doc"; "/a"; "xyz"]
          = Some (json_set_operation_result
                    (pbx_builtin_setvar_helper
                       (json_set_operation_result
                          {["doc" := text_a_b_strings "abc" "hi"]} ASTJSON_UNDECIDED)
                       "doc" (text_a_b_strings "xyz" "hi"))
                    ASTJSON_OK)) as Hrun by reflexivity.
  assert (holds_document sample_loads_strings {["doc" := text_a_b_strings "abc" "hi"]}
            "doc" (JObject [("a", JString "abc"); ("b", JString "hi")])) as Hdoc
    by (apply singleton_holds; [discriminate..|reflexivity]).
  destruct (jsonset_changes_only_addressed sample_atof sample_loads_strings sample_dump 0
              _ _ "doc" "/a" ["xyz"] _ Hdoc Hrun (reports_result _ _))
    as (doc' & Hstores & Hframe).
  eexists. exists doc'. split; [exact Hrun|]. split; [exact Hstores|].
  exact (Hframe [] "a" "b" [] [] eq_refl ltac:(discriminate)).
Defined.

Lemma jsonadd_appends_to_array_witness :
  ∃ chan',
    jsonadd_exec sample_atof sample_loads sample_dump {["doc" := "[1]"]}
      ["doc"; ""; "string"; "n"; "hi"] = Some chan'
    ∧ reports chan' ASTJSON_OK
    ∧ stores {["doc" := "[1]"]} chan' "doc"
        (sample_dump (JArray [JInteger 1; JString "hi"])).
Proof.
  destruct (jsonadd_appends_to_array sample_atof sample_loads sample_dump
              {["doc" := "[1]"]} "doc" "" "string" ["n"; "hi"]
              (JArray [JInteger 1]) (JString "hi") [JInteger 1])
    as (chan' & Hrun & Hok & Hstores & _).
  - apply singleton_holds; [discriminate..|reflexivity].
  - discriminate.
  - reflexivity.
  - reflexivity.
  - exists chan'. split; [exact Hrun|]. split; [exact Hok|exact Hstores].
Defined.

Lemma jsonadd_sets_member_witness :
  (∃ chan',
     jsonadd_exec sample_atof sample_loads_strings sample_dump
       {["doc" := text_a_string "abc"]} ["doc"; ""; "string"; "b"; "hi"] = Some chan'
     ∧ reports chan' ASTJSON_OK
     ∧ stores {["doc" := text_a_string "abc"]} chan' "doc" (text_a_b_strings "abc" "hi"))
  ∧ (∃ chan',
       jsonadd_exec sample_atof sample_loads_strings sample_dump
         {["doc" := text_a_string "abc"]} ["doc"; ""; "string"; text_ff; "hi"] = Some chan'
       ∧ reports chan' ASTJSON_ADD_FAILED
       ∧ left_untouched {["doc" := text_a_string "abc"]} chan').
Proof.
  split.
  - destruct (jsonadd_sets_member sample_atof sample_loads_strings sample_dump
                {["doc" := text_a_string "abc"]} "doc" "" "string" "b" ["b"; "hi"]
                (JObject [("a", JString "abc")]) (JString "hi") [("a", JString "abc")])
      as (chan' & Hrun & Hok & Hstores & _).
    + apply singleton_holds; [discriminate..|reflexivity].
    + discriminate.
    + reflexivity.
    + reflexivity.
    + reflexivity.
    + exists chan'. split; [exact Hrun|]. split; [exact Hok|exact Hstores].
  - destruct (jsonadd_sets_member sample_atof sample_loads_strings sample_dump
                {["doc" := text_a_string "abc"]} "doc" "" "string" text_ff
                [text_ff; "hi"]
                (JObject [("a", JString "abc")]) (JString "hi") [("a", JString "abc")])
      as (chan' & Hrun & Hfailed & Hsame).
    + apply singleton_holds; [discriminate..|reflexivity].
    + discriminate.
    + reflexivity.
    + reflexivity.
    + reflexivity.
    + exists chan'. split; [exact Hrun|]. split; [exact Hfailed|exact Hsame].
Defined.

Lemma jsonadd_refuses_witness :
  ∃ chan',
    jsonadd_exec sample_atof sample_loads sample_dump {["doc" := "[1]"]}
      ["doc"; "/0"; "string"; "n"; "hi"] = Some chan'
    ∧ reports chan' ASTJSON_ADD_FAILED
    ∧ left_untouched {["doc" := "[1]"]} chan'.
Proof.
  destruct (jsonadd_refuses sample_atof sample_loads sample_dump
              {["doc" := "[1]"]} "doc" "/0" "string" ["n"; "hi"]
              (JArray [JInteger 1]) (Some (JString "hi")))
    as (chan' & Hrun & _ & Hfailed).
  - apply singleton_holds; [discriminate..|reflexivity].
  - discriminate.
  - reflexivity.
  - exists chan'. split; [exact Hrun|].
    apply (Hfailed (JInteger 1)); [reflexivity|].
    left. split; discriminate.
Defined.

Lemma jsonadd_creates_root_witness :
  (∃ chan',
     jsonadd_exec sample_atof sample_loads sample_dump ∅
       ["doc"; ""; "string"; "k"; "hi"] = Some chan'
     ∧ reports chan' ASTJSON_OK
     ∧ stores ∅ chan' "doc" (sample_dump (JObject [("k", JString "hi")])))
  ∧ (∃ chan',
       jsonadd_exec sample_atof sample_loads sample_dump ∅
         ["doc"; ""; "string"; text_ff; "hi"] = Some chan'
       ∧ reports chan' ASTJSON_ADD_FAILED
       ∧ left_untouched ∅ chan').
Proof.
  split.
  - apply (jsonadd_creates_root sample_atof sample_loads sample_dump
             ∅ "doc" "" "string" ["k"; "hi"] (JString "hi"));
      [discriminate|discriminate|reflexivity|discriminate|reflexivity].
  - apply (jsonadd_creates_root sample_atof sample_loads sample_dump
             ∅ "doc" "" "string" [text_ff; "hi"] (JString "hi"));
      [discriminate|discriminate|reflexivity|discriminate|reflexivity].
Defined.

Lemma jsondelete_ignores_later_segments_witness :
  jsondelete_exec sample_loads sample_dump 0 {["doc" := text_a1]} ["doc"; "/a/b"]
  = jsondelete_exec sample_loads sample_dump 0 {["doc" := text_a1]} ["doc"; "/a/c"].
Proof.
  apply (jsondelete_ignores_later_segments sample_loads sample_dump 0
           {["doc" := text_a1]} "doc" "/a/b" "/a/c" "a" ["b"] ["c"]);
    [discriminate|discriminate|reflexivity|reflexivity|reflexivity].
Defined.

Lemma jsondelete_array_keeps_prefix_witness :
  ∃ chan',
    jsondelete_exec sample_loads sample_dump 0 {["doc" := "[1,2,3]"]} ["doc"; "/1"]
    = Some chan'
    ∧ reports chan' ASTJSON_OK
    ∧ stores {["doc" := "[1,2,3]"]} chan' "doc" "[1]".
Proof.
  apply (jsondelete_array_keeps_prefix sample_loads sample_dump 0
           {["doc" := "[1,2,3]"]} "doc" "/1" "1" 1
           [JInteger 1; JInteger 2; JInteger 3]).
  - apply singleton_holds; [discriminate..|reflexivity].
  - discriminate.
  - reflexivity.
  - reflexivity.
  - lia.
  - simpl. lia.
Defined.

Lemma jsondelete_removes_member_witness :
  ∃ chan',
    jsondelete_exec sample_loads_strings sample_dump 0
      {["doc" := text_a_b_strings "abc" "hi"]} ["doc"; "/b"] = Some chan'
    ∧ reports chan' ASTJSON_OK
    ∧ stores {["doc" := text_a_b_strings "abc" "hi"]} chan' "doc" (text_a_string "abc").
Proof.
  destruct (jsondelete_removes_member sample_loads_strings sample_dump 0
              {["doc" := text_a_b_strings "abc" "hi"]} "doc" "/b" "b"
              [("a", JString "abc"); ("b", JString "hi")] (JString "hi"))
    as (chan' & Hrun & Hok & Hstores & _).
  - apply singleton_holds; [discriminate..|reflexivity].
  - discriminate.
  - reflexivity.
  - reflexivity.
  - reflexivity.
  - exists chan'. split; [exact Hrun|]. split; [exact Hok|exact Hstores].
Defined.

(** The variable [doc] is not set: [jsondelete] and [jsonset] read the
    length of a text that is not there. *)
Lemma jsondelete_returns_witness :
  jsondelete_exec sample_loads sample_dump 0 ∅ ["doc"; "/0"] = None.
Proof.
  apply (jsondelete_returns sample_loads sample_dump 0 ∅ ["doc"; "/0"]).
  exists "doc", "/0".
  split; [reflexivity|]. split; [discriminate|]. split; [reflexivity|].
  split; [discriminate|]. split; [discriminate|reflexivity].
Defined.

Lemma jsonset_returns_witness :
  jsonset_exec sample_atof sample_loads sample_dump 0 ∅ ["doc"; "/0"; "1"] = None.
Proof.
  apply (jsonset_returns sample_atof sample_loads sample_dump 0 ∅ ["doc"; "/0"; "1"]).
  exists "doc". split; [reflexivity|]. split; [discriminate|]. exact I.
Defined.

Lemma jsonvariables_sets_members_witness :
  jsonvariables_exec sample_printf_f sample_loads_strings sample_dump
    {["doc" := text_a_b_strings "abc" "hi"]} ["doc"] !! "b" = Some "hi".
Proof.
  destruct (jsonvariables_sets_members sample_printf_f sample_loads_strings sample_dump
              {["doc" := text_a_b_strings "abc" "hi"]} "doc" []
              [("a", JString "abc"); ("b", JString "hi")])
    as [_ Hvariables].
  - apply singleton_holds; [discriminate..|reflexivity].
  - apply NoDup_cons. split; [|apply NoDup_singleton].
    intros Hin%list_elem_of_singleton. discriminate.
  - exact (Hvariables "b" ltac:(discriminate)).
Defined.

Lemma unparsable_document_refused_witness :
  jsonset_exec sample_atof sample_loads sample_dump 0 {["doc" := "oops"]} ["doc"]
  = Some (json_set_operation_result
            (json_set_operation_result {["doc" := "oops"]} ASTJSON_UNDECIDED)
            ASTJSON_PARSE_ERROR)
  ∧ jsondelete_exec sample_loads sample_dump 0 {["doc" := "oops"]} ["doc"; "/0"]
    = Some (json_set_operation_result
              (json_set_operation_result {["doc" := "oops"]} ASTJSON_UNDECIDED)
              ASTJSON_PARSE_ERROR).
Proof.
  destruct (unparsable_document_refused sample_atof sample_loads sample_dump 0
              {["doc" := "oops"]} "doc" "oops")
    as (Hset & Hdelete & _);
    [discriminate|discriminate|reflexivity|discriminate|reflexivity|].
  split; [exact (Hset [])|exact (Hdelete "/0" [] ltac:(discriminate))].
Defined.

Lemma path_slashes_optional_witness :
  jsonelement_exec sample_printf_f sample_loads sample_dump
    {["doc" := text_a1]} ["doc"; "/a/"] 4096
  = jsonelement_exec sample_printf_f sample_loads sample_dump
      {["doc" := text_a1]} ["doc"; "a"] 4096
  ∧ jsondelete_exec sample_loads sample_dump 0 {["doc" := text_a1]} ["doc"; "/a/"]
    = jsondelete_exec sample_loads sample_dump 0 {["doc" := text_a1]} ["doc"; "a"].
Proof.
  destruct (path_slashes_optional sample_atof sample_printf_f sample_loads sample_dump 0
              {["doc" := text_a1]} "doc" "a" "/a/" [] 4096)
    as (Hget & _ & _ & Hdelete).
  - split; [discriminate|reflexivity].
  - do 3 apply list_elem_of_further. apply list_elem_of_here.
  - split; [exact Hget|exact Hdelete].
Defined.

Lemma array_index_range_witness :
  ∃ i : nat,
    (i < 1000)%nat ∧ sscanf_3d "1" = Some (Z.of_nat i)
    ∧ [JTrue; JFalse] !! i = Some JFalse.
Proof. exact (array_index_range [JTrue; JFalse] "1" JFalse eq_refl). Defined.

(** The member [12] of the object is found by no path: the segment [12]
    is the index 12. *)
Lemma numeric_key_unreachable_witness :
  element_walk ["12"] (JObject [("12", JTrue)]) = None
  ∧ members_get "12" [("12", JTrue)] = Some JTrue.
Proof.
  split; [|reflexivity].
  apply (numeric_key_unreachable sample_atof sample_loads [] [] "12"
           (JObject [("12", JTrue)]) [("12", JTrue)]).
  - reflexivity.
  - by exists 12.
Defined.

(** [jsonset] of [/a] to [xyz], then [jsonelement] of [/a]. *)
Lemma jsonset_then_jsonelement_witness :
  ∃ chan' chan'',
    jsonset_exec sample_atof sample_loads_strings sample_dump 0
      {["doc" := text_a_string "abc"]} ["doc"; "/a"; "xyz"] = Some chan'
    ∧ jsonelement_exec sample_printf_f sample_loads_strings sample_dump
        chan' ["doc"; "/a"] 4096 = (chan'', "xyz")
    ∧ reports chan'' ASTJSON_OK
    ∧ chan'' !! "JSONTYPE" = Some "string".
Proof.
  destruct (jsonset_then_jsonelement sample_atof sample_printf_f sample_loads_strings
              sample_dump 0 {["doc" := text_a_string "abc"]} "doc" "/a" ["xyz"]
              (JObject [("a", JString "abc")]) (JString "abc") (JString "xyz"))
    as (chan' & Hrun & _ & Hget).
  - apply singleton_holds; [discriminate..|reflexivity].
  - discriminate.
  - reflexivity.
  - reflexivity.
  - reflexivity.
  - destruct (Hget [] 4096%nat) as (chan'' & Hexec & Hok & Htype).
    exists chan', chan''. split; [exact Hrun|]. split; [exact Hexec|].
    split; [exact Hok|exact Htype].
Defined.

(** [jsonadd] of the member [b], then [jsonelement] of [/b]. *)
Lemma jsonadd_then_jsonelement_witness :
  ∃ chan' chan'',
    jsonadd_exec sample_atof sample_loads_strings sample_dump
      {["doc" := text_a_string "abc"]} ["doc"; ""; "string"; "b"; "hi"] = Some chan'
    ∧ jsonelement_exec sample_printf_f sample_loads_strings sample_dump
        chan' ["doc"; "/b"] 4096 = (chan'', "hi")
    ∧ reports chan'' ASTJSON_OK.
Proof.
  destruct (jsonadd_then_jsonelement sample_atof sample_printf_f sample_loads_strings
              sample_dump {["doc" := text_a_string "abc"]} "doc" "" "/b" "string" "b"
              ["b"; "hi"] (JObject [("a", JString "abc")]) (JString "hi")
              [("a", JString "abc")])
    as (chan' & Hrun & _ & Hget).
  - apply singleton_holds; [discriminate..|reflexivity].
  - discriminate.
  - reflexivity.
  - reflexivity.
  - reflexivity.
  - reflexivity.
  - discriminate.
  - reflexivity.
  - reflexivity.
  - destruct (Hget [] 4096%nat) as (chan'' & Hexec & Hok & _).
    exists chan', chan''. split; [exact Hrun|]. split; [exact Hexec|exact Hok].
Defined.

(** [jsondelete] of [/b], then [jsonelement] of [/b]. *)
Lemma jsondelete_then_jsonelement_witness :
  ∃ chan' chan'',
    jsondelete_exec sample_loads_strings sample_dump 0
      {["doc" := text_a_b_strings "abc" "hi"]} ["doc"; "/b"] = Some chan'
    ∧ jsonelement_exec sample_printf_f sample_loads_strings sample_dump
        chan' ["doc"; "/b"] 4096 = (chan'', "")
    ∧ reports chan'' ASTJSON_NOTFOUND.
Proof.
  destruct (jsondelete_then_jsonelement sample_printf_f sample_loads_strings sample_dump 0
              {["doc" := text_a_b_strings "abc" "hi"]} "doc" "/b" "b"
              (JObject [("a", JString "abc"); ("b", JString "hi")])
              (JObject [("a", JString "abc")]))
    as (chan' & Hrun & _ & _ & Hget).
  - apply singleton_holds; [discriminate..|reflexivity].
  - discriminate.
  - reflexivity.
  - reflexivity.
  - reflexivity.
  - destruct (Hget [] 4096%nat) as (chan'' & Hexec & Hnotfound).
    exists chan', chan''. split; [exact Hrun|]. split; [exact Hexec|exact Hnotfound].
Defined.

(** [jsonadd] of the member [b], then [jsondelete] of [/b]: the variable
    holds the text it held. *)
Lemma jsonadd_then_jsondelete_witness :
  ∃ chan' chan'',
    jsonadd_exec sample_atof sample_loads_strings sample_dump
      {["doc" := text_a_string "abc"]} ["doc"; ""; "string"; "b"; "hi"] = Some chan'
    ∧ jsondelete_exec sample_loads_strings sample_dump 0 chan' ["doc"; "/b"] = Some chan''
    ∧ stores {["doc" := text_a_string "abc"]} chan'' "doc" (text_a_string "abc").
Proof.
  destruct (jsonadd_then_jsondelete sample_atof sample_loads_strings sample_dump 0
              {["doc" := text_a_string "abc"]} "doc" "" "/b" "string" "b" ["b"; "hi"]
              (JString "hi") [("a", JString "abc")])
    as (chan' & chan'' & Hadd & _ & Hdelete & _ & Hstores).
  - apply singleton_holds; [discriminate..|reflexivity].
  - discriminate.
  - reflexivity.
  - reflexivity.
  - reflexivity.
  - reflexivity.
  - reflexivity.
  - discriminate.
  - reflexivity.
  - discriminate.
  - reflexivity.
  - exists chan', chan''. split; [exact Hadd|]. split; [exact Hdelete|exact Hstores].
Defined.
